(** * kubectl-assistant: the tool boundary, the transcript store, the settings store and the command line

    A shallow embedding of [kube_assistant/agent.py],
    [kube_assistant/config.py] and [kube_assistant/cli.py].

    - Python [str] is [string]; one [ascii] stands for one character with a
      code point below 256.
    - A function that may raise returns a [result]; an exception carries
      what the handlers of the program look at: the name of its class,
      whether it is an instance of [Exception], and its [str()].
    - The rich console is a log of [event]s: the calls that returned, in
      their order. A call that renders a text made of data as markup may
      raise instead (rich raises [MarkupError] at a closing tag that closes
      nothing); what such a call does is the parameter [console] of the
      sections. A call whose text is written in the program, or that shows
      no markup (a blank line, a rule without title, a [Syntax]), returns.
      What rich draws for a call that returned is not modelled.
    - The [json], [pickle] and [subprocess] modules are parameters of the
      sections that use them, with the exceptions they raise; [shlex.split]
      is written out.
    - Files are modelled as far as the code has handlers for them: a file is
      absent, cannot be opened or holds a text, and writing the transcript
      may fail before or after the file was opened. [config.py] has no
      handler for a directory that cannot be made or a settings file that
      cannot be written; there the model takes [mkdir] and the write to
      succeed. *)

From Stdlib Require Import Ascii String ZArith List Lia Bool.
From stdpp Require Import base tactics option list strings countable pretty.

Local Open Scope string_scope.
Local Open Scope list_scope.
Set Warnings "-register-all".

(** ** Python values, exceptions and string methods *)

Module Py.

Record exn := Exn {
  exn_type : string;        (* the name of the class *)
  is_Exception : bool;      (* isinstance(e, Exception) *)
  exn_str : string          (* str(e) *)
}.

Definition ValueError (msg : string) : exn := Exn "ValueError" true msg.
Definition TypeError (msg : string) : exn := Exn "TypeError" true msg.
Definition KeyError (msg : string) : exn := Exn "KeyError" true msg.
Definition AttributeError (msg : string) : exn := Exn "AttributeError" true msg.
Definition KeyboardInterrupt : exn := Exn "KeyboardInterrupt" false "".
Definition OSError (msg : string) : exn := Exn "OSError" true msg.
Definition EOFError (msg : string) : exn := Exn "EOFError" true msg.
Definition JSONDecodeError (msg : string) : exn := Exn "JSONDecodeError" true msg.
Definition UnicodeDecodeError (msg : string) : exn := Exn "UnicodeDecodeError" true msg.
Definition RecursionError (msg : string) : exn := Exn "RecursionError" true msg.
Definition ModuleNotFoundError (msg : string) : exn :=
  Exn "ModuleNotFoundError" true msg.
Definition UnpicklingError (msg : string) : exn := Exn "UnpicklingError" true msg.
(** [rich.errors.MarkupError] *)
Definition MarkupError (msg : string) : exn := Exn "MarkupError" true msg.

(** [isinstance(e, json.JSONDecodeError)]: the class has no subclass. *)
Definition is_JSONDecodeError (e : exn) : bool :=
  String.eqb (exn_type e) "JSONDecodeError".

(** [isinstance(e, IOError)]. [IOError] is another name of [OSError]; these
    are the class and its subclasses among the builtins. *)
Definition OSError_classes : list string :=
  [ "OSError"; "BlockingIOError"; "ChildProcessError"; "ConnectionError";
    "BrokenPipeError"; "ConnectionAbortedError"; "ConnectionRefusedError";
    "ConnectionResetError"; "FileExistsError"; "FileNotFoundError";
    "InterruptedError"; "IsADirectoryError"; "NotADirectoryError";
    "PermissionError"; "ProcessLookupError"; "TimeoutError" ].

Definition is_OSError (e : exn) : bool :=
  existsb (String.eqb (exn_type e)) OSError_classes.

(** [isinstance(e, KeyboardInterrupt)] *)
Definition is_KeyboardInterrupt (e : exn) : bool :=
  String.eqb (exn_type e) "KeyboardInterrupt".

Inductive result (A : Type) : Type :=
| Return (a : A)
| Raise (e : exn).
Arguments Return {A} a.
Arguments Raise {A} e.

Definition bind {A B} (r : result A) (k : A -> result B) : result B :=
  match r with
  | Return a => k a
  | Raise e => Raise e
  end.

(** Characters that the program names. *)
Definition LF : ascii := "010"%char.
Definition TAB : ascii := "009"%char.
Definition CR : ascii := "013"%char.
Definition DQUOTE : ascii := "034"%char.
Definition SQUOTE : ascii := "039"%char.
Definition BACKSLASH : ascii := "092"%char.

(** [str.isspace] on one character, for code points below 256: TAB to CR,
    FS to US, space, NEL and NBSP. *)
Definition isspace (c : ascii) : bool :=
  let n := N_of_ascii c in
  ((9 <=? n) && (n <=? 13) || (28 <=? n) && (n <=? 32)
   || (n =? 133) || (n =? 160))%N.

Fixpoint lstrip (s : string) : string :=
  match s with
  | "" => ""
  | String c r => if isspace c then lstrip r else s
  end.

Fixpoint rstrip (s : string) : string :=
  match s with
  | "" => ""
  | String c r =>
      match rstrip r with
      | "" => if isspace c then "" else String c ""
      | r' => String c r'
      end
  end.

(** [s.strip()] *)
Definition strip (s : string) : string := rstrip (lstrip s).

(** [s.startswith(p)] *)
Definition startswith (s p : string) : bool := String.prefix p s.

(** [s.endswith(p)] *)
Fixpoint endswith (s p : string) : bool :=
  String.eqb s p ||
  match s with
  | "" => false
  | String _ r => endswith r p
  end.

(** [s.split(sep)] for a separator of one character. *)
Fixpoint split (sep : ascii) (s : string) : list string :=
  match s with
  | "" => [""]
  | String c r =>
      if Ascii.eqb c sep then "" :: split sep r
      else match split sep r with
           | [] => [String c ""]
           | l :: ls => String c l :: ls
           end
  end.

(** [sep.join(l)] *)
Fixpoint join (sep : string) (l : list string) : string :=
  match l with
  | [] => ""
  | [x] => x
  | x :: rest => x +:+ sep +:+ join sep rest
  end.

Fixpoint drop_chars (n : nat) (s : string) : string :=
  match n, s with
  | O, _ => s
  | S n', String _ r => drop_chars n' r
  | S _, "" => ""
  end.

(** [s[-n:]] for [n > 0]: the start index [len(s) - n] is clamped at 0. *)
Definition last_chars (n : nat) (s : string) : string :=
  drop_chars (String.length s - n) s.

(** [c in s] for one character. *)
Fixpoint has_char (c : ascii) (s : string) : bool :=
  match s with
  | "" => false
  | String c' r => Ascii.eqb c' c || has_char c r
  end.

(** [str(n)] for a non-negative [int]. *)
Definition str_of_nat (n : nat) : string := pretty n.

End Py.
Export Py.

(** ** [shlex.split(s)] of the standard library

    [posix=True], [whitespace_split=True], no commenters, no punctuation
    characters: the state machine of [shlex.read_token], run over the whole
    input. The states are Python's [' '], ['a'], a quote character and the
    escape character. *)

Module shlex.

Inductive state :=
| Blank                    (* ' ' *)
| Word                     (* 'a' *)
| Quote (q : ascii)        (* state in self.quotes *)
| Escape (e : ascii).      (* state in self.escape *)

Definition whitespace (c : ascii) : bool :=
  Ascii.eqb c " " || Ascii.eqb c TAB || Ascii.eqb c CR || Ascii.eqb c LF.
Definition quotes (c : ascii) : bool := Ascii.eqb c SQUOTE || Ascii.eqb c DQUOTE.
Definition escape (c : ascii) : bool := Ascii.eqb c BACKSLASH.
Definition escapedquotes (c : ascii) : bool := Ascii.eqb c DQUOTE.

Definition nonempty (s : string) : bool := negb (String.eqb s "").

Definition push (c : ascii) (token : string) : string := token +:+ String c "".

Definition cons_token (t : string) (r : result (list string)) : result (list string) :=
  bind r (fun ts => Return (t :: ts)).

(** The token handed out when [read_token] leaves its loop at the end of the
    input: [None] (no token) when it is empty and was not quoted. *)
Definition last_token (token : string) (quoted : bool) : list string :=
  if negb quoted && String.eqb token "" then [] else [token].

(** [lex s st esc quoted token]: the tokens read from [s] when the lexer is
    in state [st] with [escapedstate = esc], and the current call of
    [read_token] has [quoted] and [token]. A token is handed out at
    [break]; the next call starts with [quoted = False], [token = ''],
    [escapedstate = ' ']. *)
Fixpoint lex (s : string) (st esc : state) (quoted : bool) (token : string)
  : result (list string) :=
  match s with
  | "" =>
      match st with
      | Blank | Word => Return (last_token token quoted)
      | Quote _ => Raise (ValueError "No closing quotation")
      | Escape _ => Raise (ValueError "No escaped character")
      end
  | String c r =>
      match st with
      | Blank =>
          if whitespace c then
            if nonempty token || quoted
            then cons_token token (lex r Blank Blank false "")
            else lex r Blank esc quoted token
          else if escape c then lex r (Escape c) Word quoted token
          else if quotes c then lex r (Quote c) esc quoted token
          else lex r Word esc quoted (String c "")
      | Quote q =>
          if Ascii.eqb c q then lex r Word esc true token
          else if escape c && escapedquotes q then lex r (Escape c) (Quote q) true token
          else lex r (Quote q) esc true (push c token)
      | Escape e =>
          let token :=
            match esc with
            | Quote q =>
                if negb (Ascii.eqb c e) && negb (Ascii.eqb c q)
                then push e token else token
            | _ => token
            end in
          lex r esc esc quoted (push c token)
      | Word =>
          if whitespace c then
            if nonempty token || quoted
            then cons_token token (lex r Blank Blank false "")
            else lex r Blank esc quoted token
          else if quotes c then lex r (Quote c) esc quoted token
          else if escape c then lex r (Escape c) Word quoted token
          else lex r Word esc quoted (push c token)
      end
  end.

Definition split (s : string) : result (list string) := lex s Blank Blank false "".

End shlex.

(** ** Python objects

    What [json.load] and [pickle.load] hand to the program. A [dict] keeps
    its insertion order (the order [json.dump] writes); its keys are strings.
    JSON numbers with a fraction or an exponent are not modelled. *)

Inductive role :=
| Human                          (* HumanMessage *)
| AI                             (* AIMessage *)
| OtherMessage (type : string).  (* any other subclass of BaseMessage *)

Record message := Message { msg_role : role; msg_content : string }.

Inductive pyval :=
| VNone
| VBool (b : bool)
| VInt (z : Z)
| VStr (s : string)
| VList (l : list pyval)
| VDict (d : list (string * pyval))
| VMessage (m : message).

Abbreviation dict := (list (string * pyval)).

(** [d.get(k)] *)
Fixpoint dict_get (k : string) (d : dict) : option pyval :=
  match d with
  | [] => None
  | (k', v) :: d' => if String.eqb k' k then Some v else dict_get k d'
  end.

(** [d[k] = v]: an existing key keeps its place, a new key goes last. *)
Fixpoint dict_set (k : string) (v : pyval) (d : dict) : dict :=
  match d with
  | [] => [(k, v)]
  | (k', v') :: d' =>
      if String.eqb k' k then (k', v) :: d' else (k', v') :: dict_set k v d'
  end.

(** [bool(v)] *)
Definition truthy (v : pyval) : bool :=
  match v with
  | VNone => false
  | VBool b => b
  | VInt z => negb (z =? 0)%Z
  | VStr s => negb (String.eqb s "")
  | VList l => negb (Nat.eqb (length l) 0)
  | VDict d => negb (Nat.eqb (length d) 0)
  | VMessage _ => true
  end.

(** ** The agent module: [kubectl_exec] and its display decorator *)

Module Agent.

(** One call on a rich console. *)
Inductive event :=
| PrintBlank                                              (* console.print() *)
| Print (text : string)                                   (* console.print(text) *)
| Rule (title : option string)                            (* console.rule(...) *)
| PrintTable (title : string) (rows : list (string * string))
| PrintSyntax (code lexer : string) (line_numbers : bool) (* console.print(Syntax(...)) *)
| PrintPanel (text title border_style : string).         (* console.print(Panel(...)) *)

(** A piece of code that calls the console: the calls that returned, in
    their order, and the value or the exception that ended the piece. *)
Definition C (A : Type) : Type := (list event * result A)%type.

Definition cret {A} (a : A) : C A := ([], Return a).
Definition craise {A} (e : exn) : C A := ([], Raise e).
Definition clift {A} (r : result A) : C A := ([], r).

Definition cbind {A B} (m : C A) (k : A -> C B) : C B :=
  match m with
  | (log, Return a) => let '(log', r) := k a in (log ++ log', r)
  | (log, Raise e) => (log, Raise e)
  end.

(** A call on the console that returns: its text is written in the program,
    or it shows no markup. *)
Definition emit (ev : event) : C unit := ([ev], Return tt).

(** A call on the console that renders data as markup: it returns, or it
    raises what [console] says. *)
Definition render (console : event -> option exn) (ev : event) : C unit :=
  match console ev with
  | None => ([ev], Return tt)
  | Some e => ([], Raise e)
  end.

(** [try: body except Exception as e: handler(e)] *)
Definition try_except {A} (body : C A) (handler : exn -> C A) : C A :=
  match body with
  | (log, Return a) => (log, Return a)
  | (log, Raise e) =>
      if is_Exception e then let '(log', r) := handler e in (log ++ log', r)
      else (log, Raise e)
  end.

Local Notation "x <- m ;; k" := (cbind m (fun x => k))
  (at level 100, m at level 99, right associativity).
Local Notation "m ;;; k" := (cbind m (fun _ => k))
  (at level 100, right associativity).

(** What [subprocess.run(cmd_args, capture_output=True, text=True)] meets:
    the child exits with a status, or [run] itself raises (no such binary,
    output that is no text, an interrupt). With [check=True] a non-zero
    status becomes [CalledProcessError], whose [stderr] is the captured
    text. *)
Inductive run_outcome :=
| Exited (returncode : Z) (stdout stderr : string)
| RunRaises (e : exn).

Section Tool.

(** [json.loads(s)]: the value, or the exception; the program has a handler
    for [JSONDecodeError] only. *)
Variable json_loads : string -> result pyval.
Variable json_dumps : nat -> pyval -> string.   (* json.dumps(v, indent=n) *)
(** The console of [agent.py] at a call that renders data: [None] when the
    call returns, the exception when it raises. *)
Variable console : event -> option exn.
Variable subprocess_run : list string -> run_outcome.
(** The text of the [TypeError] of a call whose arguments do not fit the
    signature [kubectl_exec(command)]. *)
Variable arity_error : list string -> list (string * string) -> string.

(** The module global [SHOW_TOOL_CALLS], read at every call of a wrapper. *)
Variable SHOW_TOOL_CALLS : bool.

Definition _print_regular_output (output : string) : C unit :=
  let output_lines := split LF output in
  if (20 <? length output_lines)%nat then
    let preview := join (String LF "") (take 20 output_lines) in
    emit (Print "[bold green]Output (truncated):") ;;;
    render console (Print preview) ;;;
    emit (Print ("[italic]...and " +:+ str_of_nat (length output_lines - 20)%nat
                 +:+ " more lines"))
  else
    emit (Print "[bold green]Output:") ;;;
    render console (Print output).

(** The rows [table.add_row(f"arg{i}", str(arg))] of the positional
    arguments, from index [i] on. *)
Fixpoint arg_rows (i : nat) (args : list string) : list (string * string) :=
  match args with
  | [] => []
  | arg :: rest => ("arg" +:+ str_of_nat i, arg) :: arg_rows (S i) rest
  end.

(** The body of [try:] after [output = func(...)] returned, up to the
    [console.rule()] before [return output]. An exception of [json.loads]
    that is no [JSONDecodeError] passes the inner handler. *)
Definition display_output (output : string) : C unit :=
  (if startswith output "{" && endswith output "}" then
     match json_loads output with
     | Return parsed_output =>
         let output_str := json_dumps 2 parsed_output in
         emit (Print "[bold green]Output:") ;;;
         emit (PrintSyntax output_str "json" true)
     | Raise e =>
         if is_JSONDecodeError e then _print_regular_output output
         else craise e
     end
   else _print_regular_output output) ;;;
  emit (Rule None).

(** The table of the parameters: arguments are given by their [str()]. *)
Definition parameters (args : list string) (kwargs : list (string * string))
  : event :=
  PrintTable "Parameters" (arg_rows 0 args ++ kwargs).

(** The rule above the table. *)
Definition heading (func_name : string) : event :=
  Rule (Some ("[bold blue]EXECUTING: " +:+ func_name)).

(** The command, shown for [kubectl_exec] with a positional argument. *)
Definition command_shown (func_name : string) (args : list string) : list event :=
  match args with
  | cmd_str :: _ =>
      if String.eqb func_name "kubectl_exec"
      then [ Print "[bold cyan]Command:"; PrintSyntax cmd_str "bash" false ]
      else []
  | [] => []
  end.

(** What [wrapper] prints before it calls [func]: the rule, the table of
    the parameters and the command. The title of the rule and the cells of
    the table are rendered as markup. *)
Definition announce (func_name : string)
    (args : list string) (kwargs : list (string * string)) : C unit :=
  emit PrintBlank ;;;
  render console (heading func_name) ;;;
  render console (parameters args kwargs) ;;;
  (command_shown func_name args, Return tt).

(** [tool_name or func.__name__] *)
Definition shown_name (tool_name : option string) (__name__ : string) : string :=
  match tool_name with
  | Some t => if String.eqb t "" then __name__ else t
  | None => __name__
  end.

(** A call of [wrapper], the function [display_kubectl(tool_name)(func)],
    with positional arguments [args] and keyword arguments [kwargs]: the
    console log of the call and what the caller gets. [__name__] is
    [func.__name__]. The announcement stands before [try:]; the handler
    takes the exceptions of [func] and of the display of its output, and
    prints the text of the exception as markup itself. *)
Definition display_kubectl (tool_name : option string) (__name__ : string)
    (func : list string -> list (string * string) -> result string)
    (args : list string) (kwargs : list (string * string))
  : C string :=
  if negb SHOW_TOOL_CALLS then ([], func args kwargs)
  else
    let func_name := shown_name tool_name __name__ in
    announce func_name args kwargs ;;;
    try_except
      (output <- clift (func args kwargs) ;;
       display_output output ;;;
       cret output)
      (fun e =>
         let error_msg := exn_str e in
         emit (Print "[bold red]Error:") ;;;
         render console (Print error_msg) ;;;
         emit (Rule None) ;;;
         cret ("Error: " +:+ error_msg)).

(** Lines 148-152 of [kubectl_exec]: the command line after [strip] and
    the prefix. *)
Definition command_line (command : string) : string :=
  let command := strip command in
  if negb (startswith command "kubectl ") then "kubectl " +:+ command
  else command.

(** Line 155: the argument vector handed to [subprocess.run]. *)
Definition cmd_args (command : string) : result (list string) :=
  shlex.split (command_line command).

(** The undecorated function. *)
Definition kubectl_exec_func (command : string) : result string :=
  bind (cmd_args command) (fun cmd_args =>
    match subprocess_run cmd_args with
    | Exited returncode stdout stderr =>
        if (returncode =? 0)%Z then Return stdout
        else Return ("Error: " +:+ stderr)
    | RunRaises e => Raise e
    end).

(** Binding of the arguments of a call to the one parameter [command]. *)
Definition call_kubectl_exec (args : list string) (kwargs : list (string * string))
  : result string :=
  match args, kwargs with
  | [command], [] => kubectl_exec_func command
  | [], [("command", command)] => kubectl_exec_func command
  | _, _ => Raise (TypeError (arity_error args kwargs))
  end.

(** [kubectl_exec] as the module exports it. *)
Definition kubectl_exec (args : list string) (kwargs : list (string * string))
  : C string :=
  display_kubectl (Some "kubectl_exec") "kubectl_exec" call_kubectl_exec args kwargs.

End Tool.

(** Vocabulary of the statements: the log of an announcement that was
    printed whole. *)
Definition announced (func_name : string)
    (args : list string) (kwargs : list (string * string)) : list event :=
  [ PrintBlank; heading func_name; parameters args kwargs ]
  ++ command_shown func_name args.

(** *** The conversation store: [save_memory] and [load_memory] *)

(** A file as the program meets it: [os.path.exists] is false, or [open]
    raises an [OSError] with the given text, or the file is read. *)
Inductive file :=
| Absent
| Unreadable (msg : string)
| Holds (content : string).

(** What [pickle.load] does with the bytes of a file. *)
Inductive unpickled :=
| Unpickled (v : pyval)
| UnpicklingFails (e : exn).

(** How writing the transcript fails: [mkdir] or [open(..., "wb")] raises,
    and the file is as it was; or [pickle.dump] raises after [open] has
    emptied the file, which then holds what was written until then. *)
Inductive write_failure :=
| OpenFails (e : exn)
| DumpFails (e : exn) (leftover : string).

Definition failure_exn (w : write_failure) : exn :=
  match w with
  | OpenFails e => e
  | DumpFails e _ => e
  end.

(** [self.memory] of the agent ([None], or a [ConversationBufferMemory]
    given by its [chat_memory.messages]) and the file at [self.memory_path].
    [write_error] says whether, and how, writing to that path fails. *)
Record state := State {
  memory : option (list message);
  memory_file : file;
  write_error : option write_failure
}.

Section Memory.

Variable pickle_dumps : pyval -> string.
Variable pickle_loads : string -> unpickled.
Variable console : event -> option exn.

(** [create_memory()]: a memory without messages. *)
Definition create_memory : list message := [].

(** The handler of [save_memory]: the text of the exception is printed as
    markup. *)
Definition save_failed (e : exn) : C unit :=
  if is_Exception e
  then render console (Print ("[bold red]Error saving memory: " +:+ exn_str e))
  else craise e.

Definition save_memory (st : state) : state * list event * result unit :=
  match memory st with
  | Some chat_messages =>
      match write_error st with
      | None =>
          (State (memory st)
                 (Holds (pickle_dumps (VList (VMessage <$> chat_messages))))
                 (write_error st),
           [ Print "[dim]Memory saved successfully[/dim]" ], Return tt)
      | Some (OpenFails e) =>
          let '(log, r) := save_failed e in (st, log, r)
      | Some (DumpFails e leftover) =>
          let '(log, r) := save_failed e in
          (State (memory st) (Holds leftover) (write_error st), log, r)
      end
  | None => (st, [], Return tt)
  end.

(** [isinstance(msg, BaseMessage)] *)
Definition is_message (v : pyval) : bool :=
  match v with VMessage _ => true | _ => false end.

Definition as_message (v : pyval) : option message :=
  match v with VMessage m => Some m | _ => None end.

(** [isinstance(v, list) and all(isinstance(msg, BaseMessage) for msg in v)] *)
Definition is_message_list (v : pyval) : bool :=
  match v with
  | VList l => forallb is_message l
  | _ => false
  end.

(** The messages of a list that passed [is_message_list]. *)
Definition items (v : pyval) : list message :=
  match v with
  | VList l => omap as_message l
  | _ => []
  end.

(** The handler of [load_memory]: the text of the exception is printed as
    markup, and only then the memory is made anew. *)
Definition load_failed (st : state) (e : exn) : state * list event * result unit :=
  if is_Exception e then
    let text := "[bold red]Error loading memory: " +:+ exn_str e in
    match console (Print text) with
    | None =>
        (State (Some create_memory) (memory_file st) (write_error st),
         [ Print text ], Return tt)
    | Some e' => (st, [], Raise e')
    end
  else (st, [], Raise e).

Definition load_memory (st : state) : state * list event * result unit :=
  let fresh := State (Some create_memory) (memory_file st) (write_error st) in
  match memory_file st with
  | Holds content =>
      match pickle_loads content with
      | Unpickled chat_messages =>
          if is_message_list chat_messages then
            (* messages.clear(); messages.extend(chat_messages) *)
            (State (Some (items chat_messages)) (memory_file st) (write_error st),
             [ Print "[dim]Memory loaded successfully[/dim]" ], Return tt)
          else
            (fresh,
             [ Print "[bold yellow]Warning: Invalid memory format. Creating new memory.[/bold yellow]" ],
             Return tt)
      | UnpicklingFails e => load_failed st e
      end
  | Unreadable msg => load_failed st (OSError msg)
  | Absent =>
      (fresh,
       [ Print "[dim]No previous memory found. Starting new conversation.[/dim]" ],
       Return tt)
  end.

End Memory.

(** Vocabulary of the statements: a save returns when it can write, or
    can print that it cannot. *)
Definition save_returns (console : event -> option exn)
    (w : option write_failure) : Prop :=
  match w with
  | None => True
  | Some f =>
      is_Exception (failure_exn f) = true
      /\ console (Print ("[bold red]Error saving memory: "
                         +:+ exn_str (failure_exn f))) = None
  end.

(** An exception that the handler [except Exception] of the session loop
    takes. *)
Definition ordinary (e : exn) : Prop :=
  is_Exception e = true /\ is_KeyboardInterrupt e = false.

End Agent.

(** ** The settings store: [config.py] *)

Module Config.
Import Agent.

(** [type(v).__name__] *)
Definition type_name (v : pyval) : string :=
  match v with
  | VNone => "NoneType"
  | VBool _ => "bool"
  | VInt _ => "int"
  | VStr _ => "str"
  | VList _ => "list"
  | VDict _ => "dict"
  | VMessage m =>
      match msg_role m with
      | Human => "HumanMessage"
      | AI => "AIMessage"
      | OtherMessage t => t
      end
  end.

Definition quoted (s : string) : string := "'" +:+ s +:+ "'".

(** [v[k]] for a string [k] (messages of Python 3.11). *)
Definition getitem (v : pyval) (k : string) : result pyval :=
  match v with
  | VDict d =>
      match dict_get k d with
      | Some x => Return x
      | None => Raise (KeyError (quoted k))
      end
  | VList _ => Raise (TypeError "list indices must be integers or slices, not str")
  | VStr _ => Raise (TypeError "string indices must be integers, not 'str'")
  | _ => Raise (TypeError (quoted (type_name v) +:+ " object is not subscriptable"))
  end.

(** [v[k] = x] for a string [k]: the object after the assignment. *)
Definition setitem (v : pyval) (k : string) (x : pyval) : result pyval :=
  match v with
  | VDict d => Return (VDict (dict_set k x d))
  | VList _ => Raise (TypeError "list indices must be integers or slices, not str")
  | _ => Raise (TypeError (quoted (type_name v)
                           +:+ " object does not support item assignment"))
  end.

(** [v.get(k, default)] *)
Definition get (v : pyval) (k : string) (default : pyval) : result pyval :=
  match v with
  | VDict d => Return (from_option id default (dict_get k d))
  | _ => Raise (AttributeError (quoted (type_name v)
                                +:+ " object has no attribute 'get'"))
  end.

(** The attribute [v.get]: only a [dict] has it. *)
Definition get_method (v : pyval) : result dict :=
  match v with
  | VDict d => Return d
  | _ => Raise (AttributeError (quoted (type_name v)
                                +:+ " object has no attribute 'get'"))
  end.

(** [v.copy()], as far as the value goes: a new [dict] or [list] with the
    same items. *)
Definition copy (v : pyval) : result pyval :=
  match v with
  | VDict _ | VList _ => Return v
  | _ => Raise (AttributeError (quoted (type_name v)
                                +:+ " object has no attribute 'copy'"))
  end.

(** The value of the module global [DEFAULT_CONFIG] when the module has
    just been imported. *)
Definition DEFAULT_CONFIG_literal : dict :=
  [ ("provider", VStr "openai");
    ("openai", VDict [ ("api_key", VStr ""); ("model", VStr "gpt-4o") ]);
    ("azure", VDict [ ("api_key", VStr ""); ("endpoint", VStr "");
                      ("deployment", VStr ""); ("api_version", VStr "2023-05-15") ]) ].

(** The store: whether [CONFIG_DIR] exists, the file [CONFIG_FILE], and the
    dictionary that the global [DEFAULT_CONFIG] names. *)
Record store := Store {
  config_dir : bool;
  config_file : file;
  DEFAULT_CONFIG : dict
}.

Definition fresh_import (dir : bool) (f : file) : store :=
  Store dir f DEFAULT_CONFIG_literal.

(** A configuration in a local variable. [DEFAULT_CONFIG.copy()] is a
    shallow copy: its top level is new, its sections are the very
    dictionaries of [DEFAULT_CONFIG]. [shares_defaults] records that, so
    that an assignment inside a section reaches [DEFAULT_CONFIG] too. *)
Record config_ref := Ref {
  conf : pyval;
  shares_defaults : bool
}.

Definition M (A : Type) : Type := store -> store * result A.

Definition ret {A} (a : A) : M A := fun st => (st, Return a).
Definition raise {A} (e : exn) : M A := fun st => (st, Raise e).
Definition lift {A} (r : result A) : M A := fun st => (st, r).
Definition mbind {A B} (m : M A) (k : A -> M B) : M B :=
  fun st =>
    match m st with
    | (st', Return a) => k a st'
    | (st', Raise e) => (st', Raise e)
    end.

Notation "x <- m ;; k" := (mbind m (fun x => k))
  (at level 100, m at level 99, right associativity).
Notation "m ;;; k" := (mbind m (fun _ => k))
  (at level 100, right associativity).

Section Settings.

(** [json.load(f)] on a file that holds the text: the value, or the
    exception of reading and parsing it ([JSONDecodeError] for a text that
    is no JSON; others, such as [UnicodeDecodeError] and [RecursionError],
    for a file that is no text or is nested too deep). *)
Variable json_loads : string -> result pyval.
Variable json_dumps : nat -> pyval -> string.   (* json.dumps(v, indent=n) *)

Definition ensure_config_dir : M unit :=
  fun st =>
    if negb (config_dir st)
    then (Store true (config_file st) (DEFAULT_CONFIG st), Return tt)
    else (st, Return tt).

Definition default_copy : M config_ref :=
  fun st => (st, Return (Ref (VDict (DEFAULT_CONFIG st)) true)).

(** [except (json.JSONDecodeError, IOError)] *)
Definition corrupted (e : exn) : bool := is_JSONDecodeError e || is_OSError e.

Definition load_config : M config_ref :=
  ensure_config_dir ;;;
  fun st =>
    match config_file st with
    | Absent => default_copy st
    | Holds text =>
        match json_loads text with
        | Return config => (st, Return (Ref config false))
        | Raise e => if corrupted e then default_copy st else (st, Raise e)
        end
    | Unreadable _ => default_copy st
    end.

Definition save_config (config : pyval) : M unit :=
  ensure_config_dir ;;;
  fun st =>
    (Store (config_dir st) (Holds (json_dumps 2 config)) (DEFAULT_CONFIG st),
     Return tt).

(** [DEFAULT_CONFIG[k]], the default that the three getters pass to
    [config.get]; it is evaluated after [config.get] was looked up. *)
Definition default_item (k : string) : M pyval :=
  fun st => (st, getitem (VDict (DEFAULT_CONFIG st)) k).

Definition get_provider : M pyval :=
  config <- load_config ;;
  d <- lift (get_method (conf config)) ;;
  default <- default_item "provider" ;;
  ret (from_option id default (dict_get "provider" d)).

Definition get_openai_settings : M pyval :=
  config <- load_config ;;
  d <- lift (get_method (conf config)) ;;
  default <- default_item "openai" ;;
  ret (from_option id default (dict_get "openai" d)).

Definition get_azure_settings : M pyval :=
  config <- load_config ;;
  d <- lift (get_method (conf config)) ;;
  default <- default_item "azure" ;;
  ret (from_option id default (dict_get "azure" d)).

(** [config[k] = x] at the top level: only the local dictionary changes. *)
Definition assign (config : config_ref) (k : string) (x : pyval) : M config_ref :=
  c <- lift (setitem (conf config) k x) ;;
  ret (Ref c (shares_defaults config)).

(** [config[section][k] = x]: the dictionary of the section is changed in
    place, so the change shows wherever that dictionary is held. *)
Definition assign_in (config : config_ref) (section k : string) (x : pyval)
  : M config_ref :=
  sect <- lift (getitem (conf config) section) ;;
  sect' <- lift (setitem sect k x) ;;
  c <- lift (setitem (conf config) section sect') ;;
  fun st =>
    (if shares_defaults config
     then Store (config_dir st) (config_file st)
                (dict_set section sect' (DEFAULT_CONFIG st))
     else st,
     Return (Ref c (shares_defaults config))).

(** [if x is not None: config[section][k] = x] *)
Definition assign_if_given (config : config_ref) (section k : string)
    (x : option string) : M config_ref :=
  match x with
  | Some s => assign_in config section k (VStr s)
  | None => ret config
  end.

Definition update_provider (provider : string) : M unit :=
  config <- load_config ;;
  config <- assign config "provider" (VStr provider) ;;
  save_config (conf config).

Definition update_openai_settings (api_key model : option string) : M unit :=
  config <- load_config ;;
  config <- assign_if_given config "openai" "api_key" api_key ;;
  config <- assign_if_given config "openai" "model" model ;;
  save_config (conf config).

Definition update_azure_settings
    (api_key endpoint deployment api_version : option string) : M unit :=
  config <- load_config ;;
  config <- assign_if_given config "azure" "api_key" api_key ;;
  config <- assign_if_given config "azure" "endpoint" endpoint ;;
  config <- assign_if_given config "azure" "deployment" deployment ;;
  config <- assign_if_given config "azure" "api_version" api_version ;;
  save_config (conf config).

(** The expression
    ["***" + x[-4:] if len(x) > 4 else "***"]
    of [view_config], for the value [x] of an [api_key]. *)
Definition redacted (x : pyval) : result pyval :=
  match x with
  | VStr s =>
      if (4 <? String.length s)%nat
      then Return (VStr ("***" +:+ last_chars 4 s))
      else Return (VStr "***")
  | VList l =>
      if (4 <? length l)%nat
      then Raise (TypeError ("can only concatenate str (not " +:+ String DQUOTE "list"
                             +:+ String DQUOTE ") to str"))
      else Return (VStr "***")
  | VDict d =>
      if (4 <? length d)%nat
      then Raise (TypeError "unhashable type: 'slice'")
      else Return (VStr "***")
  | _ => Raise (TypeError ("object of type " +:+ quoted (type_name x)
                           +:+ " has no len()"))
  end.

(** One of the two [if] statements of [view_config]. *)
Definition redact_section (display_config : config_ref) (section : string)
  : M config_ref :=
  sect <- lift (get (conf display_config) section (VDict [])) ;;
  api_key <- lift (get sect "api_key" VNone) ;;
  if truthy api_key then
    sect <- lift (getitem (conf display_config) section) ;;
    x <- lift (getitem sect "api_key") ;;
    shown <- lift (redacted x) ;;
    assign_in display_config section "api_key" shown
  else ret display_config.

Definition view_config : M string :=
  config <- load_config ;;
  c <- lift (copy (conf config)) ;;
  display_config <- ret (Ref c (shares_defaults config)) ;;
  display_config <- redact_section display_config "openai" ;;
  display_config <- redact_section display_config "azure" ;;
  ret (json_dumps 2 (conf display_config)).

Definition clear_config : M unit :=
  config <- default_copy ;;
  save_config (conf config).

End Settings.

(** *** Vocabulary of the statements below *)

(** The value of a field after an update that was given [x] for it. *)
Definition written (x : option string) (old : option pyval) : option pyval :=
  match x with
  | Some s => Some (VStr s)
  | None => old
  end.

(** A section after [if x is not None: section[k] = x]. *)
Definition put (x : option string) (k : string) (sect : dict) : dict :=
  match x with
  | Some s => dict_set k (VStr s) sect
  | None => sect
  end.

(** [shown] is the redacted form of the key [k]: three stars and the last
    four characters, and nothing of what stands before them, when [k] has
    more than four characters; three stars when it has one to four. An
    empty key is left as it is. *)
Definition redacted_display (k shown : string) : Prop :=
  (forall r t, k = r +:+ t -> String.length t = 4%nat -> r <> "" ->
               shown = "***" +:+ t)
  /\ (k <> "" -> (String.length k <= 4)%nat -> shown = "***")
  /\ (k = "" -> shown = "").

End Config.

(** ** A reference serialisation

    The theorems on the two stores assume of [json] and of [pickle] that
    what was written is read back. This module gives one pair of functions
    that does so, through stdpp's encoding of trees as positive numbers
    written in binary; the theorems are instantiated with it. *)

Module Reference.
Import Agent.

Definition role_to_tree (r : role) : gen_tree (Z + string) :=
  match r with
  | Human => GenNode 0 []
  | AI => GenNode 1 []
  | OtherMessage t => GenLeaf (inr t)
  end.

Definition role_of_tree (t : gen_tree (Z + string)) : role :=
  match t with
  | GenNode 0 _ => Human
  | GenLeaf (inr t) => OtherMessage t
  | _ => AI
  end.

Fixpoint to_tree (v : pyval) : gen_tree (Z + string) :=
  match v with
  | VNone => GenNode 0 []
  | VBool true => GenNode 1 []
  | VBool false => GenNode 2 []
  | VInt z => GenLeaf (inl z)
  | VStr s => GenLeaf (inr s)
  | VList l => GenNode 3 (map to_tree l)
  | VDict d => GenNode 4 (map (fun kv => GenNode 5 [GenLeaf (inr (fst kv)); to_tree (snd kv)]) d)
  | VMessage m => GenNode 6 [role_to_tree (msg_role m); GenLeaf (inr (msg_content m))]
  end.

Fixpoint of_tree (t : gen_tree (Z + string)) : pyval :=
  match t with
  | GenLeaf (inl z) => VInt z
  | GenLeaf (inr s) => VStr s
  | GenNode 1 _ => VBool true
  | GenNode 2 _ => VBool false
  | GenNode 3 ts => VList (map of_tree ts)
  | GenNode 4 ts =>
      VDict (map (fun t =>
                    match t with
                    | GenNode _ [GenLeaf (inr k); tv] => (k, of_tree tv)
                    | _ => ("", VNone)
                    end) ts)
  | GenNode 6 [r; GenLeaf (inr c)] => VMessage (Message (role_of_tree r) c)
  | _ => VNone
  end.

Fixpoint bits (p : positive) : string :=
  match p with
  | xH => ""
  | xO q => String "0" (bits q)
  | xI q => String "1" (bits q)
  end.

Fixpoint unbits (s : string) : option positive :=
  match s with
  | "" => Some xH
  | String c r =>
      match unbits r with
      | Some q =>
          if Ascii.eqb c "0" then Some (xO q)
          else if Ascii.eqb c "1" then Some (xI q)
          else None
      | None => None
      end
  end.

Definition dumps (v : pyval) : string := bits (encode (to_tree v)).

Definition loads (s : string) : option pyval :=
  match unbits s with
  | Some p => of_tree <$> decode p
  | None => None
  end.

Definition json_dumps (indent : nat) (v : pyval) : string := dumps v.
Definition json_loads (s : string) : result pyval :=
  match loads s with
  | Some v => Return v
  | None => Raise (JSONDecodeError "Expecting value: line 1 column 1 (char 0)")
  end.
Definition pickle_dumps (v : pyval) : string := dumps v.
Definition pickle_loads (s : string) : unpickled :=
  match loads s with
  | Some v => Unpickled v
  | None => UnpicklingFails (UnpicklingError "invalid load key")
  end.

End Reference.

(** ** A reference console

    The examples need a console. This one does what rich does with the
    texts of the examples: the closing tag [[/x]], which no text of the
    examples opens, raises [MarkupError] with the position of the tag in
    the text; a text without that tag is printed. *)

Module Rich.
Import Agent.

(** [s.find(sub)], when [sub] is found. *)
Fixpoint find (sub s : string) : option nat :=
  if String.prefix sub s then Some 0%nat
  else match s with
       | "" => None
       | String _ r => S <$> find sub r
       end.

Definition markup_error (text : string) : option exn :=
  match find "[/x]" text with
  | Some position =>
      Some (MarkupError ("closing tag '[/x]' at position " +:+ str_of_nat position
                         +:+ " doesn't match any open tag"))
  | None => None
  end.

Fixpoint first_error (texts : list string) : option exn :=
  match texts with
  | [] => None
  | text :: rest =>
      match markup_error text with
      | Some e => Some e
      | None => first_error rest
      end
  end.

(** The first cell, of the names and then of the values, that cannot be
    rendered. *)
Definition cells_error (rows : list (string * string)) : option exn :=
  first_error ((fst <$> rows) ++ (snd <$> rows)).

Definition console (ev : event) : option exn :=
  match ev with
  | Print text => markup_error text
  | Rule (Some title) => markup_error title
  | PrintTable _ rows => cells_error rows
  | PrintPanel text _ _ => markup_error text
  | _ => None
  end.

End Rich.

(** ** The interactive session: [run] and [run_interactive] of the agent

    The reasoning engine is outside the repository:
    [agent_executor.invoke] is a parameter. It gets the memory of the agent
    and the query, may print, may change the memory, and returns the
    [output] entry of its answer or raises. Standard input is a list of
    events; when the list is used up, [input] meets the end of the file. *)

Module Session.
Import Agent.

(** What the user sees: calls on the rich console, the prompt of [input]
    and lines written by [print]. *)
Inductive output :=
| Console (e : event)
| Prompt (text : string)
| Stdout (text : string).

(** What [input("Query: ")] meets: a line, or Ctrl-C. *)
Inductive stdin_event :=
| Line (text : string)
| CtrlC.

(** The fields of the agent that [run] reads. *)
Record agent := Agent {
  default_namespace : option string;
  show_tool_calls : bool
}.

(** [str.lower] on one character, for code points below 256. *)
Definition lower_char (c : ascii) : ascii :=
  let n := N_of_ascii c in
  if ((65 <=? n) && (n <=? 90)
      || (192 <=? n) && (n <=? 222) && negb (n =? 215))%N
  then ascii_of_N (n + 32)
  else c.

Fixpoint lower (s : string) : string :=
  match s with
  | "" => ""
  | String c r => String (lower_char c) (lower r)
  end.

(** [query.lower() in ("exit", "quit")] *)
Definition is_exit (query : string) : bool :=
  let q := lower query in String.eqb q "exit" || String.eqb q "quit".

(** [query.lower() in ("continue", "continue to iterate", "continue to iterate?")] *)
Definition is_continue (query : string) : bool :=
  let q := lower query in
  String.eqb q "continue" || String.eqb q "continue to iterate"
  || String.eqb q "continue to iterate?".

(** An event of standard input that ends the session. *)
Definition ends_session (ev : stdin_event) : bool :=
  match ev with
  | Line query => is_exit query
  | CtrlC => true
  end.

(** A piece of the session: the agent after it, what the user saw, and
    its value or the exception that ended it. *)
Definition Step (A : Type) : Type := state -> state * list output * result A.

Definition sret {A} (a : A) : Step A := fun st => (st, [], Return a).
Definition sraise {A} (e : exn) : Step A := fun st => (st, [], Raise e).
Definition shown {A} (out : list output) (a : A) : Step A :=
  fun st => (st, out, Return a).

Definition sbind {A B} (m : Step A) (k : A -> Step B) : Step B :=
  fun st =>
    match m st with
    | (st1, out1, Return a) =>
        match k a st1 with
        | (st2, out2, r) => (st2, out1 ++ out2, r)
        end
    | (st1, out1, Raise e) => (st1, out1, Raise e)
    end.

(** Vocabulary of the statements: a piece of the session that leaves
    [write_error], which belongs to the file system, as it is. *)
Definition keeps {A} (m : Step A) : Prop :=
  forall st, write_error (fst (fst (m st))) = write_error st.

Local Notation "x <- m ;; k" := (sbind m (fun x => k))
  (at level 100, m at level 99, right associativity).
Local Notation "m ;;; k" := (sbind m (fun _ => k))
  (at level 100, right associativity).

Section Interactive.

Variable pickle_dumps : pyval -> string.
Variable pickle_loads : string -> unpickled.
(** The console of [agent.py]. *)
Variable console : event -> option exn.
Variable invoke :
  option (list message) -> string ->
  option (list message) * list output * result string.
Variable self : agent.

(** [self.run(query)]: the answer of the engine is rendered as markup in
    the panel. *)
Definition run (query : string) : Step string :=
  fun st =>
    let modified_query :=
      match default_namespace self with
      | Some ns =>
          if negb (String.eqb ns "")
          then query +:+ " (Use namespace: " +:+ ns +:+ ")"
          else query
      | None => query
      end in
    match invoke (memory st) modified_query with
    | (mem, out, Return result) =>
        let st1 := State mem (memory_file st) (write_error st) in
        if show_tool_calls self then
          match console (PrintPanel result "Final Answer" "green") with
          | None =>
              (st1,
               out ++ [ Console PrintBlank;
                        Console (PrintPanel result "Final Answer" "green") ],
               Return result)
          | Some e => (st1, out ++ [ Console PrintBlank ], Raise e)
          end
        else (st1, out, Return result)
    | (mem, out, Raise e) =>
        (State mem (memory_file st) (write_error st), out, Raise e)
    end.

(** [self.save_memory()], its prints among the output. *)
Definition save : Step unit :=
  fun st =>
    let '(st', log, r) := save_memory pickle_dumps console st in
    (st', Console <$> log, r).

(** [self.start_interactive_session()]; the agent executor it builds is the
    parameter [invoke]. *)
Definition start_interactive_session : Step unit :=
  (fun st =>
     let '(st', log, r) := load_memory pickle_loads console st in
     (st', Console <$> log, r)) ;;;
  shown [ Console (PrintPanel
                     "Interactive mode started. Type 'exit' or 'quit' to end the session."
                     "Kube Assistant" "blue") ] tt.

(** What stands under the inner [try:] for one turn of the loop: [true]
    when the turn ends with [break], [false] when the loop goes on. At the
    end of the input, [input] raises [EOFError]. *)
Definition attempt (ev : option stdin_event) : Step bool :=
  shown [ Prompt "Query: " ] tt ;;;
  match ev with
  | None => sraise (EOFError "EOF when reading a line")
  | Some CtrlC => sraise KeyboardInterrupt
  | Some (Line query) =>
      if is_exit query then
        save ;;;
        shown [ Console (PrintPanel "Interactive session ended."
                                    "Kube Assistant" "blue") ] true
      else if is_continue query then
        shown [ Console (Print "[dim]Continuing with the previous context...[/dim]") ]
              false
      else
        run query ;;;
        save ;;;
        sret false
  end.

(** One turn of the loop: the inner [try:] with its two handlers. *)
Definition turn (ev : option stdin_event) : Step bool :=
  fun st =>
    match attempt ev st with
    | (st1, out, Return b) => (st1, out, Return b)
    | (st1, out, Raise e) =>
        if is_KeyboardInterrupt e then
          match save st1 with
          | (st2, saved, Return _) =>
              (st2,
               out ++ saved
               ++ [ Console (Print (String LF "Interactive session ended.")) ],
               Return true)
          | (st2, saved, Raise e2) => (st2, out ++ saved, Raise e2)
          end
        else if is_Exception e then
          (st1, out ++ [ Stdout ("Error: " +:+ exn_str e) ], Return false)
        else (st1, out, Raise e)
    end.

(** Output that came before the rest of the loop. *)
Definition after (out : list output)
    (rest : option (state * list output * result unit))
  : option (state * list output * result unit) :=
  match rest with
  | Some (st, out', r) => Some (st, out ++ out', r)
  | None => None
  end.

(** The [while True:] of [run_interactive]. One unit of [fuel] is one turn
    of the loop; [None] says that the loop is still running when the fuel is
    used up. The result is how the loop is left: [Return tt] by [break],
    [Raise e] by an exception that no handler of the loop takes. *)
Fixpoint loop (fuel : nat) (stdin : list stdin_event) (st : state)
  : option (state * list output * result unit) :=
  match fuel with
  | O => None
  | S fuel =>
      match turn (head stdin) st with
      | (st1, out, Return true) => Some (st1, out, Return tt)
      | (st1, out, Return false) => after out (loop fuel (tail stdin) st1)
      | (st1, out, Raise e) => Some (st1, out, Raise e)
      end
  end.

(** [self.run_interactive()]: the session is started, the loop runs, and
    [finally:] saves the memory however the loop was left. The start stands
    before [try:]: an exception there ends the call without a save. An
    exception of the last save takes the place of the result. *)
Definition run_interactive (fuel : nat) (stdin : list stdin_event) (st : state)
  : option (state * list output * result unit) :=
  match start_interactive_session st with
  | (st0, started, Return _) =>
      match loop fuel stdin st0 with
      | Some (st1, out, r) =>
          match save st1 with
          | (st2, saved, Return _) => Some (st2, started ++ out ++ saved, r)
          | (st2, saved, Raise e) => Some (st2, started ++ out ++ saved, Raise e)
          end
      | None => None
      end
  | (st0, started, Raise e) => Some (st0, started, Raise e)
  end.

End Interactive.

End Session.

(** ** The command line: [cli.py] *)

Module Cli.
Import Agent Config Session.

(** The options of [config], as [argparse] hands them over: a flag is a
    [bool], an option that was not given is [None]. *)
Record config_args := ConfigArgs {
  view : bool;
  clear : bool;
  set_provider : option string;
  set_openai_key : option string;
  set_openai_model : option string;
  set_azure_key : option string;
  set_azure_endpoint : option string;
  set_azure_deployment : option string;
  set_azure_version : option string
}.

(** [if x:] for an option: it was given and is not the empty string. *)
Definition given (x : option string) : option string :=
  match x with
  | Some s => if String.eqb s "" then None else Some s
  | None => None
  end.

(** A piece of [config_command]: it changes the store, prints, and goes on
    or raises. *)
Definition cmd : Type := store -> store * list event * result unit.

Definition skip : cmd := fun st => (st, [], Return tt).

Definition andthen (c1 c2 : cmd) : cmd :=
  fun st =>
    match c1 st with
    | (st1, log1, Return _) =>
        match c2 st1 with
        | (st2, log2, r) => (st2, log1 ++ log2, r)
        end
    | (st1, log1, Raise e) => (st1, log1, Raise e)
    end.

(** [if x: update(x); console.print(...)], where [report v] is the call on
    the console. *)
Definition setter (x : option string) (update : string -> M unit)
    (report : string -> C unit) : cmd :=
  match given x with
  | Some v =>
      fun st =>
        match update v st with
        | (st1, Return _) => let '(log, r) := report v in (st1, log, r)
        | (st1, Raise e) => (st1, [], Raise e)
        end
  | None => skip
  end.

Section Commands.

Variable json_loads : string -> result pyval.
Variable json_dumps : nat -> pyval -> string.
(** The console of [cli.py]. *)
Variable console : event -> option exn.

(** The setters after the [if]/[elif] chain of [config_command]. Three of
    the messages hold the value that was given. *)
Definition setters (args : config_args) : cmd :=
  andthen (setter (set_openai_key args)
             (fun v => update_openai_settings json_loads json_dumps (Some v) None)
             (fun _ => emit (Print "[green]OpenAI API key updated[/green]")))
  (andthen (setter (set_openai_model args)
             (fun v => update_openai_settings json_loads json_dumps None (Some v))
             (fun v => render console
                         (Print ("[green]OpenAI model set to: " +:+ v +:+ "[/green]"))))
  (andthen (setter (set_azure_key args)
             (fun v => update_azure_settings json_loads json_dumps
                         (Some v) None None None)
             (fun _ => emit (Print "[green]Azure OpenAI API key updated[/green]")))
  (andthen (setter (set_azure_endpoint args)
             (fun v => update_azure_settings json_loads json_dumps
                         None (Some v) None None)
             (fun _ => emit (Print "[green]Azure endpoint updated[/green]")))
  (andthen (setter (set_azure_deployment args)
             (fun v => update_azure_settings json_loads json_dumps
                         None None (Some v) None)
             (fun v => render console
                         (Print ("[green]Azure deployment set to: " +:+ v
                                 +:+ "[/green]"))))
           (setter (set_azure_version args)
             (fun v => update_azure_settings json_loads json_dumps
                         None None None (Some v))
             (fun v => render console
                         (Print ("[green]Azure API version set to: " +:+ v
                                 +:+ "[/green]")))))))).

(** [config_command(args)]: the store after it, what it printed, and the
    exit code it returns or the exception it lets through. The text of the
    configuration is rendered as markup; the provider in its message is one
    of the two names that passed the test. *)
Definition config_command (args : config_args)
  : store -> store * list event * result Z :=
  fun st =>
    if view args then
      match view_config json_loads json_dumps st with
      | (st1, Return config_str) =>
          match console (Print config_str) with
          | None =>
              (st1, [ Print "Current Configuration:"; Print config_str ],
               Return 0%Z)
          | Some e => (st1, [ Print "Current Configuration:" ], Raise e)
          end
      | (st1, Raise e) => (st1, [], Raise e)
      end
    else if clear args then
      match clear_config json_dumps st with
      | (st1, Return _) =>
          (st1, [ Print "[green]Configuration cleared successfully[/green]" ],
           Return 0%Z)
      | (st1, Raise e) => (st1, [], Raise e)
      end
    else
      match given (set_provider args) with
      | Some provider =>
          if negb (String.eqb provider "openai" || String.eqb provider "azure") then
            (st, [ Print "[red]Error:[/red] Provider must be 'openai' or 'azure'" ],
             Return 1%Z)
          else
            match andthen
                    (setter (Some provider)
                       (update_provider json_loads json_dumps)
                       (fun v => emit (Print ("[green]Provider set to: " +:+ v
                                              +:+ "[/green]"))))
                    (setters args) st with
            | (st1, log, Return _) => (st1, log, Return 0%Z)
            | (st1, log, Raise e) => (st1, log, Raise e)
            end
      | None =>
          match setters args st with
          | (st1, log, Return _) => (st1, log, Return 0%Z)
          | (st1, log, Raise e) => (st1, log, Raise e)
          end
      end.

(** Vocabulary of the statements: the store holds a settings file that
    [json] reads as the object [d]. *)
Definition stored (st : store) (d : dict) : Prop :=
  exists text, config_file st = Holds text /\ json_loads text = Return (VDict d).

End Commands.

(** Lines 234-245 of [main]: [sys.argv] after the insertion of [query]
    before a first argument that is no command and no option. *)
Definition known_commands : list string :=
  [ "config"; "query"; "interactive"; "-h"; "--help" ].

Definition is_known_command (s : string) : bool :=
  existsb (String.eqb s) known_commands.

Definition implicit_query (argv : list string) : list string :=
  match argv with
  | prog :: first :: rest =>
      if negb (is_known_command first) && negb (startswith first "-")
      then prog :: "query" :: first :: rest
      else argv
  | _ => argv
  end.

(** *** The [query] command: lines 251-377 of [main]

    The agent is outside: [agent_run kwargs query] stands for building a
    [KubeAssistantAgent] from the keyword arguments and calling its
    [run(query)]: what that prints and what it returns or raises. [env] is
    [os.environ.get]. *)

Record query_args := QueryArgs {
  query : list string;
  namespace : option string;
  verbose : bool;
  no_tool_display : bool;
  provider : option string;
  model : option string;
  openai_api_key : option string;
  azure_api_key : option string;
  azure_endpoint : option string;
  azure_deployment : option string;
  azure_api_version : option string
}.

(** The provider-specific entries of [agent_kwargs]. *)
Inductive credentials :=
| OpenAI (model_name api_key : pyval)
| Azure (api_key endpoint deployment api_version : pyval).

Record agent_kwargs := Kwargs {
  kw_namespace : option string;
  kw_verbose : bool;
  kw_show_tool_calls : bool;
  kw_provider : pyval;
  kw_credentials : credentials
}.

(** A piece of [main]: the store after it, what it printed, and its value
    or the exception it lets through. *)
Definition P (A : Type) : Type := store -> store * list output * result A.

Definition pret {A} (a : A) : P A := fun st => (st, [], Return a).

Definition pbind {A B} (m : P A) (k : A -> P B) : P B :=
  fun st =>
    match m st with
    | (st1, out1, Return a) =>
        match k a st1 with
        | (st2, out2, r) => (st2, out1 ++ out2, r)
        end
    | (st1, out1, Raise e) => (st1, out1, Raise e)
    end.

Definition of_config {A} (m : M A) : P A :=
  fun st => match m st with (st1, r) => (st1, [], r) end.

Definition of_result {A} (r : result A) : P A := fun st => (st, [], r).

(** [console.print(text)] on the console of [cli.py]. *)
Definition say (text : string) : P unit :=
  fun st => (st, [ Console (Print text) ], Return tt).

Notation "x <~ m ;; k" := (pbind m (fun x => k))
  (at level 100, m at level 99, right associativity).
Notation "m ;;~ k" := (pbind m (fun _ => k))
  (at level 100, right associativity).

(** An option of the command line, or a variable of the environment, as
    the Python value: [None] or a [str]. *)
Definition of_arg (x : option string) : pyval :=
  match x with
  | Some s => VStr s
  | None => VNone
  end.

(** [cli or settings.get(k) or env]: the first that is true, else [env];
    [settings.get] is only reached when [cli] is not true. *)
Definition resolve (cli : option string) (settings : pyval) (k : string)
    (env : pyval) : result pyval :=
  if truthy (of_arg cli) then Return (of_arg cli)
  else bind (get settings k VNone) (fun stored =>
         Return (if truthy stored then stored else env)).

(** [v == s] for a string [s]. *)
Definition is_str (v : pyval) (s : string) : bool :=
  match v with
  | VStr s' => String.eqb s' s
  | _ => false
  end.

(** [if x: update(x)] *)
Definition persist (x : option string) (update : string -> M unit) : P unit :=
  match given x with
  | Some v => of_config (update v)
  | None => pret tt
  end.

Section Query.

Variable json_loads : string -> result pyval.
Variable json_dumps : nat -> pyval -> string.
(** The console of [cli.py]. *)
Variable console : event -> option exn.
Variable env : string -> option string.
Variable agent_run : agent_kwargs -> string -> list output * result string.

(** [os.environ.get(name, default)] *)
Definition env_default (name default : string) : pyval :=
  match env name with
  | Some s => VStr s
  | None => VStr default
  end.

(** The [try:] at the end of the branch. Its handler renders the text of
    the exception as markup. *)
Definition run_agent (args : query_args) (kwargs : agent_kwargs) : P Z :=
  fun st =>
    match agent_run kwargs (join " " (query args)) with
    | (out, Return result) =>
        (st, out ++ (if no_tool_display args then [ Stdout result ] else []),
         Return 0%Z)
    | (out, Raise e) =>
        if is_Exception e then
          let report := Print ("[red]Error:[/red] " +:+ exn_str e) in
          match console report with
          | None => (st, out ++ [ Console report ], Return 1%Z)
          | Some e' => (st, out, Raise e')
          end
        else (st, out, Raise e)
    end.

(** From [if args.provider:] to the end of the branch. *)
Definition finish (args : query_args) (kwargs : agent_kwargs) : P Z :=
  persist (provider args) (update_provider json_loads json_dumps) ;;~
  run_agent args kwargs.

Definition query_command (args : query_args) : P Z :=
  config_provider <~ of_config (get_provider json_loads) ;;
  openai_settings <~ of_config (get_openai_settings json_loads) ;;
  azure_settings <~ of_config (get_azure_settings json_loads) ;;
  let chosen :=
    if truthy (of_arg (provider args)) then of_arg (provider args)
    else config_provider in
  let kwargs := Kwargs (namespace args) (verbose args)
                       (negb (no_tool_display args)) chosen in
  if is_str chosen "azure" then
    api_key <~ of_result (resolve (azure_api_key args) azure_settings "api_key"
                            (of_arg (env "AZURE_OPENAI_API_KEY"))) ;;
    endpoint <~ of_result (resolve (azure_endpoint args) azure_settings "endpoint"
                             (of_arg (env "AZURE_OPENAI_ENDPOINT"))) ;;
    deployment <~ of_result (resolve (azure_deployment args) azure_settings
                               "deployment"
                               (of_arg (env "AZURE_OPENAI_DEPLOYMENT"))) ;;
    api_version <~ of_result (resolve (azure_api_version args) azure_settings
                                "api_version"
                                (env_default "AZURE_OPENAI_API_VERSION"
                                   "2023-05-15")) ;;
    if negb (truthy api_key) then
      say "[red]Error:[/red] Azure OpenAI API key is required. Set with --azure-api-key, config command, or AZURE_OPENAI_API_KEY environment variable." ;;~
      pret 1%Z
    else if negb (truthy endpoint) then
      say "[red]Error:[/red] Azure OpenAI endpoint is required. Set with --azure-endpoint, config command, or AZURE_OPENAI_ENDPOINT environment variable." ;;~
      pret 1%Z
    else if negb (truthy deployment) then
      say "[red]Error:[/red] Azure OpenAI deployment name is required. Set with --azure-deployment, config command, or AZURE_OPENAI_DEPLOYMENT environment variable." ;;~
      pret 1%Z
    else
      persist (azure_api_key args)
        (fun v => update_azure_settings json_loads json_dumps
                    (Some v) None None None) ;;~
      persist (azure_endpoint args)
        (fun v => update_azure_settings json_loads json_dumps
                    None (Some v) None None) ;;~
      persist (azure_deployment args)
        (fun v => update_azure_settings json_loads json_dumps
                    None None (Some v) None) ;;~
      persist (azure_api_version args)
        (fun v => update_azure_settings json_loads json_dumps
                    None None None (Some v)) ;;~
      finish args (kwargs (Azure api_key endpoint deployment api_version))
  else
    api_key <~ of_result (resolve (openai_api_key args) openai_settings "api_key"
                            (of_arg (env "OPENAI_API_KEY"))) ;;
    model_name <~ of_result (resolve (model args) openai_settings "model"
                               (env_default "OPENAI_MODEL" "gpt-4o")) ;;
    if negb (truthy api_key) then
      say "[red]Error:[/red] OpenAI API key is required. Set with --openai-api-key, config command, or OPENAI_API_KEY environment variable." ;;~
      pret 1%Z
    else
      persist (openai_api_key args)
        (fun v => update_openai_settings json_loads json_dumps (Some v) None) ;;~
      persist (model args)
        (fun v => update_openai_settings json_loads json_dumps None (Some v)) ;;~
      finish args (kwargs (OpenAI model_name api_key)).

End Query.

End Cli.

(** * Properties *)

(** ** Facts on the string methods *)

Section StringFacts.

Lemma append_nil (s : string) : "" +:+ s = s.
Proof. reflexivity. Qed.

Lemma append_cons (a : ascii) (r s : string) : String a r +:+ s = String a (r +:+ s).
Proof. reflexivity. Qed.

Lemma startswith_app (p s : string) : startswith (p +:+ s) p = true.
Proof.
  unfold startswith. induction p as [|a p IH]; simpl.
  - by destruct s.
  - destruct (ascii_dec a a); [exact IH | done].
Qed.

Lemma endswith_refl (s : string) : endswith s s = true.
Proof.
  pose proof (String.eqb_refl s) as H.
  destruct s; simpl in *; [done | by rewrite H].
Qed.

Lemma endswith_app (r s : string) : endswith (r +:+ s) s = true.
Proof.
  induction r as [|a r IH]; simpl.
  - apply endswith_refl.
  - rewrite IH. apply orb_true_r.
Qed.

Lemma length_app (r s : string) :
  String.length (r +:+ s) = (String.length r + String.length s)%nat.
Proof. induction r; rewrite ?append_nil, ?append_cons; simpl; congruence. Qed.

Lemma drop_chars_app (r s : string) : drop_chars (String.length r) (r +:+ s) = s.
Proof.
  induction r; rewrite ?append_nil, ?append_cons; simpl; [by destruct s | done].
Qed.

Lemma drop_chars_split (n : nat) (s : string) :
  (n <= String.length s)%nat ->
  exists r, s = r +:+ drop_chars n s /\ String.length r = n.
Proof.
  revert s. induction n as [|n IH]; intros s Hn.
  - exists "". by destruct s.
  - destruct s as [|a s]; simpl in *; [lia|].
    destruct (IH s) as (r & Hr & Hlen); [lia|].
    exists (String a r). rewrite append_cons. simpl. split; congruence.
Qed.

(** [s[-n:]] of a string of more than [n] characters is a suffix of [n]
    characters. *)
Lemma last_chars_suffix (n : nat) (s : string) :
  (n <= String.length s)%nat ->
  exists r, s = r +:+ last_chars n s
            /\ String.length r = (String.length s - n)%nat
            /\ String.length (last_chars n s) = n.
Proof.
  intros Hn. unfold last_chars.
  destruct (drop_chars_split (String.length s - n) s) as (r & Hr & Hlen); [lia|].
  exists r. split; [done|]. split; [done|].
  apply (f_equal String.length) in Hr. rewrite length_app in Hr. lia.
Qed.

(** [s[-n:]] does not depend on what stands before the last [n] characters. *)
Lemma last_chars_app (n : nat) (r t : string) :
  String.length t = n -> last_chars n (r +:+ t) = t.
Proof.
  intros Ht. unfold last_chars. rewrite length_app, Ht.
  replace (String.length r + n - n)%nat with (String.length r) by lia.
  apply drop_chars_app.
Qed.

Lemma split_nonempty (sep : ascii) (s : string) : Py.split sep s <> [].
Proof.
  induction s as [|c s IH]; simpl; [done|].
  destruct (Ascii.eqb c sep); [done|]. by destruct (Py.split sep s).
Qed.

Lemma split_has_no_sep (sep : ascii) (s : string) :
  Forall (fun l => has_char sep l = false) (Py.split sep s).
Proof.
  induction s as [|c s IH]; simpl.
  - by repeat constructor.
  - destruct (Ascii.eqb c sep) eqn:Hc.
    + by constructor.
    + destruct (Py.split sep s) as [|l ls]; [by repeat (constructor; simpl; rewrite ?Hc)|].
      inversion_clear IH as [|? ? Hl Hls].
      constructor; [simpl; by rewrite Hc, Hl | done].
Qed.

Lemma split_one (sep : ascii) (x : string) :
  has_char sep x = false -> Py.split sep x = [x].
Proof.
  induction x as [|c x IH]; simpl; [done|].
  intros [Hc Hx]%orb_false_elim. rewrite Hc, (IH Hx). done.
Qed.

Lemma split_app_sep (sep : ascii) (x r : string) :
  has_char sep x = false ->
  Py.split sep (x +:+ String sep r) = x :: Py.split sep r.
Proof.
  induction x as [|c x IH]; rewrite ?append_nil, ?append_cons; simpl.
  - intros _. by rewrite Ascii.eqb_refl.
  - intros [Hc Hx]%orb_false_elim. rewrite Hc, (IH Hx). done.
Qed.

(** Splitting what was joined gives the lines back. *)
Lemma split_join (sep : ascii) (l : list string) :
  l <> [] -> Forall (fun x => has_char sep x = false) l ->
  Py.split sep (join (String sep "") l) = l.
Proof.
  induction l as [|x l IH]; [done|]. intros _ Hall.
  inversion_clear Hall as [|? ? Hx Hl].
  destruct l as [|y l].
  - simpl. by apply split_one.
  - change (join (String sep "") (x :: y :: l))
      with (x +:+ String sep "" +:+ join (String sep "") (y :: l)).
    change (String sep "" +:+ join (String sep "") (y :: l))
      with (String sep (join (String sep "") (y :: l))).
    rewrite split_app_sep by done. f_equal. by apply IH.
Qed.

End StringFacts.

(** ** The command runner and its decorator *)

Module ToolProperties.
Import Agent.

Example shlex_split_plain :
  shlex.split "kubectl get pods -n kube-system"
  = Return ["kubectl"; "get"; "pods"; "-n"; "kube-system"].
Proof. reflexivity. Qed.

Example shlex_split_quoted :
  shlex.split "get pods -l 'app=web server'  -o json"
  = Return ["get"; "pods"; "-l"; "app=web server"; "-o"; "json"].
Proof. reflexivity. Qed.

Example shlex_split_unclosed :
  shlex.split "get 'pods" = Raise (ValueError "No closing quotation").
Proof. reflexivity. Qed.

(** What lines 148-152 do, by the test that the code makes. *)
Lemma command_line_with_prefix (command : string) :
  startswith (strip command) "kubectl " = true ->
  command_line command = strip command.
Proof. intros H. unfold command_line. by rewrite H. Qed.

Lemma command_line_without_prefix (command : string) :
  startswith (strip command) "kubectl " = false ->
  command_line command = "kubectl " +:+ strip command.
Proof. intros H. unfold command_line. by rewrite H. Qed.

Lemma command_line_starts_with_kubectl (command : string) :
  startswith (command_line command) "kubectl " = true.
Proof.
  destruct (startswith (strip command) "kubectl ") eqn:H.
  - by rewrite command_line_with_prefix.
  - rewrite command_line_without_prefix by done. apply startswith_app.
Qed.

(** C1, at the inputs where the code misses it: the command [kubectl] alone,
    and [kubectl] followed by a tab, have the binary name as their leading
    token, and the code prepends it once more; the argument vector starts
    with two [kubectl]. *)
Theorem kubectl_exec_duplicates_bare_prefix :
  cmd_args "kubectl" = Return ["kubectl"; "kubectl"]
  /\ shlex.split (strip "kubectl") = Return ["kubectl"]
  /\ cmd_args ("kubectl" +:+ String TAB "get pods")
     = Return ["kubectl"; "kubectl"; "get"; "pods"]
  /\ shlex.split (strip ("kubectl" +:+ String TAB "get pods"))
     = Return ["kubectl"; "get"; "pods"].
Proof. repeat split; reflexivity. Qed.

Section Tool.

Context (json_loads : string -> result pyval)
        (json_dumps : nat -> pyval -> string)
        (console : event -> option exn)
        (subprocess_run : list string -> run_outcome)
        (arity_error : list string -> list (string * string) -> string).

(** A call that renders data, when the console takes it. *)
Lemma render_returns (ev : event) :
  console ev = None -> render console ev = ([ev], Return tt).
Proof. intros H. unfold render. by rewrite H. Qed.

Lemma render_raises (ev : event) (e : exn) :
  console ev = Some e -> render console ev = ([], Raise e).
Proof. intros H. unfold render. by rewrite H. Qed.

(** The announcement, when the console renders the title of the rule and
    the table. *)
Lemma announce_returns (func_name : string)
    (args : list string) (kwargs : list (string * string)) :
  console (heading func_name) = None ->
  console (parameters args kwargs) = None ->
  announce console func_name args kwargs
  = (announced func_name args kwargs, Return tt).
Proof.
  intros Hrule Htable. unfold announce, announced, cbind, emit.
  by rewrite (render_returns _ Hrule), (render_returns _ Htable).
Qed.

(** The announcement never returns a value without having printed it
    whole, and prints nothing that depends on the wrapped function. *)
Lemma announce_cases (func_name : string)
    (args : list string) (kwargs : list (string * string)) :
  announce console func_name args kwargs
  = (announced func_name args kwargs, Return tt)
  \/ exists log e, announce console func_name args kwargs = (log, Raise e).
Proof.
  unfold announce, announced, cbind, emit, render.
  destruct (console (heading func_name)); [right; by eexists _, _|].
  destruct (console (parameters args kwargs)); [right; by eexists _, _|].
  by left.
Qed.

(** The handler of the wrapper, when the console renders the text of the
    exception. *)
Lemma handler_returns (log : list event) (e : exn) :
  is_Exception e = true ->
  console (Print (exn_str e)) = None ->
  try_except (log, Raise e)
    (fun e => cbind (emit (Print "[bold red]Error:")) (fun _ =>
              cbind (render console (Print (exn_str e))) (fun _ =>
              cbind (emit (Rule None)) (fun _ =>
              cret ("Error: " +:+ exn_str e)))))
  = (log ++ [ Print "[bold red]Error:"; Print (exn_str e); Rule None ],
     Return ("Error: " +:+ exn_str e)).
Proof.
  intros He Hprint. unfold try_except. rewrite He.
  unfold cbind, emit, cret. by rewrite (render_returns _ Hprint).
Qed.

(** The wrapper with the display on, after an announcement that was
    printed. *)
Lemma display_on_after_announcement
    (tool_name : option string) (name : string)
    (func : list string -> list (string * string) -> result string)
    (args : list string) (kwargs : list (string * string)) :
  let func_name := shown_name tool_name name in
  console (heading func_name) = None ->
  console (parameters args kwargs) = None ->
  display_kubectl json_loads json_dumps console true tool_name name func args kwargs
  = let '(log, r) :=
      try_except
        (cbind (clift (func args kwargs)) (fun output =>
         cbind (display_output json_loads json_dumps console output) (fun _ =>
         cret output)))
        (fun e => cbind (emit (Print "[bold red]Error:")) (fun _ =>
                  cbind (render console (Print (exn_str e))) (fun _ =>
                  cbind (emit (Rule None)) (fun _ =>
                  cret ("Error: " +:+ exn_str e))))) in
    (announced func_name args kwargs ++ log, r).
Proof.
  intros func_name Hrule Htable. unfold display_kubectl. cbn [negb].
  fold func_name. rewrite (announce_returns _ _ _ Hrule Htable).
  unfold cbind at 1. by destruct (try_except _ _).
Qed.

(** C3, as the code has it: with the display on, an [Exception] raised by
    the wrapped function is caught; its text is printed under [Error:] and
    the caller gets the string [Error: ] followed by that text. The console
    renders the parameters of the call and the text of the exception as
    markup; the statement is for the calls where it can. *)
Theorem display_on_turns_exceptions_into_text
    (tool_name : option string) (name : string)
    (func : list string -> list (string * string) -> result string)
    (args : list string) (kwargs : list (string * string)) (e : exn) :
  func args kwargs = Raise e ->
  is_Exception e = true ->
  console (heading (shown_name tool_name name)) = None ->
  console (parameters args kwargs) = None ->
  console (Print (exn_str e)) = None ->
  display_kubectl json_loads json_dumps console true tool_name name func args kwargs
  = (announced (shown_name tool_name name) args kwargs
       ++ [ Print "[bold red]Error:"; Print (exn_str e); Rule None ],
     Return ("Error: " +:+ exn_str e)).
Proof.
  intros Hfunc He Hrule Htable Hprint.
  rewrite (display_on_after_announcement _ _ _ _ _ Hrule Htable).
  rewrite Hfunc. unfold clift. cbn [cbind].
  by rewrite (handler_returns [] e He Hprint).
Qed.

(** The output of [kubectl] ends with a newline. *)
Lemma endswith_newline (body : string) :
  endswith (body +:+ String LF "") "}" = false.
Proof.
  assert (Hne : forall b, String.eqb (b +:+ String LF "") "" = false)
    by (intros [|? ?]; reflexivity).
  induction body as [|a body IH].
  - reflexivity.
  - rewrite append_cons. cbn [endswith String.eqb].
    rewrite IH, Hne. by destruct (Ascii.eqb a "}").
Qed.

(** C4, where the code misses it: the test for the braces is made on the
    result as it is. A result that ends with a newline, as everything that
    [kubectl] prints does, is never handed to [json.loads]: it is printed
    as text, also when it is a JSON object once trimmed. *)
Theorem trailing_newline_defeats_json_rendering (body : string) :
  display_output json_loads json_dumps console (body +:+ String LF "")
  = cbind (_print_regular_output console (body +:+ String LF ""))
          (fun _ => emit (Rule None))
  /\ strip ("{}" +:+ String LF "") = "{}"
  /\ startswith "{}" "{" && endswith "{}" "}" = true
  /\ (console (Print ("{}" +:+ String LF "")) = None ->
      display_output json_loads json_dumps console ("{}" +:+ String LF "")
      = ([ Print "[bold green]Output:"; Print ("{}" +:+ String LF ""); Rule None ],
         Return tt)).
Proof.
  assert (Hplain : forall body,
             display_output json_loads json_dumps console (body +:+ String LF "")
             = cbind (_print_regular_output console (body +:+ String LF ""))
                     (fun _ => emit (Rule None))).
  { intros b. unfold display_output. by rewrite endswith_newline, andb_false_r. }
  split; [apply Hplain|]. split; [reflexivity|]. split; [reflexivity|].
  intros Hprint. rewrite (Hplain "{}").
  unfold _print_regular_output. cbn -[render].
  by rewrite (render_returns _ Hprint).
Qed.

(** C10: with the display off, a call of the wrapper is the call of the
    wrapped function: nothing is printed, and the caller gets what the
    function returns or raises. *)
Theorem display_off_is_the_wrapped_function
    (tool_name : option string) (name : string)
    (func : list string -> list (string * string) -> result string)
    (args : list string) (kwargs : list (string * string)) :
  display_kubectl json_loads json_dumps console false tool_name name func args kwargs
  = ([], func args kwargs)
  /\ (forall output, func args kwargs = Return output ->
       display_kubectl json_loads json_dumps console false tool_name name
         func args kwargs
       = ([], Return output))
  /\ (forall e, func args kwargs = Raise e ->
       display_kubectl json_loads json_dumps console false tool_name name
         func args kwargs
       = ([], Raise e)).
Proof.
  assert (Hoff : display_kubectl json_loads json_dumps console false tool_name name
                   func args kwargs = ([], func args kwargs)) by reflexivity.
  split; [exact Hoff|]. split.
  - intros output Hfunc. by rewrite Hoff, Hfunc.
  - intros e Hfunc. by rewrite Hoff, Hfunc.
Qed.

End Tool.

(** *** Where the decorator lets an exception through *)

(** C2, where the code misses it: [kubectl] exits with status 1 and writes
    a text with a closing tag to stderr. The undecorated function returns
    the flagged text, and so does the tool with the display off. With the
    display on the output is printed as markup: rich raises [MarkupError],
    the handler prints the text of that error as markup again, and the
    second [MarkupError] reaches the caller. *)
Theorem nonzero_exit_with_closing_tag_raises :
  let run := fun _ : list string =>
    Exited 1 "" "error: unable to read [/x]" in
  let tool := kubectl_exec Reference.json_loads Reference.json_dumps Rich.console
                run (fun _ _ => "") in
  kubectl_exec_func run "logs web" = Return "Error: error: unable to read [/x]"
  /\ tool false [ "logs web" ] [] = ([], Return "Error: error: unable to read [/x]")
  /\ tool true [ "logs web" ] []
     = (announced "kubectl_exec" [ "logs web" ] []
          ++ [ Print "[bold green]Output:"; Print "[bold red]Error:" ],
        Raise (MarkupError
                 "closing tag '[/x]' at position 13 doesn't match any open tag")).
Proof. repeat split; vm_compute; reflexivity. Qed.

(** C5, where the code misses it: a listing of 21 lines, one of them with a
    closing tag. With the display off the caller gets the listing. With the
    display on the preview is printed as markup, rich raises [MarkupError],
    and the caller gets neither the listing nor a text: the handler raises
    when it prints the error. *)
Theorem long_output_with_closing_tag_raises :
  let output :=
    join (String LF "") ("volume [/x] mounted" :: replicate 20 "pod-0   1/1   Running") in
  let func := fun (_ : list string) (_ : list (string * string)) => Return output in
  let tool := fun SHOW_TOOL_CALLS =>
    display_kubectl Reference.json_loads Reference.json_dumps Rich.console
      SHOW_TOOL_CALLS (Some "kubectl_exec") "kubectl_exec" func [ "get pods" ] [] in
  length (Py.split LF output) = 21%nat
  /\ tool false = ([], Return output)
  /\ tool true
     = (announced "kubectl_exec" [ "get pods" ] []
          ++ [ Print "[bold green]Output (truncated):"; Print "[bold red]Error:" ],
        Raise (MarkupError
                 "closing tag '[/x]' at position 13 doesn't match any open tag")).
Proof. repeat split; vm_compute; reflexivity. Qed.

(** *** Where C3 fails as it is written *)

(** A command with an unclosed quote, display off: the [ValueError] of
    [shlex.split] reaches the caller and nothing is printed. *)
Lemma display_off_instance :
  let func := call_kubectl_exec (fun _ => Exited 0 "" "") (fun _ _ => "") in
  func ["get 'pods"] [] = Raise (ValueError "No closing quotation")
  /\ kubectl_exec Reference.json_loads Reference.json_dumps Rich.console
       (fun _ => Exited 0 "" "") (fun _ _ => "") false ["get 'pods"] []
     = ([], Raise (ValueError "No closing quotation")).
Proof.
  intros func. split; [reflexivity|].
  destruct (display_off_is_the_wrapped_function
              Reference.json_loads Reference.json_dumps Rich.console
              (Some "kubectl_exec") "kubectl_exec"
              func ["get 'pods"] []) as (_ & _ & H).
  exact (H (ValueError "No closing quotation") eq_refl).
Defined.

(** C3 as written says that the decorator never lets an error through. With
    the display off it does: the error of the wrapped function reaches the
    caller. *)
Lemma display_off_lets_errors_through :
  ~ (forall (SHOW_TOOL_CALLS : bool)
            (func : list string -> list (string * string) -> result string)
            (args : list string) (kwargs : list (string * string)) (e : exn),
       func args kwargs = Raise e ->
       is_Exception e = true ->
       exists log,
         display_kubectl Reference.json_loads Reference.json_dumps Rich.console
           SHOW_TOOL_CALLS (Some "kubectl_exec") "kubectl_exec" func args kwargs
         = (log, Return ("Error: " +:+ exn_str e))).
Proof.
  intros H.
  destruct (H false
              (call_kubectl_exec (fun _ => Exited 0 "" "") (fun _ _ => ""))
              ["get 'pods"] [] (ValueError "No closing quotation")
              eq_refl eq_refl) as [log Hlog].
  discriminate Hlog.
Qed.

(** *** The theorems at concrete calls *)

(** A command with an unclosed quote, display on. *)
Lemma display_on_instance :
  let func := call_kubectl_exec (fun _ => Exited 0 "" "") (fun _ _ => "") in
  func ["get 'pods"] [] = Raise (ValueError "No closing quotation")
  /\ snd (display_kubectl Reference.json_loads Reference.json_dumps Rich.console
            true (Some "kubectl_exec") "kubectl_exec" func ["get 'pods"] [])
     = Return "Error: No closing quotation".
Proof.
  intros func. split; [reflexivity|].
  rewrite (display_on_turns_exceptions_into_text
             Reference.json_loads Reference.json_dumps Rich.console
             (Some "kubectl_exec") "kubectl_exec"
             func ["get 'pods"] [] (ValueError "No closing quotation"));
    reflexivity.
Defined.

End ToolProperties.

(** ** The reference serialisation reads back what it wrote *)

Module ReferenceProperties.
Import Agent Reference.

Lemma unbits_bits (p : positive) : unbits (bits p) = Some p.
Proof. induction p as [p IH|p IH|]; simpl; by rewrite ?IH. Qed.

Lemma role_of_to_tree (r : role) : role_of_tree (role_to_tree r) = r.
Proof. by destruct r. Qed.

Lemma of_to_tree : forall v : pyval, of_tree (to_tree v) = v.
Proof.
  fix IH 1. intros [| [|] | z | s | l | d | [r c]]; simpl; try done.
  - f_equal. induction l as [|x l IHl]; simpl; [done|].
    f_equal; [apply IH | apply IHl].
  - f_equal. induction d as [|[k x] d IHd]; simpl; [done|].
    f_equal; [f_equal; apply IH | apply IHd].
  - by rewrite role_of_to_tree.
Qed.

Lemma loads_dumps (v : pyval) : loads (dumps v) = Some v.
Proof.
  unfold loads, dumps. rewrite unbits_bits, decode_encode. simpl.
  by rewrite of_to_tree.
Qed.

Lemma json_loads_dumps (indent : nat) (v : pyval) :
  json_loads (json_dumps indent v) = Return v.
Proof. unfold json_loads, json_dumps. by rewrite loads_dumps. Qed.

Lemma pickle_loads_dumps (v : pyval) : pickle_loads (pickle_dumps v) = Unpickled v.
Proof. unfold pickle_loads, pickle_dumps. by rewrite loads_dumps. Qed.

End ReferenceProperties.

(** ** The conversation store *)

Module MemoryProperties.
Import Agent.

Lemma message_list_is_valid (msgs : list message) :
  is_message_list (VList (VMessage <$> msgs)) = true.
Proof. simpl. by induction msgs. Qed.

Lemma items_of_message_list (msgs : list message) :
  items (VList (VMessage <$> msgs)) = msgs.
Proof.
  unfold items. induction msgs as [|m msgs IH]; [done|].
  change (omap as_message (VMessage <$> m :: msgs))
    with (m :: omap as_message (VMessage <$> msgs)).
  by rewrite IH.
Qed.

(** C8, where the code misses it: a damaged transcript file on which
    [pickle.load] raises an error whose text holds a closing tag (the bytes
    of a [GLOBAL] opcode that names the module [[/x]]). The handler of
    [load_memory] prints the text as markup before it makes the memory
    anew: rich raises [MarkupError], which reaches the caller, and the
    memory is what it was. *)
Theorem load_of_damaged_file_raises :
  let damaged := "c[/x]" +:+ String LF "y" +:+ String LF "." in
  let pickle_loads := fun content : string =>
    if String.eqb content damaged
    then UnpicklingFails (ModuleNotFoundError "No module named '[/x]'")
    else Reference.pickle_loads content in
  let st := State (Some [ Message Human "list namespaces" ]) (Holds damaged) None in
  load_memory pickle_loads Rich.console st
  = (st, [],
     Raise (MarkupError
              "closing tag '[/x]' at position 49 doesn't match any open tag"))
  /\ load_memory pickle_loads Rich.console (State None (Holds damaged) None)
     = (State None (Holds damaged) None, [],
        Raise (MarkupError
                 "closing tag '[/x]' at position 49 doesn't match any open tag")).
Proof. split; vm_compute; reflexivity. Qed.

End MemoryProperties.

(** ** The settings store *)

Module SettingsProperties.
Import Agent Config.

Lemma dict_get_set_eq (k : string) (v : pyval) (d : dict) :
  dict_get k (dict_set k v d) = Some v.
Proof.
  induction d as [|[k' v'] d IH]; simpl.
  - by rewrite String.eqb_refl.
  - destruct (String.eqb_spec k' k) as [->|Hne]; simpl.
    + by rewrite String.eqb_refl.
    + by destruct (String.eqb_spec k' k).
Qed.

Lemma dict_get_set_ne (k k' : string) (v : pyval) (d : dict) :
  k' <> k -> dict_get k' (dict_set k v d) = dict_get k' d.
Proof.
  intros Hne. induction d as [|[k0 v0] d IH]; simpl.
  - by destruct (String.eqb_spec k k').
  - destruct (String.eqb_spec k0 k) as [->|Hk0]; simpl.
    + by destruct (String.eqb_spec k k').
    + by destruct (String.eqb_spec k0 k').
Qed.

Lemma dict_get_put_eq (x : option string) (k : string) (sect : dict) :
  dict_get k (put x k sect) = written x (dict_get k sect).
Proof. destruct x; simpl; [apply dict_get_set_eq | done]. Qed.

Lemma dict_get_put_ne (x : option string) (k k' : string) (sect : dict) :
  k' <> k -> dict_get k' (put x k sect) = dict_get k' sect.
Proof. intros Hne. destruct x; simpl; [by apply dict_get_set_ne | done]. Qed.

Lemma length_pos_nonempty (s : string) : s <> "" -> (0 < String.length s)%nat.
Proof. destruct s; simpl; [done | lia]. Qed.

(** The expression of [view_config] on a key that is not empty. *)
Lemma redacted_nonempty (k : string) :
  k <> "" ->
  exists shown, redacted (VStr k) = Return (VStr shown) /\ redacted_display k shown.
Proof.
  intros Hk. unfold redacted.
  destruct (Nat.ltb_spec 4 (String.length k)) as [Hlong|Hshort].
  - eexists. split; [done|]. repeat split.
    + intros r t -> Ht _. by rewrite last_chars_app.
    + lia.
    + done.
  - eexists. split; [done|]. repeat split.
    + intros r t -> Ht Hr. apply length_pos_nonempty in Hr.
      rewrite length_app in Hshort. lia.
    + done.
Qed.

Lemma redacted_display_empty : redacted_display "" "".
Proof.
  repeat split; [|done].
  intros r t Hk Ht _. apply (f_equal String.length) in Hk.
  rewrite length_app in Hk. simpl in Hk. lia.
Qed.

Section Settings.

Context (json_loads : string -> result pyval)
        (json_dumps : nat -> pyval -> string).

Local Ltac run := unfold mbind, lift, ret; simpl.

(** Reads a field through the [put]s of an update. *)
Local Ltac fields :=
  repeat first [ rewrite dict_get_put_eq | rewrite dict_get_put_ne by done ];
  done.

Lemma load_config_stored (st : store) (text : string) (config : pyval) :
  config_file st = Holds text ->
  json_loads text = Return config ->
  load_config json_loads st
  = (Store true (config_file st) (DEFAULT_CONFIG st), Return (Ref config false)).
Proof.
  intros Hfile Hjson. unfold load_config, ensure_config_dir. run.
  destruct st as [[|] f D]; simpl in *; by rewrite Hfile, Hjson.
Qed.

Lemma load_config_default (st : store) :
  config_file st = Absent
  \/ (exists msg, config_file st = Unreadable msg)
  \/ (exists text e, config_file st = Holds text /\ json_loads text = Raise e
                     /\ corrupted e = true) ->
  load_config json_loads st
  = (Store true (config_file st) (DEFAULT_CONFIG st),
     Return (Ref (VDict (DEFAULT_CONFIG st)) true)).
Proof.
  intros Hfile. unfold load_config, ensure_config_dir, default_copy. run.
  destruct st as [[|] f D]; simpl in *;
    destruct Hfile as [-> | [[msg ->] | (text & e & -> & Hjson & He)]];
    by rewrite ?Hjson, ?He.
Qed.

Lemma load_config_raises (st : store) (text : string) (e : exn) :
  config_file st = Holds text ->
  json_loads text = Raise e ->
  corrupted e = false ->
  load_config json_loads st
  = (Store true (config_file st) (DEFAULT_CONFIG st), Raise e).
Proof.
  intros Hfile Hjson He. unfold load_config, ensure_config_dir. run.
  destruct st as [[|] f D]; simpl in *; by rewrite Hfile, Hjson, He.
Qed.

(** C9, where the code misses it. [load_config] has a handler for
    [JSONDecodeError] and [IOError]: with no file, a file that cannot be
    opened, or a text on which [json.load] raises one of the two, it
    returns a copy of [DEFAULT_CONFIG], and file and defaults stay as they
    are. Any other exception of [json.load] leaves [load_config], against
    the comment of the handler: [UnicodeDecodeError] for a file that is no
    text, [RecursionError] for brackets nested too deep. *)
Theorem load_config_handles_two_errors_only (st : store) :
  (config_file st = Absent
   \/ (exists msg, config_file st = Unreadable msg)
   \/ (exists text e, config_file st = Holds text /\ json_loads text = Raise e
                      /\ (is_JSONDecodeError e = true \/ is_OSError e = true)) ->
   snd (load_config json_loads st) = Return (Ref (VDict (DEFAULT_CONFIG st)) true)
   /\ config_file (fst (load_config json_loads st)) = config_file st
   /\ DEFAULT_CONFIG (fst (load_config json_loads st)) = DEFAULT_CONFIG st)
  /\ (forall text e,
        config_file st = Holds text ->
        json_loads text = Raise e ->
        is_JSONDecodeError e = false ->
        is_OSError e = false ->
        snd (load_config json_loads st) = Raise e
        /\ snd (get_provider json_loads st) = Raise e
        /\ (forall provider,
              snd (update_provider json_loads json_dumps provider st) = Raise e
              /\ config_file (fst (update_provider json_loads json_dumps provider st))
                 = config_file st)).
Proof.
  split.
  - intros Hfile. rewrite load_config_default; [done|].
    destruct Hfile as [H | [H | (text & e & Hf & Hj & He)]]; [tauto | tauto |].
    right; right. exists text, e. split; [done|]. split; [done|].
    unfold corrupted. destruct He as [-> | ->]; [done | apply orb_true_r].
  - intros text e Hfile Hjson He1 He2.
    assert (He : corrupted e = false) by (unfold corrupted; by rewrite He1, He2).
    pose proof (load_config_raises st text e Hfile Hjson He) as Hload.
    split; [by rewrite Hload|]. split.
    + unfold get_provider, mbind. by rewrite Hload.
    + intros provider. unfold update_provider, mbind. by rewrite Hload.
Qed.

Lemma save_config_writes (config : pyval) (st : store) :
  save_config json_dumps config st
  = (Store true (Holds (json_dumps 2 config)) (DEFAULT_CONFIG st), Return tt).
Proof. unfold save_config, ensure_config_dir. run. by destruct st as [[|] f D]. Qed.

Lemma assign_in_stored (d sect : dict) (section k : string) (x : pyval) (st : store) :
  dict_get section d = Some (VDict sect) ->
  assign_in (Ref (VDict d) false) section k x st
  = (st, Return (Ref (VDict (dict_set section (VDict (dict_set k x sect)) d)) false)).
Proof. intros Hsect. unfold assign_in. run. by rewrite Hsect. Qed.

Lemma assign_if_given_stored (d sect : dict) (section k : string)
    (x : option string) (st : store) :
  dict_get section d = Some (VDict sect) ->
  exists d1,
    assign_if_given (Ref (VDict d) false) section k x st
    = (st, Return (Ref (VDict d1) false))
    /\ dict_get section d1 = Some (VDict (put x k sect))
    /\ (forall k', k' <> section -> dict_get k' d1 = dict_get k' d).
Proof.
  intros Hsect. destruct x as [s|]; simpl.
  - eexists. split; [by apply assign_in_stored|].
    split; [apply dict_get_set_eq|]. intros k' Hk'. by apply dict_get_set_ne.
  - by exists d.
Qed.

Lemma update_provider_stored (st : store) (text : string) (d : dict)
    (provider : string) :
  config_file st = Holds text ->
  json_loads text = Return (VDict d) ->
  update_provider json_loads json_dumps provider st
  = (Store true (Holds (json_dumps 2 (VDict (dict_set "provider" (VStr provider) d))))
           (DEFAULT_CONFIG st),
     Return tt).
Proof.
  intros Hfile Hjson. unfold update_provider, mbind.
  rewrite (load_config_stored st text (VDict d) Hfile Hjson).
  unfold assign. run. by rewrite save_config_writes.
Qed.

Lemma update_openai_stored (st : store) (text : string) (d so : dict)
    (api_key model : option string) :
  config_file st = Holds text ->
  json_loads text = Return (VDict d) ->
  dict_get "openai" d = Some (VDict so) ->
  exists d',
    update_openai_settings json_loads json_dumps api_key model st
    = (Store true (Holds (json_dumps 2 (VDict d'))) (DEFAULT_CONFIG st), Return tt)
    /\ dict_get "openai" d'
       = Some (VDict (put model "model" (put api_key "api_key" so)))
    /\ (forall k, k <> "openai" -> dict_get k d' = dict_get k d).
Proof.
  intros Hfile Hjson Hso. unfold update_openai_settings, mbind.
  rewrite (load_config_stored st text (VDict d) Hfile Hjson).
  set (st1 := Store true (config_file st) (DEFAULT_CONFIG st)).
  destruct (assign_if_given_stored d so "openai" "api_key" api_key st1 Hso)
    as (d1 & -> & Hso1 & Hd1).
  destruct (assign_if_given_stored d1 _ "openai" "model" model st1 Hso1)
    as (d2 & -> & Hso2 & Hd2).
  exists d2. rewrite save_config_writes. split; [done|]. split; [done|].
  intros k Hk. by rewrite Hd2, Hd1.
Qed.

Lemma update_azure_stored (st : store) (text : string) (d sa : dict)
    (api_key endpoint deployment api_version : option string) :
  config_file st = Holds text ->
  json_loads text = Return (VDict d) ->
  dict_get "azure" d = Some (VDict sa) ->
  exists d',
    update_azure_settings json_loads json_dumps
      api_key endpoint deployment api_version st
    = (Store true (Holds (json_dumps 2 (VDict d'))) (DEFAULT_CONFIG st), Return tt)
    /\ dict_get "azure" d'
       = Some (VDict (put api_version "api_version"
                       (put deployment "deployment"
                         (put endpoint "endpoint" (put api_key "api_key" sa)))))
    /\ (forall k, k <> "azure" -> dict_get k d' = dict_get k d).
Proof.
  intros Hfile Hjson Hsa. unfold update_azure_settings, mbind.
  rewrite (load_config_stored st text (VDict d) Hfile Hjson).
  set (st1 := Store true (config_file st) (DEFAULT_CONFIG st)).
  destruct (assign_if_given_stored d sa "azure" "api_key" api_key st1 Hsa)
    as (d1 & -> & Hsa1 & Hd1).
  destruct (assign_if_given_stored d1 _ "azure" "endpoint" endpoint st1 Hsa1)
    as (d2 & -> & Hsa2 & Hd2).
  destruct (assign_if_given_stored d2 _ "azure" "deployment" deployment st1 Hsa2)
    as (d3 & -> & Hsa3 & Hd3).
  destruct (assign_if_given_stored d3 _ "azure" "api_version" api_version st1 Hsa3)
    as (d4 & -> & Hsa4 & Hd4).
  exists d4. rewrite save_config_writes. split; [done|]. split; [done|].
  intros k Hk. by rewrite Hd4, Hd3, Hd2, Hd1.
Qed.

(** C7: on a stored configuration that is a JSON object with an [openai]
    and an [azure] object, and with a [json] that reads back what it wrote:
    after each of the three updates, [load_config] returns a configuration
    in which every field that was given has the given value and every other
    field has the value it had. *)
Theorem settings_update_is_read_back
    (Hjson : forall v, json_loads (json_dumps 2 v) = Return v)
    (st : store) (text : string) (d so sa : dict) :
  config_file st = Holds text ->
  json_loads text = Return (VDict d) ->
  dict_get "openai" d = Some (VDict so) ->
  dict_get "azure" d = Some (VDict sa) ->
  (forall provider, exists st' d',
     update_provider json_loads json_dumps provider st = (st', Return tt)
     /\ snd (load_config json_loads st') = Return (Ref (VDict d') false)
     /\ dict_get "provider" d' = Some (VStr provider)
     /\ (forall k, k <> "provider" -> dict_get k d' = dict_get k d))
  /\ (forall api_key model, exists st' d' so',
        update_openai_settings json_loads json_dumps api_key model st
        = (st', Return tt)
        /\ snd (load_config json_loads st') = Return (Ref (VDict d') false)
        /\ dict_get "openai" d' = Some (VDict so')
        /\ dict_get "api_key" so' = written api_key (dict_get "api_key" so)
        /\ dict_get "model" so' = written model (dict_get "model" so)
        /\ (forall k, k <> "api_key" -> k <> "model" ->
                      dict_get k so' = dict_get k so)
        /\ (forall k, k <> "openai" -> dict_get k d' = dict_get k d))
  /\ (forall api_key endpoint deployment api_version, exists st' d' sa',
        update_azure_settings json_loads json_dumps
          api_key endpoint deployment api_version st
        = (st', Return tt)
        /\ snd (load_config json_loads st') = Return (Ref (VDict d') false)
        /\ dict_get "azure" d' = Some (VDict sa')
        /\ dict_get "api_key" sa' = written api_key (dict_get "api_key" sa)
        /\ dict_get "endpoint" sa' = written endpoint (dict_get "endpoint" sa)
        /\ dict_get "deployment" sa' = written deployment (dict_get "deployment" sa)
        /\ dict_get "api_version" sa'
           = written api_version (dict_get "api_version" sa)
        /\ (forall k, k <> "api_key" -> k <> "endpoint" -> k <> "deployment" ->
                      k <> "api_version" -> dict_get k sa' = dict_get k sa)
        /\ (forall k, k <> "azure" -> dict_get k d' = dict_get k d)).
Proof.
  intros Hfile Htext Hso Hsa. split; [|split].
  - intros provider. eexists _, _.
    split; [by eapply update_provider_stored|].
    split; [by erewrite load_config_stored|].
    split; [apply dict_get_set_eq|]. intros k Hk. by apply dict_get_set_ne.
  - intros api_key model.
    destruct (update_openai_stored st text d so api_key model Hfile Htext Hso)
      as (d' & Hup & Hso' & Hd').
    eexists _, d', _. split; [exact Hup|].
    split; [by erewrite load_config_stored|].
    split; [exact Hso'|].
    repeat (split; [fields|]).
    split; [|exact Hd']. intros k Hk1 Hk2. fields.
  - intros api_key endpoint deployment api_version.
    destruct (update_azure_stored st text d sa api_key endpoint deployment
                api_version Hfile Htext Hsa) as (d' & Hup & Hsa' & Hd').
    eexists _, d', _. split; [exact Hup|].
    split; [by erewrite load_config_stored|].
    split; [exact Hsa'|].
    repeat (split; [fields|]).
    split; [|exact Hd']. intros k Hk1 Hk2 Hk3 Hk4. fields.
Qed.

Lemma redact_section_stored (d sect : dict) (section k : string) (st : store) :
  dict_get section d = Some (VDict sect) ->
  dict_get "api_key" sect = Some (VStr k) ->
  exists d1 sect1 shown,
    redact_section (Ref (VDict d) false) section st
    = (st, Return (Ref (VDict d1) false))
    /\ dict_get section d1 = Some (VDict sect1)
    /\ dict_get "api_key" sect1 = Some (VStr shown)
    /\ redacted_display k shown
    /\ (forall k', k' <> "api_key" -> dict_get k' sect1 = dict_get k' sect)
    /\ (forall k', k' <> section -> dict_get k' d1 = dict_get k' d).
Proof.
  intros Hsect Hkey. unfold redact_section, mbind, lift.
  cbn -[redacted assign_in]. rewrite Hsect. cbn -[redacted assign_in].
  rewrite Hkey. cbn -[redacted assign_in].
  destruct (String.eqb_spec k "") as [->|Hk]; cbn -[redacted assign_in].
  - exists d, sect, "". do 3 (split; [done|]).
    split; [apply redacted_display_empty | by split].
  - destruct (redacted_nonempty k Hk) as (shown & -> & Hshown).
    eexists _, _, shown. split; [by apply assign_in_stored|].
    split; [apply dict_get_set_eq|]. split; [apply dict_get_set_eq|].
    split; [done|]. split; intros k' Hk'; by apply dict_get_set_ne.
Qed.

(** C6: for a stored configuration whose two sections hold a string as
    [api_key], [view_config] returns the JSON text of a configuration in
    which each key is in its redacted form (three stars and the last four
    characters, and nothing else, for a key of more than four characters;
    three stars for a key of one to four) and every other field is as
    stored. *)
Theorem view_config_redacts_api_keys
    (st : store) (text : string) (d so sa : dict) (ko ka : string) :
  config_file st = Holds text ->
  json_loads text = Return (VDict d) ->
  dict_get "openai" d = Some (VDict so) ->
  dict_get "api_key" so = Some (VStr ko) ->
  dict_get "azure" d = Some (VDict sa) ->
  dict_get "api_key" sa = Some (VStr ka) ->
  exists st' d' so' sa' shown_o shown_a,
    view_config json_loads json_dumps st = (st', Return (json_dumps 2 (VDict d')))
    /\ dict_get "openai" d' = Some (VDict so')
    /\ dict_get "api_key" so' = Some (VStr shown_o)
    /\ redacted_display ko shown_o
    /\ dict_get "azure" d' = Some (VDict sa')
    /\ dict_get "api_key" sa' = Some (VStr shown_a)
    /\ redacted_display ka shown_a
    /\ (forall k, k <> "api_key" -> dict_get k so' = dict_get k so)
    /\ (forall k, k <> "api_key" -> dict_get k sa' = dict_get k sa)
    /\ (forall k, k <> "openai" -> k <> "azure" -> dict_get k d' = dict_get k d).
Proof.
  intros Hfile Htext Hso Hko Hsa Hka. unfold view_config, mbind.
  rewrite (load_config_stored st text (VDict d) Hfile Htext).
  set (st1 := Store true (config_file st) (DEFAULT_CONFIG st)).
  unfold lift, ret. cbn -[redact_section].
  destruct (redact_section_stored d so "openai" ko st1 Hso Hko)
    as (d1 & so1 & shown_o & -> & Hso1 & Hko1 & Hshown_o & Hfo & Hd1).
  assert (Hsa1 : dict_get "azure" d1 = Some (VDict sa)) by by rewrite Hd1.
  destruct (redact_section_stored d1 sa "azure" ka st1 Hsa1 Hka)
    as (d2 & sa2 & shown_a & -> & Hsa2 & Hka2 & Hshown_a & Hfa & Hd2).
  exists st1, d2, so1, sa2, shown_o, shown_a.
  split; [done|]. split; [by rewrite Hd2|]. do 7 (split; [done|]).
  intros k Hk1 Hk2. by rewrite Hd2, Hd1.
Qed.

(** The shallow copy at work: an update made while the settings file is
    missing writes into [DEFAULT_CONFIG] itself, and a later
    [clear_config] of the same process stores the key it should clear. *)
Remark update_without_file_changes_defaults :
  let st := fresh_import false Absent in
  let st1 := fst (update_openai_settings json_loads json_dumps
                    (Some "sk-test-1234") None st) in
  DEFAULT_CONFIG st1
  = [ ("provider", VStr "openai");
      ("openai", VDict [ ("api_key", VStr "sk-test-1234"); ("model", VStr "gpt-4o") ]);
      ("azure", VDict [ ("api_key", VStr ""); ("endpoint", VStr "");
                        ("deployment", VStr ""); ("api_version", VStr "2023-05-15") ]) ]
  /\ config_file (fst (clear_config json_dumps st1))
     = Holds (json_dumps 2 (VDict (DEFAULT_CONFIG st1))).
Proof. split; reflexivity. Qed.

End Settings.

(** *** The theorems at a concrete store *)

(** A settings file that holds the byte 255: it is no UTF-8 text, and
    [json.load] raises [UnicodeDecodeError] when it reads it. *)
Lemma load_config_instance :
  let not_utf8 := String "255"%char "" in
  let e := UnicodeDecodeError
             "'utf-8' codec can't decode byte 0xff in position 0: invalid start byte" in
  let json_load := fun text : string =>
    if String.eqb text not_utf8 then Raise e else Reference.json_loads text in
  snd (load_config json_load (fresh_import true (Holds not_utf8))) = Raise e
  /\ snd (load_config json_load (fresh_import false Absent))
     = Return (Ref (VDict DEFAULT_CONFIG_literal) true).
Proof.
  intros not_utf8 e json_load. split.
  - destruct (load_config_handles_two_errors_only json_load Reference.json_dumps
                (fresh_import true (Holds not_utf8))) as [_ H].
    destruct (H not_utf8 e eq_refl eq_refl eq_refl eq_refl) as [Hload _].
    exact Hload.
  - destruct (load_config_handles_two_errors_only json_load Reference.json_dumps
                (fresh_import false Absent)) as [H _].
    destruct (H (or_introl eq_refl)) as [Hload _]. exact Hload.
Defined.

(** A long OpenAI key and a short Azure key. *)
Lemma view_config_instance :
  let d := [ ("provider", VStr "azure");
             ("openai", VDict [ ("api_key", VStr "sk-proj-8f3kQ9xZ");
                                ("model", VStr "gpt-4o") ]);
             ("azure", VDict [ ("api_key", VStr "abc"); ("endpoint", VStr "");
                               ("deployment", VStr "");
                               ("api_version", VStr "2023-05-15") ]) ] in
  let st := Store true (Holds (Reference.json_dumps 2 (VDict d)))
                  DEFAULT_CONFIG_literal in
  exists st' d' so' sa',
    view_config Reference.json_loads Reference.json_dumps st
    = (st', Return (Reference.json_dumps 2 (VDict d')))
    /\ dict_get "openai" d' = Some (VDict so')
    /\ dict_get "api_key" so' = Some (VStr "***Q9xZ")
    /\ dict_get "azure" d' = Some (VDict sa')
    /\ dict_get "api_key" sa' = Some (VStr "***").
Proof.
  intros d st.
  destruct (view_config_redacts_api_keys
              Reference.json_loads Reference.json_dumps st
              (Reference.json_dumps 2 (VDict d)) d
              [ ("api_key", VStr "sk-proj-8f3kQ9xZ"); ("model", VStr "gpt-4o") ]
              [ ("api_key", VStr "abc"); ("endpoint", VStr "");
                ("deployment", VStr ""); ("api_version", VStr "2023-05-15") ]
              "sk-proj-8f3kQ9xZ" "abc"
              eq_refl (ReferenceProperties.json_loads_dumps 2 (VDict d))
              eq_refl eq_refl eq_refl eq_refl)
    as (st' & d' & so' & sa' & shown_o & shown_a
        & Hview & Hso & Hko & Ho & Hsa & Hka & Ha & _).
  exists st', d', so', sa'. split; [exact Hview|]. split; [exact Hso|].
  split; [|split; [exact Hsa|]].
  - rewrite Hko. do 2 f_equal.
    apply (proj1 Ho "sk-proj-8f3k" "Q9xZ"); [reflexivity | reflexivity | discriminate].
  - rewrite Hka. do 2 f_equal.
    apply (proj1 (proj2 Ha)); [discriminate | simpl; lia].
Defined.

(** Setting the OpenAI key on the stored defaults keeps model and provider. *)
Lemma settings_update_instance :
  let d := DEFAULT_CONFIG_literal in
  let st := Store true (Holds (Reference.json_dumps 2 (VDict d))) d in
  exists st' d' so',
    update_openai_settings Reference.json_loads Reference.json_dumps
      (Some "sk-proj-8f3kQ9xZ") None st
    = (st', Return tt)
    /\ snd (load_config Reference.json_loads st') = Return (Ref (VDict d') false)
    /\ dict_get "provider" d' = Some (VStr "openai")
    /\ dict_get "openai" d' = Some (VDict so')
    /\ dict_get "api_key" so' = Some (VStr "sk-proj-8f3kQ9xZ")
    /\ dict_get "model" so' = Some (VStr "gpt-4o").
Proof.
  intros d st.
  destruct (settings_update_is_read_back
              Reference.json_loads Reference.json_dumps
              (ReferenceProperties.json_loads_dumps 2)
              st (Reference.json_dumps 2 (VDict d)) d
              [ ("api_key", VStr ""); ("model", VStr "gpt-4o") ]
              [ ("api_key", VStr ""); ("endpoint", VStr "");
                ("deployment", VStr ""); ("api_version", VStr "2023-05-15") ]
              eq_refl (ReferenceProperties.json_loads_dumps 2 (VDict d))
              eq_refl eq_refl)
    as (_ & Hopenai & _).
  destruct (Hopenai (Some "sk-proj-8f3kQ9xZ") None)
    as (st' & d' & so' & Hup & Hload & Hso & Hkey & Hmodel & _ & Hd).
  exists st', d', so'. split; [exact Hup|]. split; [exact Hload|].
  split; [by rewrite Hd|]. split; [exact Hso|]. split; [exact Hkey | exact Hmodel].
Defined.

End SettingsProperties.

(** * Further properties of the code *)

(** ** [kubectl_exec]: what is run, and what is never run *)

Module RunnerProperties.
Import Agent.

Lemma startswith_split (s p : string) :
  startswith s p = true -> exists r, s = p +:+ r.
Proof.
  unfold startswith. revert s. induction p as [|a p IH]; intros s H.
  - by exists s.
  - destruct s as [|b s]; simpl in H; [done|].
    destruct (ascii_dec a b) as [->|]; [|done].
    destruct (IH s H) as [r ->]. by exists r.
Qed.

(** The tokens of a line that starts with [kubectl] and a space. *)
Lemma split_after_prefix (r : string) :
  shlex.split ("kubectl " +:+ r) = shlex.cons_token "kubectl" (shlex.split r).
Proof. reflexivity. Qed.

(** [shlex.split] raises nothing but its two [ValueError]s. *)
Lemma lex_raises (s : string) :
  forall st esc quoted token e,
    shlex.lex s st esc quoted token = Raise e ->
    e = ValueError "No closing quotation" \/ e = ValueError "No escaped character".
Proof.
  induction s as [|c s IH]; intros st esc quoted token e H.
  - destruct st; simpl in H; inversion H; auto.
  - assert (Hcons : forall t x,
               shlex.cons_token t (shlex.lex s shlex.Blank shlex.Blank false "")
               = Raise x ->
               x = ValueError "No closing quotation"
               \/ x = ValueError "No escaped character").
    { intros t x Hx. unfold shlex.cons_token, bind in Hx.
      destruct (shlex.lex s shlex.Blank shlex.Blank false "") eqn:E; [done|].
      inversion Hx; subst. by eapply IH. }
    destruct st; simpl in H;
      repeat match type of H with
             | context [if ?b then _ else _] => destruct b
             end; eauto.
Qed.

(** Whatever the command, the program that is started is [kubectl]: the
    argument vector begins with it, and the other arguments are the tokens
    of the rest of the command line. *)
Theorem argument_vector_starts_with_kubectl (command : string) (argv : list string) :
  cmd_args command = Return argv ->
  exists r rest,
    command_line command = "kubectl " +:+ r
    /\ shlex.split r = Return rest
    /\ argv = "kubectl" :: rest.
Proof.
  intros H. unfold cmd_args in H.
  destruct (startswith_split _ _ (ToolProperties.command_line_starts_with_kubectl command))
    as [r Hr].
  rewrite Hr, split_after_prefix in H. unfold shlex.cons_token, bind in H.
  destruct (shlex.split r) as [rest|] eqn:E; [|done].
  exists r, rest. by inversion H.
Qed.

(** A command that is empty after [strip] is not refused: [kubectl] is run
    without arguments. *)
Theorem blank_command_runs_bare_kubectl
    (subprocess_run : list string -> run_outcome) (command : string) :
  strip command = "" ->
  cmd_args command = Return ["kubectl"]
  /\ kubectl_exec_func subprocess_run command
     = match subprocess_run ["kubectl"] with
       | Exited returncode stdout stderr =>
           if (returncode =? 0)%Z then Return stdout
           else Return ("Error: " +:+ stderr)
       | RunRaises e => Raise e
       end.
Proof.
  intros Hblank.
  assert (Hargs : cmd_args command = Return ["kubectl"]).
  { unfold cmd_args, command_line. by rewrite Hblank. }
  split; [done|]. unfold kubectl_exec_func. by rewrite Hargs.
Qed.

Section Runner.

Context (json_loads : string -> result pyval)
        (json_dumps : nat -> pyval -> string)
        (console : event -> option exn)
        (subprocess_run : list string -> run_outcome)
        (arity_error : list string -> list (string * string) -> string).

(** A command that [shlex.split] cannot split (an unclosed quote, a
    backslash at the end) starts no process: the call does the same
    whatever [subprocess.run] would do. The [ValueError] leaves
    [kubectl_exec] when the display is off; with the display on, and a
    console that renders the command and the text of the error, the caller
    gets [Error: ] and one of the two texts of [shlex]. *)
Theorem unsplittable_command_is_not_run (command : string) (e : exn) :
  cmd_args command = Raise e ->
  (e = ValueError "No closing quotation" \/ e = ValueError "No escaped character")
  /\ kubectl_exec_func subprocess_run command = Raise e
  /\ (forall (SHOW_TOOL_CALLS : bool) (other_run : list string -> run_outcome),
        kubectl_exec json_loads json_dumps console other_run arity_error
          SHOW_TOOL_CALLS [command] []
        = kubectl_exec json_loads json_dumps console subprocess_run arity_error
            SHOW_TOOL_CALLS [command] [])
  /\ kubectl_exec json_loads json_dumps console subprocess_run arity_error
       false [command] []
     = ([], Raise e)
  /\ (console (heading "kubectl_exec") = None ->
      console (parameters [command] []) = None ->
      console (Print (exn_str e)) = None ->
      snd (kubectl_exec json_loads json_dumps console subprocess_run arity_error
             true [command] [])
      = Return ("Error: " +:+ exn_str e)).
Proof.
  intros H.
  assert (He : e = ValueError "No closing quotation"
               \/ e = ValueError "No escaped character")
    by (eapply lex_raises; exact H).
  assert (Hfunc : forall run, kubectl_exec_func run command = Raise e).
  { intros run. unfold kubectl_exec_func. by rewrite H. }
  split; [exact He|]. split; [apply Hfunc|]. split; [|split].
  - intros SHOW other_run. unfold kubectl_exec, display_kubectl, call_kubectl_exec.
    by rewrite !Hfunc.
  - unfold kubectl_exec, display_kubectl, call_kubectl_exec. simpl.
    by rewrite Hfunc.
  - intros Hrule Htable Hprint. unfold kubectl_exec.
    rewrite (ToolProperties.display_on_after_announcement
               json_loads json_dumps console (Some "kubectl_exec") "kubectl_exec"
               _ _ _ Hrule Htable).
    unfold call_kubectl_exec. rewrite Hfunc. unfold clift. cbn [cbind].
    rewrite (ToolProperties.handler_returns console [] e); [done | | done].
    by destruct He as [-> | ->].
Qed.

(** The exit status of the child decides what [kubectl_exec] returns:
    stdout as it is for status 0 (stderr is dropped), and [Error: ] with
    stderr for any other status. The tool returns the same with the display
    off, and with the display on when the console renders the call and the
    display of the result returns. *)
Theorem exit_status_decides_the_result
    (command : string) (argv : list string)
    (returncode : Z) (stdout stderr : string) :
  cmd_args command = Return argv ->
  subprocess_run argv = Exited returncode stdout stderr ->
  let result := if (returncode =? 0)%Z then stdout else "Error: " +:+ stderr in
  kubectl_exec_func subprocess_run command = Return result
  /\ kubectl_exec json_loads json_dumps console subprocess_run arity_error
       false [command] []
     = ([], Return result)
  /\ (returncode <> 0%Z -> startswith result "Error: " = true /\ result <> "")
  /\ (console (heading "kubectl_exec") = None ->
      console (parameters [command] []) = None ->
      snd (display_output json_loads json_dumps console result) = Return tt ->
      snd (kubectl_exec json_loads json_dumps console subprocess_run arity_error
             true [command] [])
      = Return result).
Proof.
  intros Hargs Hrun result.
  assert (Hfunc : kubectl_exec_func subprocess_run command = Return result).
  { unfold kubectl_exec_func. rewrite Hargs. simpl. rewrite Hrun.
    subst result. by destruct (returncode =? 0)%Z. }
  split; [exact Hfunc|]. split; [|split].
  - unfold kubectl_exec, display_kubectl, call_kubectl_exec. simpl.
    by rewrite Hfunc.
  - intros Hrc. subst result.
    destruct (Z.eqb_spec returncode 0); [contradiction|].
    split; [apply startswith_app | done].
  - intros Hrule Htable Hshown. unfold kubectl_exec.
    rewrite (ToolProperties.display_on_after_announcement
               json_loads json_dumps console (Some "kubectl_exec") "kubectl_exec"
               _ _ _ Hrule Htable).
    unfold call_kubectl_exec. rewrite Hfunc. unfold clift. cbn [cbind].
    destruct (display_output json_loads json_dumps console result)
      as [log [[]|e]]; [done | discriminate Hshown].
Qed.


(** An exception of the wrapped function that is no [Exception], such as
    the [KeyboardInterrupt] of Ctrl-C during a command, is never turned
    into a text: the call raises, and what it raises is that exception
    whenever the wrapped function was reached (the display is off, or the
    announcement was printed). *)
Theorem display_never_swallows_interrupts
    (SHOW_TOOL_CALLS : bool) (tool_name : option string) (name : string)
    (func : list string -> list (string * string) -> result string)
    (args : list string) (kwargs : list (string * string)) (e : exn) :
  func args kwargs = Raise e ->
  is_Exception e = false ->
  (exists e', snd (display_kubectl json_loads json_dumps console SHOW_TOOL_CALLS
                     tool_name name func args kwargs)
              = Raise e')
  /\ (SHOW_TOOL_CALLS = false
      \/ (console (heading (shown_name tool_name name)) = None
          /\ console (parameters args kwargs) = None) ->
      snd (display_kubectl json_loads json_dumps console SHOW_TOOL_CALLS
             tool_name name func args kwargs)
      = Raise e).
Proof.
  intros Hfunc He.
  assert (Hon : forall log,
            announce console (shown_name tool_name name) args kwargs
            = (log, Return tt) ->
            snd (display_kubectl json_loads json_dumps console true
                   tool_name name func args kwargs)
            = Raise e).
  { intros log Hlog. unfold display_kubectl. cbn [negb]. rewrite Hlog, Hfunc.
    unfold clift, cbind, try_except. by rewrite He. }
  split.
  - destruct SHOW_TOOL_CALLS.
    + destruct (ToolProperties.announce_cases console (shown_name tool_name name)
                  args kwargs) as [Hlog | (log & e' & Hlog)].
      * exists e. by eapply Hon.
      * exists e'. unfold display_kubectl. cbn [negb]. by rewrite Hlog.
    + exists e. unfold display_kubectl. simpl. by rewrite Hfunc.
  - intros [-> | [Hrule Htable]].
    + unfold display_kubectl. simpl. by rewrite Hfunc.
    + destruct SHOW_TOOL_CALLS.
      * eapply Hon. by apply ToolProperties.announce_returns.
      * unfold display_kubectl. simpl. by rewrite Hfunc.
Qed.

(** A result that is not printed as JSON is handed to the console as
    text, when the console renders the call and the text: whole under
    [Output:] when it has at most 20 lines, and otherwise by its first 20
    lines, followed by the number of the lines left out. The caller gets
    the result itself. *)
Theorem plain_output_is_printed_and_returned
    (tool_name : option string) (name : string)
    (func : list string -> list (string * string) -> result string)
    (args : list string) (kwargs : list (string * string)) (output : string) :
  func args kwargs = Return output ->
  startswith output "{" && endswith output "}" = false
    \/ (exists e, json_loads output = Raise e /\ is_JSONDecodeError e = true) ->
  console (heading (shown_name tool_name name)) = None ->
  console (parameters args kwargs) = None ->
  let output_lines := Py.split LF output in
  let preview := join (String LF "") (take 20 output_lines) in
  let call := display_kubectl json_loads json_dumps console true tool_name name
                func args kwargs in
  ((length output_lines <= 20)%nat ->
   console (Print output) = None ->
   call = (announced (shown_name tool_name name) args kwargs
             ++ [ Print "[bold green]Output:"; Print output; Rule None ],
           Return output))
  /\ ((20 < length output_lines)%nat ->
      console (Print preview) = None ->
      call = (announced (shown_name tool_name name) args kwargs
                ++ [ Print "[bold green]Output (truncated):";
                     Print preview;
                     Print ("[italic]...and "
                            +:+ str_of_nat (length (drop 20 output_lines))
                            +:+ " more lines");
                     Rule None ],
              Return output)
      /\ Py.split LF preview = take 20 output_lines
      /\ length (take 20 output_lines) = 20%nat
      /\ take 20 output_lines ++ drop 20 output_lines = output_lines).
Proof.
  intros Hfunc Hplain Hrule Htable output_lines preview call.
  assert (Hregular : display_output json_loads json_dumps console output
                     = cbind (_print_regular_output console output)
                             (fun _ => emit (Rule None))).
  { unfold display_output.
    destruct Hplain as [-> | (e & -> & ->)]; [done|].
    by destruct (startswith output "{" && endswith output "}"). }
  assert (Hcall : call
                  = let '(log, r) :=
                      cbind (_print_regular_output console output) (fun _ =>
                      cbind (emit (Rule None)) (fun _ => cret output)) in
                    match r with
                    | Return _ =>
                        (announced (shown_name tool_name name) args kwargs ++ log, r)
                    | Raise e =>
                        let '(log', r') :=
                          try_except (log, Raise e)
                            (fun e => cbind (emit (Print "[bold red]Error:")) (fun _ =>
                                      cbind (render console (Print (exn_str e))) (fun _ =>
                                      cbind (emit (Rule None)) (fun _ =>
                                      cret ("Error: " +:+ exn_str e))))) in
                        (announced (shown_name tool_name name) args kwargs ++ log', r')
                    end).
  { subst call.
    rewrite (ToolProperties.display_on_after_announcement
               json_loads json_dumps console _ _ _ _ _ Hrule Htable).
    rewrite Hfunc. unfold clift. cbn [cbind]. rewrite Hregular.
    destruct (_print_regular_output console output) as [log [[]|e]];
      cbn [cbind emit cret try_except app]; [by rewrite !app_nil_r | done]. }
  split.
  - intros Hshort Hprint. rewrite Hcall. unfold _print_regular_output.
    fold output_lines.
    destruct (Nat.ltb_spec 20 (length output_lines)); [lia|].
    cbn [cbind emit]. by rewrite (ToolProperties.render_returns console _ Hprint).
  - intros Hlong Hprint.
    assert (Hlen : length (take 20 output_lines) = 20%nat).
    { rewrite length_take. lia. }
    split; [|split; [|split; [done | apply take_drop]]].
    + rewrite Hcall. unfold _print_regular_output. fold output_lines.
      destruct (Nat.ltb_spec 20 (length output_lines)); [|lia].
      fold preview. cbn [cbind emit].
      rewrite (ToolProperties.render_returns console _ Hprint).
      by rewrite length_drop.
    + subst preview. apply split_join.
      * intros Hnil. by rewrite Hnil in Hlen.
      * apply Forall_take, split_has_no_sep.
Qed.

End Runner.

(** [kubectl_exec("get pods -n 'kube system'")] *)
Lemma argument_vector_instance :
  exists r rest,
    command_line "get pods -n 'kube system'" = "kubectl " +:+ r
    /\ shlex.split r = Return rest
    /\ [ "kubectl"; "get"; "pods"; "-n"; "kube system" ] = "kubectl" :: rest.
Proof.
  apply (argument_vector_starts_with_kubectl "get pods -n 'kube system'").
  reflexivity.
Defined.

(** A command of blanks and a newline, with a [kubectl] that prints its
    usage and exits with 0. *)
Lemma blank_command_instance :
  let subprocess_run := fun argv : list string =>
        Exited 0 "kubectl controls the Kubernetes cluster manager." "" in
  cmd_args ("  " +:+ String LF "") = Return ["kubectl"]
  /\ kubectl_exec_func subprocess_run ("  " +:+ String LF "")
     = Return "kubectl controls the Kubernetes cluster manager.".
Proof.
  intros subprocess_run.
  apply (blank_command_runs_bare_kubectl subprocess_run ("  " +:+ String LF "")).
  reflexivity.
Defined.

(** [kubectl_exec("get 'pods")]: the quote is not closed. *)
Lemma unsplittable_command_instance :
  let subprocess_run := fun argv : list string => Exited 0 "" "" in
  let tool := kubectl_exec Reference.json_loads Reference.json_dumps Rich.console
                subprocess_run (fun _ _ => "") in
  tool false [ "get 'pods" ] [] = ([], Raise (ValueError "No closing quotation"))
  /\ snd (tool true [ "get 'pods" ] []) = Return "Error: No closing quotation".
Proof.
  intros subprocess_run tool.
  destruct (unsplittable_command_is_not_run
              Reference.json_loads Reference.json_dumps Rich.console
              subprocess_run (fun _ _ => "")
              "get 'pods" (ValueError "No closing quotation") eq_refl)
    as (_ & _ & _ & Hoff & Hon).
  split; [exact Hoff | exact (Hon eq_refl eq_refl eq_refl)].
Defined.

(** [get pod nonexistent] on a cluster without that pod, and [get ns] with
    a warning on stderr. *)
Lemma exit_status_instance :
  let missing := fun argv : list string =>
    Exited 1 "" "Error from server (NotFound): pods nonexistent not found" in
  let listing := fun argv : list string =>
    Exited 0 "default   Active   3d" "Warning: version skew" in
  kubectl_exec_func missing "get pod nonexistent"
  = Return "Error: Error from server (NotFound): pods nonexistent not found"
  /\ snd (kubectl_exec Reference.json_loads Reference.json_dumps Rich.console
            listing (fun _ _ => "") true [ "get ns" ] [])
     = Return "default   Active   3d".
Proof.
  intros missing listing. split.
  - destruct (exit_status_decides_the_result
                Reference.json_loads Reference.json_dumps Rich.console
                missing (fun _ _ => "")
                "get pod nonexistent" [ "kubectl"; "get"; "pod"; "nonexistent" ]
                1 "" "Error from server (NotFound): pods nonexistent not found"
                eq_refl eq_refl) as [H _].
    exact H.
  - destruct (exit_status_decides_the_result
                Reference.json_loads Reference.json_dumps Rich.console
                listing (fun _ _ => "")
                "get ns" [ "kubectl"; "get"; "ns" ]
                0 "default   Active   3d" "Warning: version skew"
                eq_refl eq_refl) as (_ & _ & _ & H).
    exact (H eq_refl eq_refl eq_refl).
Defined.


(** Ctrl-C while the wrapped function runs, display on. *)
Lemma display_interrupt_instance :
  snd (display_kubectl Reference.json_loads Reference.json_dumps Rich.console
         true None "f"
         (fun _ _ => Raise KeyboardInterrupt) [ "get pods" ] [])
  = Raise KeyboardInterrupt.
Proof.
  destruct (display_never_swallows_interrupts
              Reference.json_loads Reference.json_dumps Rich.console
              true None "f"
              (fun _ _ => Raise KeyboardInterrupt) [ "get pods" ] []
              KeyboardInterrupt eq_refl eq_refl) as [_ H].
  apply H. right. split; reflexivity.
Defined.

(** Two lines of output, and a listing of 25 lines: 20 are shown, 5 are
    counted. *)
Lemma plain_output_instance :
  let short := "NAME   READY" +:+ String LF "web    1/1" in
  let long := join (String LF "") (replicate 25 "pod-0   1/1   Running") in
  let tool := fun output =>
    display_kubectl Reference.json_loads Reference.json_dumps Rich.console true
      (Some "kubectl_exec") "kubectl_exec" (fun _ _ => Return output)
      [ "get pods" ] [] in
  tool short
  = (announced "kubectl_exec" [ "get pods" ] []
       ++ [ Print "[bold green]Output:"; Print short; Rule None ],
     Return short)
  /\ tool long
     = (announced "kubectl_exec" [ "get pods" ] []
          ++ [ Print "[bold green]Output (truncated):";
               Print (join (String LF "") (replicate 20 "pod-0   1/1   Running"));
               Print "[italic]...and 5 more lines";
               Rule None ],
        Return long).
Proof.
  intros short long tool. split.
  - destruct (plain_output_is_printed_and_returned
                Reference.json_loads Reference.json_dumps Rich.console
                (Some "kubectl_exec") "kubectl_exec" (fun _ _ => Return short)
                [ "get pods" ] [] short eq_refl (or_introl eq_refl)
                eq_refl eq_refl) as [H _].
    apply H; [vm_compute; lia | reflexivity].
  - destruct (plain_output_is_printed_and_returned
                Reference.json_loads Reference.json_dumps Rich.console
                (Some "kubectl_exec") "kubectl_exec" (fun _ _ => Return long)
                [ "get pods" ] [] long eq_refl (or_introl eq_refl)
                eq_refl eq_refl) as [_ H].
    destruct H as [H _]; [vm_compute; lia | reflexivity |].
    etrans; [exact H | reflexivity].
Defined.

End RunnerProperties.

(** ** The conversation store: the round trip, failed saves and damaged files *)

Module StoreProperties.
Import Agent.

Section Store.

Context (pickle_dumps : pyval -> string) (pickle_loads : string -> unpickled)
        (console : event -> option exn).
Hypothesis pickle_round_trip : forall v, pickle_loads (pickle_dumps v) = Unpickled v.

(** A file that [save_memory] wrote is loaded as it was. *)
Lemma load_of_saved (msgs : list message) (before : option (list message))
    (w : option write_failure) :
  let f := Holds (pickle_dumps (VList (VMessage <$> msgs))) in
  load_memory pickle_loads console (State before f w)
  = (State (Some msgs) f w, [ Print "[dim]Memory loaded successfully[/dim]" ],
     Return tt).
Proof.
  intros f. unfold load_memory. subst f. cbn [memory_file write_error].
  rewrite pickle_round_trip, MemoryProperties.message_list_is_valid.
  by rewrite (MemoryProperties.items_of_message_list msgs).
Qed.

(** [load_memory] changes neither the file nor what writing does. *)
Lemma load_memory_keeps_file (st : state) :
  memory_file (fst (fst (load_memory pickle_loads console st))) = memory_file st
  /\ write_error (fst (fst (load_memory pickle_loads console st))) = write_error st.
Proof.
  assert (Hfailed : forall e,
            memory_file (fst (fst (load_failed console st e))) = memory_file st
            /\ write_error (fst (fst (load_failed console st e))) = write_error st).
  { intros e. unfold load_failed. destruct (is_Exception e); [|done].
    by destruct (console _). }
  destruct st as [m f w]. unfold load_memory.
  cbn [memory_file write_error] in *.
  destruct f as [|msg|content]; [done | apply Hfailed |].
  destruct (pickle_loads content); [|apply Hfailed].
  by destruct (is_message_list v).
Qed.

(** When [load_memory] returns, the agent has a memory. *)
Lemma load_memory_returns_memory (st : state) :
  snd (load_memory pickle_loads console st) = Return tt ->
  exists msgs, memory (fst (fst (load_memory pickle_loads console st))) = Some msgs.
Proof.
  assert (Hfailed : forall e,
            snd (load_failed console st e) = Return tt ->
            exists msgs,
              memory (fst (fst (load_failed console st e))) = Some msgs).
  { intros e. unfold load_failed. destruct (is_Exception e); [|done].
    destruct (console _); [done|]. simpl. eauto. }
  unfold load_memory. destruct (memory_file st); simpl; eauto.
  destruct (pickle_loads content); simpl; eauto.
  destruct (is_message_list v); simpl; eauto.
Qed.

(** When [pickle] reads back what it wrote, a transcript that
    [save_memory] wrote is loaded as it was, turn by turn, whatever the
    agent that loads it held before. A file that holds something other than
    a list of messages, or on which [pickle.load] raises an [Exception]
    whose text the console renders, is loaded as the empty transcript, and
    [load_memory] returns. *)
Theorem transcript_round_trip :
  (forall (st : state) (chat_messages : list message),
     memory st = Some chat_messages ->
     write_error st = None ->
     let saved := fst (fst (save_memory pickle_dumps console st)) in
     snd (save_memory pickle_dumps console st) = Return tt
     /\ forall before : option (list message),
          let loaded := load_memory pickle_loads console
                          (State before (memory_file saved) (write_error saved)) in
          memory (fst (fst loaded)) = Some chat_messages
          /\ snd loaded = Return tt)
  /\ (forall (st : state) (content : string),
        memory_file st = Holds content ->
        (exists e, pickle_loads content = UnpicklingFails e
                   /\ is_Exception e = true
                   /\ console (Print ("[bold red]Error loading memory: "
                                      +:+ exn_str e)) = None)
        \/ (exists v, pickle_loads content = Unpickled v
                      /\ is_message_list v = false) ->
        memory (fst (fst (load_memory pickle_loads console st))) = Some []
        /\ snd (load_memory pickle_loads console st) = Return tt).
Proof.
  split.
  - intros st chat_messages Hmem Hw saved. subst saved.
    unfold save_memory. rewrite Hmem, Hw. cbn [fst snd memory_file write_error].
    split; [done|]. intros before. by rewrite load_of_saved.
  - intros st content Hfile Hbad. unfold load_memory. rewrite Hfile.
    destruct Hbad as [(e & -> & He & Hprint) | (v & -> & ->)]; [|done].
    unfold load_failed. by rewrite He, Hprint.
Qed.

(** A save is not atomic. When the file cannot be opened, it keeps the
    transcript of the last save that wrote, and that one is loaded next,
    not the turns added since. When [pickle.dump] fails, [open] has emptied
    the file before: the file holds what was written until the failure, and
    the earlier transcript is lost; if [pickle] cannot read what is left,
    the next load gives the empty transcript. *)
Theorem failed_save_keeps_the_transcript_only_before_open
    (earlier later : list message) (f : file) (e : exn) (leftover : string)
    (before : option (list message)) :
  let st1 := fst (fst (save_memory pickle_dumps console
                         (State (Some earlier) f None))) in
  let after_open_failure :=
    fst (fst (save_memory pickle_dumps console
                (State (Some later) (memory_file st1) (Some (OpenFails e))))) in
  let after_dump_failure :=
    fst (fst (save_memory pickle_dumps console
                (State (Some later) (memory_file st1)
                       (Some (DumpFails e leftover))))) in
  let reload := fun st' : state =>
    load_memory pickle_loads console
      (State before (memory_file st') (write_error st')) in
  memory_file after_open_failure = memory_file st1
  /\ memory (fst (fst (reload after_open_failure))) = Some earlier
  /\ memory_file after_dump_failure = Holds leftover
  /\ (forall e',
        pickle_loads leftover = UnpicklingFails e' ->
        is_Exception e' = true ->
        console (Print ("[bold red]Error loading memory: " +:+ exn_str e')) = None ->
        memory (fst (fst (reload after_dump_failure))) = Some []).
Proof.
  intros st1 after_open_failure after_dump_failure reload.
  assert (Hst1 : memory_file st1
                 = Holds (pickle_dumps (VList (VMessage <$> earlier)))) by done.
  assert (Hopen : memory_file after_open_failure = memory_file st1).
  { subst after_open_failure. unfold save_memory. cbn [memory write_error].
    by destruct (save_failed console e). }
  assert (Hdump : memory_file after_dump_failure = Holds leftover).
  { subst after_dump_failure. unfold save_memory. cbn [memory write_error].
    by destruct (save_failed console e). }
  split; [exact Hopen|]. split; [|split; [exact Hdump|]].
  - subst reload. cbn beta. rewrite Hopen, Hst1. by rewrite load_of_saved.
  - intros e' Hload He' Hprint. subst reload. cbn beta. rewrite Hdump.
    unfold load_memory. cbn [memory_file]. rewrite Hload.
    unfold load_failed. by rewrite He', Hprint.
Qed.

(** Loading and then saving repairs the file: whatever the file was
    (absent, unreadable, no pickle, no list of messages, or a transcript),
    when [load_memory] returns, a [save_memory] that can write leaves the
    transcript that was loaded in the file, and loading again gives the
    same memory. *)
Theorem load_then_save_repairs_the_file (st : state) :
  write_error st = None ->
  snd (load_memory pickle_loads console st) = Return tt ->
  let loaded := fst (fst (load_memory pickle_loads console st)) in
  let saved := fst (fst (save_memory pickle_dumps console loaded)) in
  exists msgs,
    memory loaded = Some msgs
    /\ memory_file saved = Holds (pickle_dumps (VList (VMessage <$> msgs)))
    /\ memory (fst (fst (load_memory pickle_loads console saved))) = Some msgs.
Proof.
  intros Hw Hreturns loaded saved.
  assert (Hwl : write_error loaded = None).
  { subst loaded. destruct (load_memory_keeps_file st) as [_ ->]. exact Hw. }
  destruct (load_memory_returns_memory st Hreturns) as [msgs Hmsgs].
  exists msgs. split; [exact Hmsgs|].
  assert (Hsaved : saved = State (Some msgs)
                     (Holds (pickle_dumps (VList (VMessage <$> msgs)))) None).
  { subst saved. unfold save_memory. fold loaded in Hmsgs.
    by rewrite Hmsgs, Hwl. }
  rewrite Hsaved. split; [done|]. by rewrite load_of_saved.
Qed.

End Store.

(** Three turns, saved by one agent and loaded by a new one; and a file
    that is no pickle. *)
Lemma transcript_round_trip_instance :
  let chat_messages :=
    [ Message Human "list namespaces"; Message AI "default, kube-system";
      Message Human "exit" ] in
  let st := State (Some chat_messages) Absent None in
  let saved := fst (fst (save_memory Reference.pickle_dumps Rich.console st)) in
  memory (fst (fst (load_memory Reference.pickle_loads Rich.console
                      (State None (memory_file saved) (write_error saved)))))
  = Some chat_messages
  /\ memory (fst (fst (load_memory Reference.pickle_loads Rich.console
                         (State None (Holds "not a pickle") None))))
     = Some [].
Proof.
  intros chat_messages st saved.
  destruct (transcript_round_trip Reference.pickle_dumps Reference.pickle_loads
              Rich.console ReferenceProperties.pickle_loads_dumps) as [H1 H2].
  split.
  - destruct (H1 st chat_messages eq_refl eq_refl) as [_ H].
    exact (proj1 (H None)).
  - refine (proj1 (H2 (State None (Holds "not a pickle") None) "not a pickle"
                      eq_refl _)).
    left. exists (UnpicklingError "invalid load key"). by repeat split.
Defined.

(** A save that meets a full disk, before and after the file was opened. *)
Lemma failed_save_instance :
  let earlier := [ Message Human "list namespaces"; Message AI "default" ] in
  let later := earlier ++ [ Message Human "get pods"; Message AI "none" ] in
  let e := OSError "[Errno 28] No space left on device" in
  let st1 := fst (fst (save_memory Reference.pickle_dumps Rich.console
                         (State (Some earlier) Absent None))) in
  let after_open_failure :=
    fst (fst (save_memory Reference.pickle_dumps Rich.console
                (State (Some later) (memory_file st1) (Some (OpenFails e))))) in
  let after_dump_failure :=
    fst (fst (save_memory Reference.pickle_dumps Rich.console
                (State (Some later) (memory_file st1) (Some (DumpFails e ""))))) in
  memory (fst (fst (load_memory Reference.pickle_loads Rich.console
                      (State None (memory_file after_open_failure)
                             (write_error after_open_failure)))))
  = Some earlier
  /\ memory_file after_dump_failure = Holds "".
Proof.
  intros earlier later e st1 after_open_failure after_dump_failure.
  destruct (failed_save_keeps_the_transcript_only_before_open
              Reference.pickle_dumps Reference.pickle_loads Rich.console
              ReferenceProperties.pickle_loads_dumps
              earlier later Absent e "" None) as (_ & Hreload & Hdump & _).
  split; [exact Hreload | exact Hdump].
Defined.

Lemma load_then_save_instance :
  let st := State None (Holds "not a pickle") None in
  let loaded := fst (fst (load_memory Reference.pickle_loads Rich.console st)) in
  let saved := fst (fst (save_memory Reference.pickle_dumps Rich.console loaded)) in
  write_error st = None
  /\ exists msgs,
       memory loaded = Some msgs
       /\ memory (fst (fst (load_memory Reference.pickle_loads Rich.console saved)))
          = Some msgs.
Proof.
  intros st loaded saved. split; [reflexivity|].
  destruct (load_then_save_repairs_the_file
              Reference.pickle_dumps Reference.pickle_loads Rich.console
              ReferenceProperties.pickle_loads_dumps st eq_refl eq_refl)
    as (msgs & H1 & _ & H3).
  exists msgs. split; [exact H1 | exact H3].
Defined.

End StoreProperties.

(** ** The settings store: first run, [clear_config], damaged files *)

Module ConfigProperties.
Import Agent Config.

Section Config.

Context (json_loads : string -> result pyval)
        (json_dumps : nat -> pyval -> string).





Local Ltac fields :=
  repeat first [ rewrite SettingsProperties.dict_get_put_eq
               | rewrite SettingsProperties.dict_get_put_ne by done ];
  done.




(** A stored configuration without the section of an update: the update
    raises [KeyError] before anything is written. *)
Theorem update_without_section_raises
    (st : store) (text : string) (d : dict) :
  config_file st = Holds text ->
  json_loads text = Return (VDict d) ->
  (dict_get "openai" d = None ->
   forall api_key model, api_key <> None \/ model <> None ->
     update_openai_settings json_loads json_dumps api_key model st
     = (Store true (config_file st) (DEFAULT_CONFIG st), Raise (KeyError "'openai'")))
  /\ (dict_get "azure" d = None ->
      forall api_key endpoint deployment api_version,
        api_key <> None \/ endpoint <> None \/ deployment <> None
        \/ api_version <> None ->
        update_azure_settings json_loads json_dumps
          api_key endpoint deployment api_version st
        = (Store true (config_file st) (DEFAULT_CONFIG st),
           Raise (KeyError "'azure'"))).
Proof.
  intros Hfile Htext. split.
  - intros Hnone api_key model Hgiven.
    unfold update_openai_settings, mbind.
    rewrite (SettingsProperties.load_config_stored json_loads st text (VDict d)
               Hfile Htext).
    destruct api_key as [a|];
      [|destruct model as [m|]; [|exfalso; by destruct Hgiven]];
      unfold assign_if_given, assign_in, mbind, lift, ret; simpl;
      by rewrite Hnone.
  - intros Hnone api_key endpoint deployment api_version Hgiven.
    unfold update_azure_settings, mbind.
    rewrite (SettingsProperties.load_config_stored json_loads st text (VDict d)
               Hfile Htext).
    destruct api_key as [a|];
      [|destruct endpoint as [e|];
         [|destruct deployment as [dp|];
            [|destruct api_version as [v|];
               [|exfalso; by destruct Hgiven as [?|[?|[?|?]]]]]]];
      unfold assign_if_given, assign_in, mbind, lift, ret; simpl;
      by rewrite Hnone.
Qed.

(** [load_config] does not look at the shape of what it read. A settings
    file that is JSON but no object is returned as it is, and then
    [update_provider] raises [TypeError], [view_config] and [get_provider]
    raise [AttributeError]; the file stays as it was. *)
Theorem settings_of_wrong_shape_raise
    (st : store) (text : string) (v : pyval) (provider : string) :
  config_file st = Holds text ->
  json_loads text = Return v ->
  (forall d, v <> VDict d) ->
  let st' := Store true (config_file st) (DEFAULT_CONFIG st) in
  load_config json_loads st = (st', Return (Ref v false))
  /\ (exists msg, update_provider json_loads json_dumps provider st
                  = (st', Raise (TypeError msg)))
  /\ (exists msg, view_config json_loads json_dumps st
                  = (st', Raise (AttributeError msg)))
  /\ (exists msg, get_provider json_loads st = (st', Raise (AttributeError msg))).
Proof.
  intros Hfile Htext Hshape st'.
  pose proof (SettingsProperties.load_config_stored json_loads st text v Hfile Htext)
    as Hload.
  split; [exact Hload|].
  unfold update_provider, view_config, get_provider, mbind. rewrite Hload.
  unfold assign, mbind, lift, ret.
  destruct v; try (by destruct (Hshape d));
    cbn -[redact_section]; (split; [by eexists|split; by eexists]).
Qed.

(** The three getters return the stored value of their key, and the value
    of [DEFAULT_CONFIG] for a key that the stored configuration lacks. *)
Theorem getters_fall_back_per_key
    (st : store) (text : string) (d : dict) (dp dop da : pyval) :
  config_file st = Holds text ->
  json_loads text = Return (VDict d) ->
  dict_get "provider" (DEFAULT_CONFIG st) = Some dp ->
  dict_get "openai" (DEFAULT_CONFIG st) = Some dop ->
  dict_get "azure" (DEFAULT_CONFIG st) = Some da ->
  snd (get_provider json_loads st)
  = Return (match dict_get "provider" d with Some x => x | None => dp end)
  /\ snd (get_openai_settings json_loads st)
     = Return (match dict_get "openai" d with Some x => x | None => dop end)
  /\ snd (get_azure_settings json_loads st)
     = Return (match dict_get "azure" d with Some x => x | None => da end).
Proof.
  intros Hfile Htext Hdp Hdo Hda.
  unfold get_provider, get_openai_settings, get_azure_settings, mbind.
  rewrite (SettingsProperties.load_config_stored json_loads st text (VDict d)
             Hfile Htext).
  unfold default_item, lift, ret. simpl. rewrite Hdp, Hdo, Hda. simpl.
  repeat split; by destruct (dict_get _ d).
Qed.

(** What an update wrote is what the getters return next. *)
Theorem getters_read_updates_back
    (Hjson : forall v, json_loads (json_dumps 2 v) = Return v)
    (st : store) (text : string) (d so : dict) (dp dop : pyval)
    (provider : string) (api_key model : option string) :
  config_file st = Holds text ->
  json_loads text = Return (VDict d) ->
  dict_get "openai" d = Some (VDict so) ->
  dict_get "provider" (DEFAULT_CONFIG st) = Some dp ->
  dict_get "openai" (DEFAULT_CONFIG st) = Some dop ->
  snd (get_provider json_loads
         (fst (update_provider json_loads json_dumps provider st)))
  = Return (VStr provider)
  /\ exists so',
       snd (get_openai_settings json_loads
              (fst (update_openai_settings json_loads json_dumps api_key model st)))
       = Return (VDict so')
       /\ dict_get "api_key" so' = written api_key (dict_get "api_key" so)
       /\ dict_get "model" so' = written model (dict_get "model" so).
Proof.
  intros Hfile Htext Hso Hdp Hdo. split.
  - rewrite (SettingsProperties.update_provider_stored json_loads json_dumps
               st text d provider Hfile Htext). simpl.
    unfold get_provider, mbind.
    erewrite SettingsProperties.load_config_stored by done.
    unfold default_item, lift, ret. simpl. rewrite Hdp. simpl.
    by rewrite SettingsProperties.dict_get_set_eq.
  - destruct (SettingsProperties.update_openai_stored json_loads json_dumps
                st text d so api_key model Hfile Htext Hso)
      as (d' & -> & Hso' & _). simpl.
    exists (put model "model" (put api_key "api_key" so)).
    split; [|split; fields].
    unfold get_openai_settings, mbind.
    erewrite SettingsProperties.load_config_stored by done.
    unfold default_item, lift, ret. simpl. rewrite Hdo. simpl. by rewrite Hso'.
Qed.

Lemma mbind_file {A B} (m : M A) (k : A -> M B) :
  (forall st, config_file (fst (m st)) = config_file st) ->
  (forall a st, config_file (fst (k a st)) = config_file st) ->
  forall st, config_file (fst (mbind m k st)) = config_file st.
Proof.
  intros Hm Hk st. unfold mbind. specialize (Hm st).
  destruct (m st) as [st' [a|e]]; simpl in *; [by rewrite Hk | done].
Qed.

Lemma load_config_file (st : store) :
  config_file (fst (load_config json_loads st)) = config_file st.
Proof.
  unfold load_config, ensure_config_dir, default_copy, mbind.
  destruct st as [[|] [|msg|text] D]; simpl; try done;
    destruct (json_loads text) as [v|e]; [done | by destruct (corrupted e)
                                        | done | by destruct (corrupted e)].
Qed.

Lemma assign_in_file (c : config_ref) (section k : string) (x : pyval) (st : store) :
  config_file (fst (assign_in c section k x st)) = config_file st.
Proof.
  revert st. unfold assign_in.
  repeat (apply mbind_file; [done | intros ?]).
  intros st. by destruct (shares_defaults c).
Qed.

Lemma redact_section_file (c : config_ref) (section : string) (st : store) :
  config_file (fst (redact_section c section st)) = config_file st.
Proof.
  revert st. unfold redact_section.
  repeat (apply mbind_file; [done | intros ?]).
  destruct (truthy _); [|done].
  do 3 (apply mbind_file; [done | intros ?]).
  intros st. apply assign_in_file.
Qed.

Lemma view_config_file (st : store) :
  config_file (fst (view_config json_loads json_dumps st)) = config_file st.
Proof.
  revert st. unfold view_config.
  apply mbind_file; [apply load_config_file | intros config].
  apply mbind_file; [done | intros c].
  apply mbind_file; [done | intros display_config].
  apply mbind_file; [intros st; apply redact_section_file | intros d1].
  apply mbind_file; [intros st; apply redact_section_file | done].
Qed.

(** Reading never writes: [view_config] and the three getters leave the
    settings file as it is, whatever it holds and also when they raise. *)
Theorem reading_never_changes_the_file (st : store) :
  config_file (fst (view_config json_loads json_dumps st)) = config_file st
  /\ config_file (fst (get_provider json_loads st)) = config_file st
  /\ config_file (fst (get_openai_settings json_loads st)) = config_file st
  /\ config_file (fst (get_azure_settings json_loads st)) = config_file st.
Proof.
  split; [apply view_config_file|].
  repeat split; revert st;
    unfold get_provider, get_openai_settings, get_azure_settings.
  - apply mbind_file; [apply load_config_file | intros config].
    repeat (apply mbind_file; [done | intros ?]). done.
  - apply mbind_file; [apply load_config_file | intros config].
    repeat (apply mbind_file; [done | intros ?]). done.
  - apply mbind_file; [apply load_config_file | intros config].
    repeat (apply mbind_file; [done | intros ?]). done.
Qed.

Lemma assign_in_unshared (c : config_ref) (section k : string) (x : pyval)
    (st : store) :
  shares_defaults c = false ->
  exists r, assign_in c section k x st = (st, r)
            /\ forall c', r = Return c' -> shares_defaults c' = false.
Proof.
  destruct c as [v sh]. simpl. intros ->.
  unfold assign_in, mbind, lift. simpl.
  destruct (getitem v section) as [sect|e]; simpl;
    [|eexists; split; [done | by intros c' [=]]].
  destruct (setitem sect k x) as [sect'|e]; simpl;
    [|eexists; split; [done | by intros c' [=]]].
  destruct (setitem v section sect') as [v'|e]; simpl;
    [|eexists; split; [done | by intros c' [=]]].
  eexists. split; [done|]. by intros c' [= <-].
Qed.

Lemma assign_if_given_unshared (c : config_ref) (section k : string)
    (x : option string) (st : store) :
  shares_defaults c = false ->
  exists r, assign_if_given c section k x st = (st, r)
            /\ forall c', r = Return c' -> shares_defaults c' = false.
Proof.
  intros Hc. destruct x as [s|]; simpl; [by apply assign_in_unshared|].
  eexists. split; [done|]. by intros c' [= <-].
Qed.

Lemma redact_section_unshared (c : config_ref) (section : string) (st : store) :
  shares_defaults c = false ->
  exists r, redact_section c section st = (st, r)
            /\ forall c', r = Return c' -> shares_defaults c' = false.
Proof.
  intros Hc. unfold redact_section, mbind, lift.
  destruct (get (conf c) section (VDict [])) as [sect|e]; simpl;
    [|eexists; split; [done | by intros c' [=]]].
  destruct (get sect "api_key" VNone) as [api_key|e]; simpl;
    [|eexists; split; [done | by intros c' [=]]].
  destruct (truthy api_key);
    [|eexists; split; [done | by intros c' [= <-]]].
  destruct (getitem (conf c) section) as [s1|e]; simpl;
    [|eexists; split; [done | by intros c' [=]]].
  destruct (getitem s1 "api_key") as [x|e]; simpl;
    [|eexists; split; [done | by intros c' [=]]].
  destruct (redacted x) as [shown|e]; simpl;
    [|eexists; split; [done | by intros c' [=]]].
  by apply assign_in_unshared.
Qed.

(** With a settings file that [json] reads, no operation touches the
    defaults in memory: the three updates and [view_config] leave
    [DEFAULT_CONFIG] as it is, whatever the stored value and also when
    they raise. *)
Theorem stored_settings_leave_defaults_alone
    (st : store) (text : string) (v : pyval) :
  config_file st = Holds text ->
  json_loads text = Return v ->
  (forall provider,
     DEFAULT_CONFIG (fst (update_provider json_loads json_dumps provider st))
     = DEFAULT_CONFIG st)
  /\ (forall api_key model,
        DEFAULT_CONFIG (fst (update_openai_settings json_loads json_dumps
                               api_key model st))
        = DEFAULT_CONFIG st)
  /\ (forall api_key endpoint deployment api_version,
        DEFAULT_CONFIG (fst (update_azure_settings json_loads json_dumps
                               api_key endpoint deployment api_version st))
        = DEFAULT_CONFIG st)
  /\ DEFAULT_CONFIG (fst (view_config json_loads json_dumps st))
     = DEFAULT_CONFIG st.
Proof.
  intros Hfile Htext.
  pose proof (SettingsProperties.load_config_stored json_loads st text v Hfile Htext)
    as Hload.
  set (st1 := Store true (config_file st) (DEFAULT_CONFIG st)) in Hload.
  repeat split.
  - intros provider. unfold update_provider, mbind. rewrite Hload.
    unfold assign, mbind, lift, ret. cbn -[save_config].
    destruct (setitem v "provider" (VStr provider)); cbn -[save_config]; [|done].
    by rewrite SettingsProperties.save_config_writes.
  - intros api_key model. unfold update_openai_settings, mbind. rewrite Hload.
    destruct (assign_if_given_unshared (Ref v false) "openai" "api_key" api_key
                st1 eq_refl) as (r1 & -> & H1).
    destruct r1 as [c1|]; [|done]. specialize (H1 c1 eq_refl).
    destruct (assign_if_given_unshared c1 "openai" "model" model st1 H1)
      as (r2 & -> & H2).
    destruct r2 as [c2|]; [|done].
    by rewrite SettingsProperties.save_config_writes.
  - intros api_key endpoint deployment api_version.
    unfold update_azure_settings, mbind. rewrite Hload.
    destruct (assign_if_given_unshared (Ref v false) "azure" "api_key" api_key
                st1 eq_refl) as (r1 & -> & H1).
    destruct r1 as [c1|]; [|done]. specialize (H1 c1 eq_refl).
    destruct (assign_if_given_unshared c1 "azure" "endpoint" endpoint st1 H1)
      as (r2 & -> & H2).
    destruct r2 as [c2|]; [|done]. specialize (H2 c2 eq_refl).
    destruct (assign_if_given_unshared c2 "azure" "deployment" deployment st1 H2)
      as (r3 & -> & H3).
    destruct r3 as [c3|]; [|done]. specialize (H3 c3 eq_refl).
    destruct (assign_if_given_unshared c3 "azure" "api_version" api_version st1 H3)
      as (r4 & -> & H4).
    destruct r4 as [c4|]; [|done].
    by rewrite SettingsProperties.save_config_writes.
  - unfold view_config, mbind. rewrite Hload. unfold lift, ret.
    destruct (copy (conf (Ref v false))) as [c|]; [|done].
    destruct (redact_section_unshared (Ref c false) "openai" st1 eq_refl)
      as (r1 & E1 & H1).
    simpl in *. rewrite E1.
    destruct r1 as [c1|]; [|done]. specialize (H1 c1 eq_refl).
    destruct (redact_section_unshared c1 "azure" st1 H1) as (r2 & -> & H2).
    by destruct r2.
Qed.

End Config.

(** *** The theorems at concrete stores, with the reference serialisation *)




Lemma update_without_section_instance :
  let st := fresh_import true (Holds "{}") in
  update_openai_settings (fun _ => Return (VDict [])) (fun _ _ => "{}")
    (Some "sk-proj-8f3kQ9xZ") None st
  = (st, Raise (KeyError "'openai'")).
Proof.
  intros st.
  destruct (update_without_section_raises
              (fun _ => Return (VDict [])) (fun _ _ => "{}") st "{}" []
              eq_refl eq_refl) as [H _].
  apply (H eq_refl (Some "sk-proj-8f3kQ9xZ") None). left. discriminate.
Defined.

Lemma wrong_shape_instance :
  let st := fresh_import true (Holds "[]") in
  exists msg,
    view_config (fun _ => Return (VList [])) (fun _ _ => "[]") st
    = (st, Raise (AttributeError msg)).
Proof.
  intros st.
  destruct (settings_of_wrong_shape_raise
              (fun _ => Return (VList [])) (fun _ _ => "[]") st "[]" (VList []) "azure"
              eq_refl eq_refl) as (_ & _ & H & _); [discriminate | exact H].
Defined.

Lemma getters_fall_back_instance :
  let st := fresh_import true (Holds "{}") in
  snd (get_provider (fun _ => Return (VDict [])) st) = Return (VStr "openai").
Proof.
  intros st.
  destruct (getters_fall_back_per_key
              (fun _ => Return (VDict [])) st "{}" [] (VStr "openai")
              (VDict [ ("api_key", VStr ""); ("model", VStr "gpt-4o") ])
              (VDict [ ("api_key", VStr ""); ("endpoint", VStr "");
                       ("deployment", VStr "");
                       ("api_version", VStr "2023-05-15") ])
              eq_refl eq_refl eq_refl eq_refl eq_refl) as [H _].
  exact H.
Defined.

Lemma getters_read_back_instance :
  let d := DEFAULT_CONFIG_literal in
  let st := Store true (Holds (Reference.json_dumps 2 (VDict d))) d in
  snd (get_provider Reference.json_loads
         (fst (update_provider Reference.json_loads Reference.json_dumps "azure" st)))
  = Return (VStr "azure").
Proof.
  intros d st.
  destruct (getters_read_updates_back
              Reference.json_loads Reference.json_dumps
              (ReferenceProperties.json_loads_dumps 2)
              st (Reference.json_dumps 2 (VDict d)) d
              [ ("api_key", VStr ""); ("model", VStr "gpt-4o") ]
              (VStr "openai")
              (VDict [ ("api_key", VStr ""); ("model", VStr "gpt-4o") ])
              "azure" None None
              eq_refl (ReferenceProperties.json_loads_dumps 2 (VDict d))
              eq_refl eq_refl eq_refl) as [H _].
  exact H.
Defined.

Lemma stored_settings_instance :
  let d := DEFAULT_CONFIG_literal in
  let st := Store true (Holds (Reference.json_dumps 2 (VDict d))) d in
  DEFAULT_CONFIG (fst (update_openai_settings Reference.json_loads
                         Reference.json_dumps (Some "sk-proj-8f3kQ9xZ") None st))
  = d.
Proof.
  intros d st.
  destruct (stored_settings_leave_defaults_alone
              Reference.json_loads Reference.json_dumps
              st (Reference.json_dumps 2 (VDict d)) (VDict d)
              eq_refl (ReferenceProperties.json_loads_dumps 2 (VDict d)))
    as (_ & H & _).
  exact (H (Some "sk-proj-8f3kQ9xZ") None).
Defined.

End ConfigProperties.

(** ** The interactive session *)

Module SessionProperties.
Import Agent Session.

Section Interactive.

Context (pickle_dumps : pyval -> string) (pickle_loads : string -> unpickled)
        (console : event -> option exn)
        (invoke : option (list message) -> string ->
                  option (list message) * list output * result string)
        (self : agent).

Lemma sbind_keeps {A B} (m : Step A) (k : A -> Step B) :
  keeps m -> (forall a, keeps (k a)) -> keeps (sbind m k).
Proof.
  intros Hm Hk st. unfold sbind. specialize (Hm st).
  destruct (m st) as [[st1 out1] [a|e]]; [|done].
  specialize (Hk a st1). destruct (k a st1) as [[st2 out2] r].
  simpl in *. congruence.
Qed.

Lemma shown_keeps {A} (out : list output) (a : A) : keeps (shown out a).
Proof. by intros st. Qed.

Lemma save_keeps : keeps (save pickle_dumps console).
Proof.
  intros st. unfold save, save_memory.
  destruct (memory st); [|done].
  destruct (write_error st) as [[e|e leftover]|] eqn:Hw; [| |done].
  - destruct (save_failed console e). simpl. done.
  - destruct (save_failed console e). simpl. done.
Qed.

Lemma save_keeps_memory (st : state) :
  memory (fst (fst (save pickle_dumps console st))) = memory st.
Proof.
  unfold save, save_memory.
  destruct (memory st) eqn:Hm; [|done].
  destruct (write_error st) as [[e|e leftover]|]; [| |done].
  - by destruct (save_failed console e).
  - by destruct (save_failed console e).
Qed.

Lemma run_keeps (query : string) : keeps (run console invoke self query).
Proof.
  intros st. unfold run.
  destruct (invoke (memory st) _) as [[mem out] [result|e]]; [|done].
  destruct (show_tool_calls self); [|done].
  by destruct (console _).
Qed.

Lemma start_keeps : keeps (start_interactive_session pickle_loads console).
Proof.
  apply sbind_keeps; [|intros; apply shown_keeps].
  intros st.
  destruct (StoreProperties.load_memory_keeps_file pickle_loads console st)
    as [_ Hw].
  by destruct (load_memory pickle_loads console st) as [[st' log] r].
Qed.

(** The start of the session is [load_memory], and the panel when it
    returned. *)
Lemma start_spec (st : state) :
  start_interactive_session pickle_loads console st
  = let '(st', log, r) := load_memory pickle_loads console st in
    match r with
    | Return _ =>
        (st',
         (Console <$> log)
         ++ [ Console (PrintPanel
                         "Interactive mode started. Type 'exit' or 'quit' to end the session."
                         "Kube Assistant" "blue") ],
         Return tt)
    | Raise e => (st', Console <$> log, Raise e)
    end.
Proof.
  unfold start_interactive_session, sbind, shown.
  by destruct (load_memory pickle_loads console st) as [[s l] [[]|e]].
Qed.

Lemma attempt_keeps (ev : option stdin_event) :
  keeps (attempt pickle_dumps console invoke self ev).
Proof.
  unfold attempt. apply sbind_keeps; [apply shown_keeps|]. intros _.
  destruct ev as [[query|]|]; try done.
  destruct (is_exit query).
  - apply sbind_keeps; [apply save_keeps | intros; apply shown_keeps].
  - destruct (is_continue query); [apply shown_keeps|].
    apply sbind_keeps; [apply run_keeps|]. intros _.
    apply sbind_keeps; [apply save_keeps | done].
Qed.

Lemma turn_keeps (ev : option stdin_event) :
  keeps (turn pickle_dumps console invoke self ev).
Proof.
  intros st. unfold turn. pose proof (attempt_keeps ev st) as Ha.
  destruct (attempt pickle_dumps console invoke self ev st) as [[st1 out] [b|e]];
    [done|].
  destruct (is_KeyboardInterrupt e).
  - pose proof (save_keeps st1) as Hs.
    destruct (save pickle_dumps console st1) as [[st2 saved] [[]|e2]];
      simpl in *; congruence.
  - by destruct (is_Exception e).
Qed.

Lemma loop_keeps_write_error (fuel : nat) :
  forall stdin st st' out r,
    loop pickle_dumps console invoke self fuel stdin st = Some (st', out, r) ->
    write_error st' = write_error st.
Proof.
  induction fuel as [|fuel IH]; intros stdin st st' out r H; [done|].
  simpl in H. pose proof (turn_keeps (head stdin) st) as Ht.
  destruct (turn pickle_dumps console invoke self (head stdin) st)
    as [[st1 out1] [[|]|e]]; simpl in Ht.
  - inversion H; subst. exact Ht.
  - unfold after in H.
    destruct (loop pickle_dumps console invoke self fuel (tail stdin) st1)
      as [[[s o] r']|] eqn:E; [|done].
    inversion H; subst. apply IH in E. congruence.
  - inversion H; subst. exact Ht.
Qed.

(** A save that can write leaves the memory in the file. *)
Lemma save_writes (st : state) :
  write_error st = None ->
  snd (save pickle_dumps console st) = Return tt
  /\ forall msgs, memory st = Some msgs ->
       memory_file (fst (fst (save pickle_dumps console st)))
       = Holds (pickle_dumps (VList (VMessage <$> msgs))).
Proof.
  intros Hw. unfold save, save_memory. rewrite Hw.
  destruct (memory st) as [m|]; [|done]. split; [done|]. by intros msgs [= ->].
Qed.

Lemma save_returns_spec (st : state) :
  save_returns console (write_error st) ->
  snd (save pickle_dumps console st) = Return tt.
Proof.
  unfold save_returns, save, save_memory.
  destruct (memory st); [|done].
  destruct (write_error st) as [[e|e leftover]|]; [| |done];
    intros [He Hprint]; unfold save_failed; simpl in *; rewrite He;
    unfold render; by rewrite Hprint.
Qed.

(** However [run_interactive] ends after its start (by [exit], by Ctrl-C,
    or by an exception that leaves the loop), the transcript file then
    holds the memory of the agent, if the file can be written. The start
    stands before [try:]: when [load_memory] raises, the call ends at once
    with that exception, and nothing is saved. *)
Theorem session_end_saves_the_memory
    (fuel : nat) (stdin : list stdin_event) (st : state) :
  (snd (load_memory pickle_loads console st) = Return tt ->
   write_error st = None ->
   forall st' out r msgs,
     run_interactive pickle_dumps pickle_loads console invoke self fuel stdin st
     = Some (st', out, r) ->
     memory st' = Some msgs ->
     memory_file st' = Holds (pickle_dumps (VList (VMessage <$> msgs))))
  /\ (forall e,
        snd (load_memory pickle_loads console st) = Raise e ->
        exists st' out,
          run_interactive pickle_dumps pickle_loads console invoke self fuel stdin st
          = Some (st', out, Raise e)
          /\ memory_file st' = memory_file st).
Proof.
  pose proof (StoreProperties.load_memory_keeps_file pickle_loads console st)
    as [Hfile Hkeep].
  unfold run_interactive. rewrite start_spec.
  destruct (load_memory pickle_loads console st) as [[st0 log] [[]|e0]];
    simpl in Hfile, Hkeep; cbn [snd]; split; try done.
  - intros _ Hw st' out r msgs Hrun Hmsgs.
    destruct (loop pickle_dumps console invoke self fuel stdin st0)
      as [[[st1 o1] r1]|] eqn:E; [|done].
    apply loop_keeps_write_error in E.
    assert (Hw1 : write_error st1 = None) by congruence.
    destruct (save_writes st1 Hw1) as [Hret Hsaved].
    pose proof (save_keeps_memory st1) as Hmem.
    destruct (save pickle_dumps console st1) as [[st2 saved] [[]|e2]];
      simpl in *; [|done].
    inversion Hrun; subst. apply Hsaved. congruence.
  - intros e [= ->]. by eexists _, _.
Qed.

(** What [self.run] and a save raise, when the engine, the console and the
    failure of writing raise ordinary exceptions. *)
Lemma run_raises_ordinary (query : string) (st : state) (e : exn) :
  (forall mem query e, snd (invoke mem query) = Raise e -> ordinary e) ->
  (forall ev e, console ev = Some e -> ordinary e) ->
  snd (run console invoke self query st) = Raise e -> ordinary e.
Proof.
  intros Hinvoke Hconsole. unfold run.
  pose proof (Hinvoke (memory st)) as Hi.
  destruct (invoke (memory st) _) as [[mem out] [result|e']] eqn:E; simpl.
  - destruct (show_tool_calls self); [|done].
    destruct (console _) eqn:Hc; [|done]. intros [= <-]. by eapply Hconsole.
  - intros [= <-]. eapply Hi. by rewrite E.
Qed.

Lemma save_raises_ordinary (st : state) (e : exn) :
  (forall ev e, console ev = Some e -> ordinary e) ->
  (forall w, write_error st = Some w -> is_Exception (failure_exn w) = true) ->
  snd (save pickle_dumps console st) = Raise e -> ordinary e.
Proof.
  intros Hconsole Hw. unfold save, save_memory.
  destruct (memory st); [|done].
  destruct (write_error st) as [[e1|e1 leftover]|]; [| |done];
    specialize (Hw _ eq_refl); simpl in Hw;
    unfold save_failed; rewrite Hw; unfold render;
    (destruct (console _) eqn:Hc; [|done]); simpl; intros [= <-];
    by eapply Hconsole.
Qed.

(** A turn on an event that does not end the session: what stands under
    [try:] goes on to the next turn, or raises an ordinary exception. *)
Lemma attempt_goes_on (ev : option stdin_event) (s : state) :
  (forall mem query e, snd (invoke mem query) = Raise e -> ordinary e) ->
  (forall ev e, console ev = Some e -> ordinary e) ->
  (forall w, write_error s = Some w -> is_Exception (failure_exn w) = true) ->
  match ev with Some ev => ends_session ev = false | None => True end ->
  match snd (attempt pickle_dumps console invoke self ev s) with
  | Return b => b = false
  | Raise e => ordinary e
  end.
Proof.
  intros Hinvoke Hconsole Hws Hev. unfold attempt, sbind, shown.
  destruct ev as [[query|]|]; simpl in Hev; [| done | by split].
  rewrite Hev. destruct (is_continue query); [done|].
  pose proof (run_raises_ordinary query s) as Hrun.
  pose proof (run_keeps query s) as Hkeep.
  destruct (run console invoke self query s) as [[s2 o2] [result|e2]];
    simpl in Hrun, Hkeep; [|by apply Hrun].
  pose proof (save_raises_ordinary s2) as Hsave.
  destruct (save pickle_dumps console s2) as [[s3 o3] [[]|e3]]; [done|].
  simpl in *. apply Hsave; [done | | done]. by rewrite Hkeep.
Qed.

(** The end of the input does not end the session. When no line is [exit]
    or [quit], there is no Ctrl-C, and the engine, the console and a
    failing write raise nothing but ordinary [Exception]s, every turn ends
    in the handler that prints the error and goes on, and the loop never
    stops: at the end of the input each turn prints the [EOFError] of
    [input]. Once [load_memory] has returned, [run_interactive] does not
    return. *)
Theorem session_never_ends_without_exit (stdin : list stdin_event) (st : state) :
  (forall mem query e, snd (invoke mem query) = Raise e -> ordinary e) ->
  (forall ev e, console ev = Some e -> ordinary e) ->
  (forall w, write_error st = Some w -> is_Exception (failure_exn w) = true) ->
  forallb (fun ev => negb (ends_session ev)) stdin = true ->
  forall fuel,
    loop pickle_dumps console invoke self fuel stdin st = None
    /\ (snd (load_memory pickle_loads console st) = Return tt ->
        run_interactive pickle_dumps pickle_loads console invoke self fuel stdin st
        = None).
Proof.
  intros Hinvoke Hconsole Hwrite Hstdin.
  assert (Hturn : forall (ev : option stdin_event) s,
            write_error s = write_error st ->
            match ev with Some ev => ends_session ev = false | None => True end ->
            exists s1 out,
              turn pickle_dumps console invoke self ev s = (s1, out, Return false)).
  { intros ev s Hs Hev.
    assert (Hws : forall w, write_error s = Some w ->
                            is_Exception (failure_exn w) = true)
      by (rewrite Hs; exact Hwrite).
    pose proof (attempt_goes_on ev s Hinvoke Hconsole Hws Hev) as Ha.
    unfold turn.
    destruct (attempt pickle_dumps console invoke self ev s) as [[s1 out] [b|e]];
      simpl in Ha.
    - subst b. by eexists _, _.
    - destruct Ha as [-> ->]. by eexists _, _. }
  assert (Hloop : forall fuel stdin s,
            write_error s = write_error st ->
            forallb (fun ev => negb (ends_session ev)) stdin = true ->
            loop pickle_dumps console invoke self fuel stdin s = None).
  { clear stdin Hstdin. induction fuel as [|fuel IH]; intros stdin s Hs Hstdin;
      [done|].
    simpl.
    destruct (Hturn (head stdin) s Hs) as (s1 & out & Ht).
    { destruct stdin as [|ev stdin]; [done|]. simpl in *.
      apply andb_prop in Hstdin as [Hev _]. by apply negb_true_iff. }
    pose proof (turn_keeps (head stdin) s) as Hk. rewrite Ht in *. simpl in Hk.
    rewrite IH; [done | congruence |].
    destruct stdin as [|ev stdin]; [done|]. simpl in *.
    by apply andb_prop in Hstdin as [_ ?]. }
  intros fuel. split; [by apply Hloop|].
  intros Hload. unfold run_interactive. rewrite start_spec.
  pose proof (StoreProperties.load_memory_keeps_file pickle_loads console st)
    as [_ Hkeep].
  destruct (load_memory pickle_loads console st) as [[st0 log] [[]|e0]];
    simpl in Hkeep, Hload; [|done].
  by rewrite Hloop.
Qed.

(** A line [exit] or [quit], in any mix of upper and lower case, or a
    Ctrl-C ends the session, when a save returns: one turn of the loop for
    each event before it and one for itself are enough. *)
Theorem exit_ends_the_session
    (before rest : list stdin_event) (ev : stdin_event) (st : state) :
  ends_session ev = true ->
  save_returns console (write_error st) ->
  exists st' out r,
    run_interactive pickle_dumps pickle_loads console invoke self
      (S (length before)) (before ++ ev :: rest) st
    = Some (st', out, r).
Proof.
  intros Hev Hsave.
  assert (Hends : forall s,
            write_error s = write_error st ->
            forall s1 out,
              turn pickle_dumps console invoke self (Some ev) s
              <> (s1, out, Return false)).
  { intros s Hs s1 out. unfold turn.
    assert (Hret : forall s', write_error s' = write_error st ->
                     snd (save pickle_dumps console s') = Return tt).
    { intros s' Hs'. apply save_returns_spec. by rewrite Hs'. }
    destruct ev as [query|]; simpl in Hev.
    - unfold attempt, sbind, shown. rewrite Hev.
      specialize (Hret s Hs).
      destruct (save pickle_dumps console s) as [[s2 o2] [[]|e]]; [done|].
      discriminate Hret.
    - unfold attempt, sbind, shown, sraise. cbn.
      specialize (Hret s Hs).
      destruct (save pickle_dumps console s) as [[s2 o2] [[]|e]]; done. }
  assert (Hloop : forall before s,
            write_error s = write_error st ->
            exists res, loop pickle_dumps console invoke self (S (length before))
                          (before ++ ev :: rest) s = Some res).
  { clear before. induction before as [|b before IH]; intros s Hs.
    - simpl. specialize (Hends s Hs).
      destruct (turn pickle_dumps console invoke self (Some ev) s)
        as [[s1 out] [[|]|e]]; [by eexists | | by eexists].
      by destruct (Hends s1 out).
    - change (loop pickle_dumps console invoke self (S (length (b :: before)))
                ((b :: before) ++ ev :: rest) s)
        with (match turn pickle_dumps console invoke self (Some b) s with
              | (s1, out, Return true) => Some (s1, out, Return tt)
              | (s1, out, Return false) =>
                  after out (loop pickle_dumps console invoke self
                               (S (length before)) (before ++ ev :: rest) s1)
              | (s1, out, Raise e) => Some (s1, out, Raise e)
              end).
      pose proof (turn_keeps (Some b) s) as Hk.
      destruct (turn pickle_dumps console invoke self (Some b) s)
        as [[s1 out] [[|]|e]]; simpl in Hk; [by eexists | | by eexists].
      destruct (IH s1) as [[[s2 o2] r2] ->]; [congruence|]. by eexists. }
  unfold run_interactive.
  pose proof (start_keeps st) as Hstart.
  destruct (start_interactive_session pickle_loads console st)
    as [[st0 started] [[]|e]]; simpl in Hstart; [|by eexists _, _, _].
  destruct (Hloop before st0 Hstart) as [[[st1 o1] r1] ->].
  destruct (save pickle_dumps console st1) as [[st2 saved] [[]|e2]];
    by eexists _, _, _.
Qed.

End Interactive.

(** *** The theorems on a small session *)

(** An engine that answers [ok] and adds the two turns to the memory. *)
Lemma session_end_instance :
  let invoke := fun (mem : option (list message)) (query : string) =>
    (match mem with
     | Some msgs => Some (msgs ++ [ Message Human query; Message AI "ok" ])
     | None => None
     end, @nil output, Return "ok") in
  let pickle_dumps := fun v : pyval =>
    match v with VList l => "transcript of " +:+ str_of_nat (length l) | _ => "" end in
  exists st' out,
    run_interactive pickle_dumps Reference.pickle_loads Rich.console
      invoke (Agent None false) 2 [ Line "list namespaces"; Line "exit" ]
      (State None Absent None)
    = Some (st', out, Return tt)
    /\ memory st' = Some [ Message Human "list namespaces"; Message AI "ok" ]
    /\ memory_file st' = Holds "transcript of 2".
Proof.
  intros invoke pickle_dumps.
  assert (Hrun : exists out,
            run_interactive pickle_dumps Reference.pickle_loads Rich.console
              invoke (Agent None false) 2 [ Line "list namespaces"; Line "exit" ]
              (State None Absent None)
            = Some (State (Some [ Message Human "list namespaces"; Message AI "ok" ])
                          (Holds "transcript of 2") None,
                    out, Return tt))
    by (eexists; vm_compute; reflexivity).
  destruct Hrun as [out Hrun].
  eexists _, out. split; [exact Hrun|]. split; [reflexivity|].
  destruct (session_end_saves_the_memory pickle_dumps Reference.pickle_loads
              Rich.console invoke (Agent None false)
              2 [ Line "list namespaces"; Line "exit" ] (State None Absent None))
    as [H _].
  exact (H eq_refl eq_refl _ out (Return tt)
           [ Message Human "list namespaces"; Message AI "ok" ] Hrun eq_refl).
Defined.

(** An engine whose answer holds a closing tag: the panel cannot be
    printed, the error is printed by [print], and the loop goes on. *)
Lemma session_never_ends_instance :
  loop (fun _ => "") Rich.console (fun _ _ => (None, [], Return "see [/x]"))
    (Agent None true) 1000 [ Line "get pods"; Line "continue" ]
    (State None Absent None)
  = None.
Proof.
  destruct (session_never_ends_without_exit
              (fun _ => "") Reference.pickle_loads Rich.console
              (fun _ _ => (None, [], Return "see [/x]")) (Agent None true)
              [ Line "get pods"; Line "continue" ] (State None Absent None))
    with (fuel := 1000%nat) as [H _].
  - intros mem query e H. discriminate H.
  - intros ev e. destruct ev as [|text|[title|]|title rows| | ]; simpl;
      try discriminate.
    + unfold Rich.markup_error. destruct (Rich.find _ _); [|discriminate].
      by intros [= <-].
    + unfold Rich.markup_error. destruct (Rich.find _ _); [|discriminate].
      by intros [= <-].
    + unfold Rich.cells_error.
      induction (_ ++ _) as [|t l IH]; simpl; [discriminate|].
      unfold Rich.markup_error at 1. destruct (Rich.find _ t); [|exact IH].
      by intros [= <-].
    + unfold Rich.markup_error. destruct (Rich.find _ _); [|discriminate].
      by intros [= <-].
  - discriminate.
  - reflexivity.
  - exact H.
Defined.

Lemma exit_ends_instance :
  exists st' out r,
    run_interactive (fun _ => "") Reference.pickle_loads Rich.console
      (fun _ _ => (None, [], Return "ok")) (Agent (Some "kube-system") true)
      2 [ Line "get pods"; Line "Quit"; Line "get nodes" ] (State None Absent None)
    = Some (st', out, r).
Proof.
  exact (exit_ends_the_session
           (fun _ => "") Reference.pickle_loads Rich.console
           (fun _ _ => (None, [], Return "ok")) (Agent (Some "kube-system") true)
           [ Line "get pods" ] [ Line "get nodes" ] (Line "Quit")
           (State None Absent None) eq_refl I).
Defined.

End SessionProperties.

(** ** The [config] command and the implicit [query] *)

Module CliProperties.
Import Agent Config Cli.

Section Commands.

Context (json_loads : string -> result pyval)
        (json_dumps : nat -> pyval -> string)
        (console : event -> option exn).
Hypothesis json_round_trip : forall v, json_loads (json_dumps 2 v) = Return v.

Local Ltac fields :=
  repeat first [ rewrite SettingsProperties.dict_get_put_eq
               | rewrite SettingsProperties.dict_get_put_ne by done ];
  done.

Lemma stored_after_write (d : dict) (D : dict) :
  stored json_loads (Store true (Holds (json_dumps 2 (VDict d))) D) d.
Proof. eexists. by split. Qed.

(** One [if x: update(x); print(...)] on a stored configuration, when the
    console prints the message. *)
Lemma setter_stored (x : option string) (update : string -> M unit)
    (report : string -> C unit) (st : store) (d : dict)
    (R : string -> dict -> Prop) :
  stored json_loads st d ->
  (forall v, given x = Some v -> exists log, report v = (log, Return tt)) ->
  (forall v, exists d',
     update v st
     = (Store true (Holds (json_dumps 2 (VDict d'))) (DEFAULT_CONFIG st), Return tt)
     /\ R v d') ->
  exists st' log d',
    setter x update report st = (st', log, Return tt)
    /\ stored json_loads st' d'
    /\ DEFAULT_CONFIG st' = DEFAULT_CONFIG st
    /\ match given x with
       | Some v => R v d'
       | None => d' = d
       end.
Proof.
  intros Hst Hreport Hup. unfold setter. destruct (given x) as [v|].
  - destruct (Hup v) as (d' & -> & HR). destruct (Hreport v eq_refl) as [log ->].
    eexists _, _, d'. split; [done|]. split; [apply stored_after_write|]. by split.
  - by exists st, [], d.
Qed.

(** The three messages of [config_command] that hold a value of the
    command line are printed. *)
Lemma value_message_printed (x : option string) (prefix : string) :
  (forall v, given x = Some v ->
             console (Print (prefix +:+ v +:+ "[/green]")) = None) ->
  forall v, given x = Some v ->
    exists log,
      render console (Print (prefix +:+ v +:+ "[/green]")) = (log, Return tt).
Proof.
  intros H v Hv. eexists. unfold render. by rewrite (H v Hv).
Qed.

Lemma setters_stored (args : config_args) (st : store) (d so sa : dict) :
  stored json_loads st d ->
  dict_get "openai" d = Some (VDict so) ->
  dict_get "azure" d = Some (VDict sa) ->
  (forall v, given (set_openai_model args) = Some v ->
     console (Print ("[green]OpenAI model set to: " +:+ v +:+ "[/green]")) = None) ->
  (forall v, given (set_azure_deployment args) = Some v ->
     console (Print ("[green]Azure deployment set to: " +:+ v +:+ "[/green]"))
     = None) ->
  (forall v, given (set_azure_version args) = Some v ->
     console (Print ("[green]Azure API version set to: " +:+ v +:+ "[/green]"))
     = None) ->
  exists st' log d',
    setters json_loads json_dumps console args st = (st', log, Return tt)
    /\ stored json_loads st' d'
    /\ dict_get "openai" d'
       = Some (VDict (put (given (set_openai_model args)) "model"
                       (put (given (set_openai_key args)) "api_key" so)))
    /\ dict_get "azure" d'
       = Some (VDict (put (given (set_azure_version args)) "api_version"
                       (put (given (set_azure_deployment args)) "deployment"
                         (put (given (set_azure_endpoint args)) "endpoint"
                           (put (given (set_azure_key args)) "api_key" sa)))))
    /\ (forall k, k <> "openai" -> k <> "azure" -> dict_get k d' = dict_get k d).
Proof.
  intros Hst Hso Hsa Hmodel Hdeployment Hversion. unfold setters, andthen.
  (* OpenAI key *)
  destruct (setter_stored (set_openai_key args)
              (fun v => update_openai_settings json_loads json_dumps (Some v) None)
              (fun _ => emit (Print "[green]OpenAI API key updated[/green]")) st d
              (fun v d' => dict_get "openai" d'
                           = Some (VDict (put (Some v) "api_key" so))
                           /\ forall k, k <> "openai" -> dict_get k d' = dict_get k d)
              Hst) as (st1 & log1 & d1 & -> & Hst1 & _ & H1).
  { intros v _. by eexists. }
  { intros v. destruct Hst as (text & Hfile & Htext).
    destruct (SettingsProperties.update_openai_stored json_loads json_dumps
                st text d so (Some v) None Hfile Htext Hso) as (d' & ? & ? & ?).
    by exists d'. }
  assert (Hso1 : dict_get "openai" d1
                 = Some (VDict (put (given (set_openai_key args)) "api_key" so))
                 /\ forall k, k <> "openai" -> dict_get k d1 = dict_get k d).
  { destruct (given (set_openai_key args)); [done | by subst]. }
  clear H1. destruct Hso1 as [Hso1 Hd1].
  (* OpenAI model *)
  destruct (setter_stored (set_openai_model args)
              (fun v => update_openai_settings json_loads json_dumps None (Some v))
              (fun v => render console
                          (Print ("[green]OpenAI model set to: " +:+ v +:+ "[/green]")))
              st1 d1
              (fun v d' => dict_get "openai" d'
                           = Some (VDict (put (Some v) "model"
                                    (put (given (set_openai_key args)) "api_key" so)))
                           /\ forall k, k <> "openai" -> dict_get k d' = dict_get k d1)
              Hst1) as (st2 & log2 & d2 & -> & Hst2 & _ & H2).
  { by apply value_message_printed. }
  { intros v. destruct Hst1 as (text & Hfile & Htext).
    destruct (SettingsProperties.update_openai_stored json_loads json_dumps
                st1 text d1 _ None (Some v) Hfile Htext Hso1) as (d' & ? & ? & ?).
    by exists d'. }
  assert (Hso2 : dict_get "openai" d2
                 = Some (VDict (put (given (set_openai_model args)) "model"
                          (put (given (set_openai_key args)) "api_key" so)))
                 /\ forall k, k <> "openai" -> dict_get k d2 = dict_get k d1).
  { destruct (given (set_openai_model args)); [done | by subst]. }
  clear H2. destruct Hso2 as [Hso2 Hd2].
  assert (Hsa2 : dict_get "azure" d2 = Some (VDict sa)) by by rewrite Hd2, Hd1.
  (* Azure key *)
  destruct (setter_stored (set_azure_key args)
              (fun v => update_azure_settings json_loads json_dumps
                          (Some v) None None None)
              (fun _ => emit (Print "[green]Azure OpenAI API key updated[/green]"))
              st2 d2
              (fun v d' => dict_get "azure" d'
                           = Some (VDict (put (Some v) "api_key" sa))
                           /\ forall k, k <> "azure" -> dict_get k d' = dict_get k d2)
              Hst2) as (st3 & log3 & d3 & -> & Hst3 & _ & H3).
  { intros v _. by eexists. }
  { intros v. destruct Hst2 as (text & Hfile & Htext).
    destruct (SettingsProperties.update_azure_stored json_loads json_dumps
                st2 text d2 sa (Some v) None None None Hfile Htext Hsa2)
      as (d' & ? & ? & ?).
    by exists d'. }
  assert (Hsa3 : dict_get "azure" d3
                 = Some (VDict (put (given (set_azure_key args)) "api_key" sa))
                 /\ forall k, k <> "azure" -> dict_get k d3 = dict_get k d2).
  { destruct (given (set_azure_key args)); [done | by subst]. }
  clear H3. destruct Hsa3 as [Hsa3 Hd3].
  (* Azure endpoint *)
  destruct (setter_stored (set_azure_endpoint args)
              (fun v => update_azure_settings json_loads json_dumps
                          None (Some v) None None)
              (fun _ => emit (Print "[green]Azure endpoint updated[/green]")) st3 d3
              (fun v d' => dict_get "azure" d'
                           = Some (VDict (put (Some v) "endpoint"
                                    (put (given (set_azure_key args)) "api_key" sa)))
                           /\ forall k, k <> "azure" -> dict_get k d' = dict_get k d3)
              Hst3) as (st4 & log4 & d4 & -> & Hst4 & _ & H4).
  { intros v _. by eexists. }
  { intros v. destruct Hst3 as (text & Hfile & Htext).
    destruct (SettingsProperties.update_azure_stored json_loads json_dumps
                st3 text d3 _ None (Some v) None None Hfile Htext Hsa3)
      as (d' & ? & ? & ?).
    by exists d'. }
  assert (Hsa4 : dict_get "azure" d4
                 = Some (VDict (put (given (set_azure_endpoint args)) "endpoint"
                          (put (given (set_azure_key args)) "api_key" sa)))
                 /\ forall k, k <> "azure" -> dict_get k d4 = dict_get k d3).
  { destruct (given (set_azure_endpoint args)); [done | by subst]. }
  clear H4. destruct Hsa4 as [Hsa4 Hd4].
  (* Azure deployment *)
  destruct (setter_stored (set_azure_deployment args)
              (fun v => update_azure_settings json_loads json_dumps
                          None None (Some v) None)
              (fun v => render console
                          (Print ("[green]Azure deployment set to: " +:+ v
                                  +:+ "[/green]")))
              st4 d4
              (fun v d' => dict_get "azure" d'
                           = Some (VDict (put (Some v) "deployment"
                                    (put (given (set_azure_endpoint args)) "endpoint"
                                      (put (given (set_azure_key args)) "api_key" sa))))
                           /\ forall k, k <> "azure" -> dict_get k d' = dict_get k d4)
              Hst4) as (st5 & log5 & d5 & -> & Hst5 & _ & H5).
  { by apply value_message_printed. }
  { intros v. destruct Hst4 as (text & Hfile & Htext).
    destruct (SettingsProperties.update_azure_stored json_loads json_dumps
                st4 text d4 _ None None (Some v) None Hfile Htext Hsa4)
      as (d' & ? & ? & ?).
    by exists d'. }
  assert (Hsa5 : dict_get "azure" d5
                 = Some (VDict (put (given (set_azure_deployment args)) "deployment"
                          (put (given (set_azure_endpoint args)) "endpoint"
                            (put (given (set_azure_key args)) "api_key" sa))))
                 /\ forall k, k <> "azure" -> dict_get k d5 = dict_get k d4).
  { destruct (given (set_azure_deployment args)); [done | by subst]. }
  clear H5. destruct Hsa5 as [Hsa5 Hd5].
  (* Azure API version *)
  destruct (setter_stored (set_azure_version args)
              (fun v => update_azure_settings json_loads json_dumps
                          None None None (Some v))
              (fun v => render console
                          (Print ("[green]Azure API version set to: " +:+ v
                                  +:+ "[/green]")))
              st5 d5
              (fun v d' => dict_get "azure" d'
                           = Some (VDict (put (Some v) "api_version"
                                    (put (given (set_azure_deployment args)) "deployment"
                                      (put (given (set_azure_endpoint args)) "endpoint"
                                        (put (given (set_azure_key args)) "api_key" sa)))))
                           /\ forall k, k <> "azure" -> dict_get k d' = dict_get k d5)
              Hst5) as (st6 & log6 & d6 & -> & Hst6 & _ & H6).
  { by apply value_message_printed. }
  { intros v. destruct Hst5 as (text & Hfile & Htext).
    destruct (SettingsProperties.update_azure_stored json_loads json_dumps
                st5 text d5 _ None None None (Some v) Hfile Htext Hsa5)
      as (d' & ? & ? & ?).
    by exists d'. }
  assert (Hsa6 : dict_get "azure" d6
                 = Some (VDict (put (given (set_azure_version args)) "api_version"
                          (put (given (set_azure_deployment args)) "deployment"
                            (put (given (set_azure_endpoint args)) "endpoint"
                              (put (given (set_azure_key args)) "api_key" sa)))))
                 /\ forall k, k <> "azure" -> dict_get k d6 = dict_get k d5).
  { destruct (given (set_azure_version args)); [done | by subst]. }
  clear H6. destruct Hsa6 as [Hsa6 Hd6].
  eexists _, _, d6. split; [done|]. split; [exact Hst6|].
  split; [by rewrite Hd6, Hd5, Hd4, Hd3|]. split; [exact Hsa6|].
  intros k Hk1 Hk2. by rewrite Hd6, Hd5, Hd4, Hd3, Hd2, Hd1.
Qed.

(** What [--set-provider] does before the other options are looked at. *)
Lemma provider_stored (args : config_args) (st : store) (d : dict) :
  (forall provider, given (set_provider args) = Some provider ->
                    provider = "openai" \/ provider = "azure") ->
  stored json_loads st d ->
  exists st1 log1 d1,
    (forall rest : cmd,
       match given (set_provider args) with
       | Some provider =>
           if negb (String.eqb provider "openai" || String.eqb provider "azure")
           then (st, [ Print "[red]Error:[/red] Provider must be 'openai' or 'azure'" ],
                 Return 1%Z)
           else
             match andthen
                     (setter (Some provider)
                        (update_provider json_loads json_dumps)
                        (fun v => emit (Print ("[green]Provider set to: " +:+ v
                                               +:+ "[/green]"))))
                     rest st with
             | (st1, log, Return _) => (st1, log, Return 0%Z)
             | (st1, log, Raise e) => (st1, log, Raise e)
             end
       | None =>
           match rest st with
           | (st1, log, Return _) => (st1, log, Return 0%Z)
           | (st1, log, Raise e) => (st1, log, Raise e)
           end
       end
       = match rest st1 with
         | (st2, log, Return _) => (st2, log1 ++ log, Return 0%Z)
         | (st2, log, Raise e) => (st2, log1 ++ log, Raise e)
         end)
    /\ stored json_loads st1 d1
    /\ dict_get "provider" d1
       = written (given (set_provider args)) (dict_get "provider" d)
    /\ (forall k, k <> "provider" -> dict_get k d1 = dict_get k d).
Proof.
  intros Hvalid Hst.
  destruct (given (set_provider args)) as [provider|] eqn:Hp.
  - destruct Hst as (text & Hfile & Htext).
    assert (Hne : given (Some provider) = Some provider).
    { unfold given in *. destruct (set_provider args) as [s|]; [|done].
      destruct (String.eqb_spec s ""); [done|]. inversion Hp; subst.
      by destruct (String.eqb_spec provider ""). }
    exists (Store true
              (Holds (json_dumps 2 (VDict (dict_set "provider" (VStr provider) d))))
              (DEFAULT_CONFIG st)),
      [ Print ("[green]Provider set to: " +:+ provider +:+ "[/green]") ],
      (dict_set "provider" (VStr provider) d).
    split; [|split; [apply stored_after_write|split]].
    + intros rest. unfold andthen, setter. rewrite Hne.
      rewrite (SettingsProperties.update_provider_stored json_loads json_dumps
                 st text d provider Hfile Htext).
      destruct (Hvalid provider eq_refl) as [-> | ->]; cbn;
        by destruct (rest _) as [[s l] [[]|e]].
    + apply SettingsProperties.dict_get_set_eq.
    + intros k Hk. by apply SettingsProperties.dict_get_set_ne.
  - exists st, [], d. split; [|by repeat split].
    intros rest. by destruct (rest st) as [[s l] [[]|e]].
Qed.

(** [config] with several options at once stores every one of them. On
    a stored configuration with both sections, with a [json] that reads
    back what it wrote, and when the console prints the messages that hold
    the model, the deployment and the version that were given: the command
    returns 0, and afterwards [load_config] returns a configuration in
    which each option that was given with a value that is not empty has
    that value, and every other field has the value it had. An option given
    as the empty string changes nothing. The options are stored one by one:
    when the console cannot print the message of the model, the model and
    what came before it are stored, the command raises, and the options of
    Azure are left out. *)
Theorem config_command_stores_every_given_option
    (args : config_args) (st : store) (d so sa : dict) :
  view args = false ->
  clear args = false ->
  (forall provider, given (set_provider args) = Some provider ->
                    provider = "openai" \/ provider = "azure") ->
  stored json_loads st d ->
  dict_get "openai" d = Some (VDict so) ->
  dict_get "azure" d = Some (VDict sa) ->
  ((forall v, given (set_openai_model args) = Some v ->
      console (Print ("[green]OpenAI model set to: " +:+ v +:+ "[/green]")) = None) ->
   (forall v, given (set_azure_deployment args) = Some v ->
      console (Print ("[green]Azure deployment set to: " +:+ v +:+ "[/green]"))
      = None) ->
   (forall v, given (set_azure_version args) = Some v ->
      console (Print ("[green]Azure API version set to: " +:+ v +:+ "[/green]"))
      = None) ->
   exists st' log d' so' sa',
     config_command json_loads json_dumps console args st = (st', log, Return 0%Z)
     /\ snd (load_config json_loads st') = Return (Ref (VDict d') false)
     /\ dict_get "provider" d'
        = written (given (set_provider args)) (dict_get "provider" d)
     /\ dict_get "openai" d' = Some (VDict so')
     /\ dict_get "api_key" so'
        = written (given (set_openai_key args)) (dict_get "api_key" so)
     /\ dict_get "model" so'
        = written (given (set_openai_model args)) (dict_get "model" so)
     /\ dict_get "azure" d' = Some (VDict sa')
     /\ dict_get "api_key" sa'
        = written (given (set_azure_key args)) (dict_get "api_key" sa)
     /\ dict_get "endpoint" sa'
        = written (given (set_azure_endpoint args)) (dict_get "endpoint" sa)
     /\ dict_get "deployment" sa'
        = written (given (set_azure_deployment args)) (dict_get "deployment" sa)
     /\ dict_get "api_version" sa'
        = written (given (set_azure_version args)) (dict_get "api_version" sa)
     /\ (forall k, k <> "api_key" -> k <> "model" -> dict_get k so' = dict_get k so)
     /\ (forall k, k <> "api_key" -> k <> "endpoint" -> k <> "deployment" ->
                   k <> "api_version" -> dict_get k sa' = dict_get k sa)
     /\ (forall k, k <> "provider" -> k <> "openai" -> k <> "azure" ->
                   dict_get k d' = dict_get k d))
  /\ (forall v e,
        given (set_openai_model args) = Some v ->
        console (Print ("[green]OpenAI model set to: " +:+ v +:+ "[/green]"))
        = Some e ->
        exists st' log d' so',
          config_command json_loads json_dumps console args st = (st', log, Raise e)
          /\ snd (load_config json_loads st') = Return (Ref (VDict d') false)
          /\ dict_get "provider" d'
             = written (given (set_provider args)) (dict_get "provider" d)
          /\ dict_get "openai" d' = Some (VDict so')
          /\ dict_get "api_key" so'
             = written (given (set_openai_key args)) (dict_get "api_key" so)
          /\ dict_get "model" so' = Some (VStr v)
          /\ dict_get "azure" d' = Some (VDict sa)).
Proof.
  intros Hview Hclear Hvalid Hst Hso Hsa.
  destruct (provider_stored args st d Hvalid Hst)
    as (st1 & log1 & d1 & Hrun1 & Hst1 & Hp1 & Hd1).
  assert (Hcmd : config_command json_loads json_dumps console args st
                 = match setters json_loads json_dumps console args st1 with
                   | (st2, log, Return _) => (st2, log1 ++ log, Return 0%Z)
                   | (st2, log, Raise e) => (st2, log1 ++ log, Raise e)
                   end).
  { unfold config_command. rewrite Hview, Hclear. apply Hrun1. }
  split.
  - intros Hmodel Hdeployment Hversion.
    destruct (setters_stored args st1 d1 so sa Hst1) as
      (st2 & log2 & d2 & Hrun2 & Hst2 & Hso2 & Hsa2 & Hd2);
      [by rewrite Hd1 | by rewrite Hd1 | done | done | done |].
    rewrite Hrun2 in Hcmd.
    destruct Hst2 as (text2 & Hfile2 & Htext2).
    eexists st2, _, d2, _, _. split; [exact Hcmd|].
    split; [by erewrite SettingsProperties.load_config_stored|].
    split; [by rewrite Hd2, Hp1|].
    split; [exact Hso2|]. split; [fields|]. split; [fields|].
    split; [exact Hsa2|]. do 4 (split; [fields|]).
    split; [intros k ? ?; fields|]. split; [intros k ? ? ? ?; fields|].
    intros k Hk1 Hk2 Hk3. by rewrite Hd2, Hd1.
  - intros v e Hv Hraise.
    assert (Hso1 : dict_get "openai" d1 = Some (VDict so)) by by rewrite Hd1.
    destruct (setter_stored (set_openai_key args)
                (fun v => update_openai_settings json_loads json_dumps (Some v) None)
                (fun _ => emit (Print "[green]OpenAI API key updated[/green]"))
                st1 d1
                (fun v d' => dict_get "openai" d'
                             = Some (VDict (put (Some v) "api_key" so))
                             /\ forall k, k <> "openai" -> dict_get k d' = dict_get k d1)
                Hst1) as (st2 & log2 & d2 & Hrun2 & Hst2 & _ & H2).
    { intros v' _. by eexists. }
    { intros v'. destruct Hst1 as (text & Hfile & Htext).
      destruct (SettingsProperties.update_openai_stored json_loads json_dumps
                  st1 text d1 so (Some v') None Hfile Htext Hso1) as (d' & ? & ? & ?).
      by exists d'. }
    assert (Hso2 : dict_get "openai" d2
                   = Some (VDict (put (given (set_openai_key args)) "api_key" so))
                   /\ forall k, k <> "openai" -> dict_get k d2 = dict_get k d1).
    { destruct (given (set_openai_key args)); [done | by subst]. }
    clear H2. destruct Hso2 as [Hso2 Hd2].
    destruct Hst2 as (text2 & Hfile2 & Htext2).
    destruct (SettingsProperties.update_openai_stored json_loads json_dumps
                st2 text2 d2 _ None (Some v) Hfile2 Htext2 Hso2)
      as (d3 & Hup & Hso3 & Hd3).
    assert (Hsetters : setters json_loads json_dumps console args st1
                       = (Store true (Holds (json_dumps 2 (VDict d3)))
                            (DEFAULT_CONFIG st2),
                          log2, Raise e)).
    { unfold setters. unfold andthen at 1. rewrite Hrun2.
      unfold andthen at 1. unfold setter at 1. rewrite Hv, Hup.
      unfold render. rewrite Hraise. by rewrite app_nil_r. }
    rewrite Hsetters in Hcmd.
    eexists _, _, d3, _. split; [exact Hcmd|].
    split; [by erewrite SettingsProperties.load_config_stored|].
    split; [by rewrite Hd3, Hd2, Hp1|].
    split; [exact Hso3|]. split; [fields|]. split; [fields|].
    by rewrite Hd3, Hd2, Hd1.
Qed.

(** With [--view] every other option of the command is ignored: nothing
    is stored, and the command does what [config --view] alone does. *)
Theorem view_option_ignores_the_setters (args : config_args) (st : store) :
  view args = true ->
  config_command json_loads json_dumps console args st
  = config_command json_loads json_dumps console
      (ConfigArgs true false None None None None None None None) st
  /\ config_file (fst (fst (config_command json_loads json_dumps console args st)))
     = config_file st.
Proof.
  intros Hview. unfold config_command. rewrite Hview. simpl. split; [done|].
  pose proof (ConfigProperties.view_config_file json_loads json_dumps st) as Hfile.
  destruct (view_config json_loads json_dumps st) as [st1 [config_str|e]];
    [|done].
  by destruct (console (Print config_str)).
Qed.

(** [config --set-provider p] followed by [config --view]: the text that
    the view hands to the console holds the provider [p], and the stored
    keys in their redacted form. The console renders the text as markup:
    the command returns 0 when it is printed, and raises what the console
    raises when it is not. *)
Theorem set_provider_then_view
    (provider : string) (st : store) (d so sa : dict) (ko ka : string) :
  provider = "openai" \/ provider = "azure" ->
  stored json_loads st d ->
  dict_get "openai" d = Some (VDict so) ->
  dict_get "api_key" so = Some (VStr ko) ->
  dict_get "azure" d = Some (VDict sa) ->
  dict_get "api_key" sa = Some (VStr ka) ->
  let st1 := fst (fst (config_command json_loads json_dumps console
                         (ConfigArgs false false (Some provider)
                            None None None None None None) st)) in
  exists st2 shown so' sa' shown_o shown_a,
    config_command json_loads json_dumps console
      (ConfigArgs true false None None None None None None None) st1
    = match console (Print (json_dumps 2 (VDict shown))) with
      | None =>
          (st2, [ Print "Current Configuration:";
                  Print (json_dumps 2 (VDict shown)) ],
           Return 0%Z)
      | Some e => (st2, [ Print "Current Configuration:" ], Raise e)
      end
    /\ dict_get "provider" shown = Some (VStr provider)
    /\ dict_get "openai" shown = Some (VDict so')
    /\ dict_get "api_key" so' = Some (VStr shown_o)
    /\ redacted_display ko shown_o
    /\ dict_get "azure" shown = Some (VDict sa')
    /\ dict_get "api_key" sa' = Some (VStr shown_a)
    /\ redacted_display ka shown_a.
Proof.
  intros Hvalid (text & Hfile & Htext) Hso Hko Hsa Hka st1.
  assert (Hst1 : st1 = Store true
                   (Holds (json_dumps 2
                      (VDict (dict_set "provider" (VStr provider) d))))
                   (DEFAULT_CONFIG st)).
  { subst st1. unfold config_command, setters, andthen, setter. simpl.
    destruct Hvalid as [-> | ->]; simpl;
      by rewrite (SettingsProperties.update_provider_stored json_loads json_dumps
                    st text d _ Hfile Htext). }
  rewrite Hst1. clear Hst1 st1.
  set (d1 := dict_set "provider" (VStr provider) d).
  set (st1 := Store true (Holds (json_dumps 2 (VDict d1))) (DEFAULT_CONFIG st)).
  assert (Hso1 : dict_get "openai" d1 = Some (VDict so)).
  { subst d1. by rewrite SettingsProperties.dict_get_set_ne. }
  assert (Hsa1 : dict_get "azure" d1 = Some (VDict sa)).
  { subst d1. by rewrite SettingsProperties.dict_get_set_ne. }
  assert (Hview : exists d3 so2 sa3 shown_o shown_a,
            view_config json_loads json_dumps st1
            = (st1, Return (json_dumps 2 (VDict d3)))
            /\ dict_get "provider" d3 = Some (VStr provider)
            /\ dict_get "openai" d3 = Some (VDict so2)
            /\ dict_get "api_key" so2 = Some (VStr shown_o)
            /\ redacted_display ko shown_o
            /\ dict_get "azure" d3 = Some (VDict sa3)
            /\ dict_get "api_key" sa3 = Some (VStr shown_a)
            /\ redacted_display ka shown_a).
  { unfold view_config, mbind.
    rewrite (SettingsProperties.load_config_stored json_loads st1 _ (VDict d1)
               eq_refl (json_round_trip _)).
    change (Store true (config_file st1) (DEFAULT_CONFIG st1)) with st1.
    unfold lift, ret. cbn -[redact_section st1].
    destruct (SettingsProperties.redact_section_stored d1 so "openai" ko st1 Hso1 Hko)
      as (d2 & so2 & shown_o & -> & Hso2 & Hko2 & Hshown_o & _ & Hd2).
    assert (Hsa2 : dict_get "azure" d2 = Some (VDict sa)) by by rewrite Hd2.
    destruct (SettingsProperties.redact_section_stored d2 sa "azure" ka st1 Hsa2 Hka)
      as (d3 & sa3 & shown_a & -> & Hsa3 & Hka3 & Hshown_a & _ & Hd3).
    exists d3, so2, sa3, shown_o, shown_a.
    split; [done|].
    split; [rewrite Hd3, Hd2 by done; apply SettingsProperties.dict_get_set_eq|].
    split; [by rewrite Hd3|]. by repeat (split; [done|]). }
  destruct Hview as (d3 & so2 & sa3 & shown_o & shown_a & Hview & Hrest).
  exists st1, d3, so2, sa3, shown_o, shown_a.
  split; [|exact Hrest].
  unfold config_command. cbn [view]. by rewrite Hview.
Qed.

End Commands.

(** The words after the program name are taken as a query unless the first
    is a command or an option: [query] is inserted at most once, nothing
    else is changed, and afterwards the first argument is a command or an
    option. *)
Theorem implicit_query_inserts_the_command (prog first : string) (rest : list string) :
  let argv := prog :: first :: rest in
  (implicit_query argv = argv
   \/ implicit_query argv = prog :: "query" :: first :: rest)
  /\ (exists command, implicit_query argv !! 1%nat = Some command
        /\ (is_known_command command = true \/ startswith command "-" = true))
  /\ implicit_query (implicit_query argv) = implicit_query argv.
Proof.
  intros argv. subst argv. unfold implicit_query.
  destruct (is_known_command first) eqn:Hknown; simpl.
  - rewrite Hknown. simpl. split; [by left|]. split; [|done].
    exists first. split; [done | by left].
  - destruct (startswith first "-") eqn:Hdash; simpl.
    + rewrite Hknown, Hdash. split; [by left|]. split; [|done].
      exists first. split; [done | by right].
    + split; [by right|]. split; [|done].
      exists "query". split; [done | by left].
Qed.

(** *** The theorems at concrete commands, with the reference serialisation *)

(** [config --set-provider azure --set-azure-key ... --set-openai-key ""
    --set-openai-model gpt-4.1] on the stored defaults. *)
Lemma config_command_instance :
  let d := DEFAULT_CONFIG_literal in
  let st := Store true (Holds (Reference.json_dumps 2 (VDict d))) d in
  let args := ConfigArgs false false (Some "azure") (Some "") (Some "gpt-4.1")
                (Some "az-key-77aa01") None None None in
  exists st' log d' so' sa',
    config_command Reference.json_loads Reference.json_dumps Rich.console args st
    = (st', log, Return 0%Z)
    /\ snd (load_config Reference.json_loads st') = Return (Ref (VDict d') false)
    /\ dict_get "provider" d' = Some (VStr "azure")
    /\ dict_get "openai" d' = Some (VDict so')
    /\ dict_get "api_key" so' = Some (VStr "")
    /\ dict_get "model" so' = Some (VStr "gpt-4.1")
    /\ dict_get "azure" d' = Some (VDict sa')
    /\ dict_get "api_key" sa' = Some (VStr "az-key-77aa01")
    /\ dict_get "api_version" sa' = Some (VStr "2023-05-15").
Proof.
  intros d st args.
  destruct (config_command_stores_every_given_option
              Reference.json_loads Reference.json_dumps Rich.console
              (ReferenceProperties.json_loads_dumps 2) args st d
              [ ("api_key", VStr ""); ("model", VStr "gpt-4o") ]
              [ ("api_key", VStr ""); ("endpoint", VStr "");
                ("deployment", VStr ""); ("api_version", VStr "2023-05-15") ]
              eq_refl eq_refl) as [H _].
  - intros provider [= <-]. by right.
  - eexists. split; [reflexivity|].
    apply (ReferenceProperties.json_loads_dumps 2 (VDict d)).
  - reflexivity.
  - reflexivity.
  - destruct H
      as (st' & log & d' & so' & sa' & Hcmd & Hload & Hp & Hso & Hok & Hom
          & Hsa & Hak & _ & _ & Hav & _).
    + intros v [= <-]. reflexivity.
    + intros v H. discriminate H.
    + intros v H. discriminate H.
    + exists st', log, d', so', sa'. by repeat (split; [assumption|]).
Defined.

Lemma view_option_instance :
  let st := fresh_import true (Holds "{}") in
  let args := ConfigArgs true false None (Some "sk-proj-8f3kQ9xZ") None
                None None None None in
  config_file (fst (fst (config_command (fun _ => Return (VDict []))
                           (fun _ _ => "{}") Rich.console args st)))
  = Holds "{}".
Proof.
  intros st args.
  destruct (view_option_ignores_the_setters
              (fun _ => Return (VDict [])) (fun _ _ => "{}") Rich.console
              args st eq_refl)
    as [_ H].
  exact H.
Defined.

Lemma set_provider_then_view_instance :
  let d := [ ("provider", VStr "openai");
             ("openai", VDict [ ("api_key", VStr ""); ("model", VStr "gpt-4o") ]);
             ("azure", VDict [ ("api_key", VStr "az-key-77aa01");
                               ("endpoint", VStr "https://example.test") ]) ] in
  let st := Store true (Holds (Reference.json_dumps 2 (VDict d)))
                  DEFAULT_CONFIG_literal in
  let st1 := fst (fst (config_command Reference.json_loads Reference.json_dumps
                         Rich.console
                         (ConfigArgs false false (Some "azure")
                            None None None None None None) st)) in
  exists shown sa',
    snd (fst (config_command Reference.json_loads Reference.json_dumps Rich.console
                (ConfigArgs true false None None None None None None None) st1))
    = match Rich.console (Print (Reference.json_dumps 2 (VDict shown))) with
      | Some _ => [ Print "Current Configuration:" ]
      | None => [ Print "Current Configuration:";
                  Print (Reference.json_dumps 2 (VDict shown)) ]
      end
    /\ dict_get "provider" shown = Some (VStr "azure")
    /\ dict_get "azure" shown = Some (VDict sa')
    /\ dict_get "api_key" sa' = Some (VStr "***aa01").
Proof.
  intros d st st1.
  destruct (set_provider_then_view
              Reference.json_loads Reference.json_dumps Rich.console
              (ReferenceProperties.json_loads_dumps 2)
              "azure" st d
              [ ("api_key", VStr ""); ("model", VStr "gpt-4o") ]
              [ ("api_key", VStr "az-key-77aa01");
                ("endpoint", VStr "https://example.test") ]
              "" "az-key-77aa01" (or_intror eq_refl))
    as (st2 & shown & so' & sa' & shown_o & shown_a
        & Hcmd & Hp & _ & _ & _ & Hsa & Hka & Ha).
  - eexists. split; [reflexivity|].
    apply (ReferenceProperties.json_loads_dumps 2 (VDict d)).
  - reflexivity.
  - reflexivity.
  - reflexivity.
  - reflexivity.
  - exists shown, sa'. split; [|split; [exact Hp|split; [exact Hsa|]]].
    + change (fst (fst (config_command Reference.json_loads Reference.json_dumps
                          Rich.console
                          (ConfigArgs false false (Some "azure")
                             None None None None None None) st)))
        with st1 in Hcmd.
      rewrite Hcmd.
      by destruct (Rich.console (Print (Reference.json_dumps 2 (VDict shown)))).
    + rewrite Hka. do 2 f_equal.
      apply (proj1 Ha "az-key-77" "aa01"); [reflexivity | reflexivity | discriminate].
Defined.

End CliProperties.

(** ** The [query] command: credentials *)

Module QueryProperties.
Import Agent Config Session Cli.

Section Query.

Context (json_loads : string -> result pyval)
        (json_dumps : nat -> pyval -> string)
        (console : event -> option exn)
        (env : string -> option string)
        (agent_run : agent_kwargs -> string -> list output * result string).

Local Ltac fields :=
  repeat first [ rewrite SettingsProperties.dict_get_put_eq
               | rewrite SettingsProperties.dict_get_put_ne by done ];
  done.

Lemma truthy_of_arg (x : option string) :
  truthy (of_arg x) = match given x with Some _ => true | None => false end.
Proof. destruct x as [s|]; simpl; [|done]. by destruct (String.eqb s ""). Qed.

Lemma of_arg_given (x : option string) (v : string) :
  given x = Some v -> of_arg x = VStr v.
Proof.
  destruct x as [s|]; simpl; [|done]. destruct (String.eqb s ""); [done|].
  by intros [= ->].
Qed.

(** The three getters at the head of the branch, on a stored object. *)
Lemma getters_stored (st : store) (d : dict) (dp dop da : pyval) (B : Type)
    (k : pyval -> pyval -> pyval -> P B) :
  stored json_loads st d ->
  dict_get "provider" (DEFAULT_CONFIG st) = Some dp ->
  dict_get "openai" (DEFAULT_CONFIG st) = Some dop ->
  dict_get "azure" (DEFAULT_CONFIG st) = Some da ->
  (config_provider <~ of_config (get_provider json_loads) ;;
   openai_settings <~ of_config (get_openai_settings json_loads) ;;
   azure_settings <~ of_config (get_azure_settings json_loads) ;;
   k config_provider openai_settings azure_settings) st
  = k (from_option id dp (dict_get "provider" d))
      (from_option id dop (dict_get "openai" d))
      (from_option id da (dict_get "azure" d))
      (Store true (config_file st) (DEFAULT_CONFIG st)).
Proof.
  intros (text & Hfile & Htext) Hdp Hdop Hda.
  set (st1 := Store true (config_file st) (DEFAULT_CONFIG st)).
  assert (Hload : forall s, config_file s = config_file st ->
                            DEFAULT_CONFIG s = DEFAULT_CONFIG st ->
                            load_config json_loads s = (st1, Return (Ref (VDict d) false))).
  { intros s Hs HD.
    rewrite (SettingsProperties.load_config_stored json_loads s text (VDict d));
      [by rewrite Hs, HD | by rewrite Hs | done]. }
  change (dict_get "provider" (DEFAULT_CONFIG st1) = Some dp) in Hdp.
  change (dict_get "openai" (DEFAULT_CONFIG st1) = Some dop) in Hdop.
  change (dict_get "azure" (DEFAULT_CONFIG st1) = Some da) in Hda.
  unfold pbind, of_config, get_provider, get_openai_settings, get_azure_settings,
    mbind.
  rewrite (Hload st eq_refl eq_refl).
  unfold default_item, lift, ret. cbn -[st1]. rewrite Hdp. cbn -[st1].
  rewrite (Hload st1 eq_refl eq_refl). cbn -[st1]. rewrite Hdop. cbn -[st1].
  rewrite (Hload st1 eq_refl eq_refl). cbn -[st1]. rewrite Hda. cbn -[st1].
  by destruct (k _ _ _ st1) as [[s2 o2] r2].
Qed.

Lemma resolve_dict (cli : option string) (sect : dict) (k : string) (default : pyval) :
  resolve cli (VDict sect) k default
  = Return (if truthy (of_arg cli) then of_arg cli
            else if truthy (from_option id VNone (dict_get k sect))
                 then from_option id VNone (dict_get k sect)
                 else default).
Proof. unfold resolve. by destruct (truthy (of_arg cli)). Qed.

Lemma pbind_return {A B} (a : A) (k : A -> P B) (st : store) :
  pbind (of_result (Return a)) k st = k a st.
Proof. unfold pbind, of_result. by destruct (k a st) as [[s o] r]. Qed.

(** One [if x: update(x)] on a stored configuration. *)
Lemma persist_stored (x : option string) (update : string -> M unit)
    (st : store) (d : dict) (R : string -> dict -> Prop) :
  stored json_loads st d ->
  (forall v, exists d',
     update v st
     = (Store true (Holds (json_dumps 2 (VDict d'))) (DEFAULT_CONFIG st), Return tt)
     /\ json_loads (json_dumps 2 (VDict d')) = Return (VDict d')
     /\ R v d') ->
  exists st' d',
    persist x update st = (st', [], Return tt)
    /\ stored json_loads st' d'
    /\ DEFAULT_CONFIG st' = DEFAULT_CONFIG st
    /\ match given x with
       | Some v => R v d'
       | None => d' = d /\ st' = st
       end.
Proof.
  intros Hst Hup. unfold persist. destruct (given x) as [v|].
  - destruct (Hup v) as (d' & Hv & Hread & HR). unfold of_config. rewrite Hv.
    eexists _, d'. split; [done|]. split; [by eexists|]. by split.
  - by exists st, d.
Qed.

Lemma run_agent_store (args : query_args) (kwargs : agent_kwargs) (st : store) :
  fst (fst (run_agent console agent_run args kwargs st)) = st.
Proof.
  unfold run_agent.
  destruct (agent_run kwargs _) as [out [result|e]]; [done|].
  destruct (is_Exception e); [|done]. by destruct (console _).
Qed.

(** The OpenAI branch with a key, on a stored configuration: the command
    is the run of the agent on the store that the three [if]s left. *)
Lemma query_openai_stored
    (Hjson : forall v, json_loads (json_dumps 2 v) = Return v)
    (args : query_args) (st : store) (d so : dict) (dp dop da : pyval) :
  stored json_loads st d ->
  dict_get "provider" (DEFAULT_CONFIG st) = Some dp ->
  dict_get "openai" (DEFAULT_CONFIG st) = Some dop ->
  dict_get "azure" (DEFAULT_CONFIG st) = Some da ->
  dict_get "openai" d = Some (VDict so) ->
  let chosen :=
    if truthy (of_arg (provider args)) then of_arg (provider args)
    else from_option id dp (dict_get "provider" d) in
  let stored_key := from_option id VNone (dict_get "api_key" so) in
  let stored_model := from_option id VNone (dict_get "model" so) in
  let key :=
    if truthy (of_arg (openai_api_key args)) then of_arg (openai_api_key args)
    else if truthy stored_key then stored_key
         else of_arg (env "OPENAI_API_KEY") in
  let model_name :=
    if truthy (of_arg (model args)) then of_arg (model args)
    else if truthy stored_model then stored_model
         else env_default env "OPENAI_MODEL" "gpt-4o" in
  is_str chosen "azure" = false ->
  truthy key = true ->
  exists st' d',
    query_command json_loads json_dumps console env agent_run args st
    = run_agent console agent_run args
        (Kwargs (namespace args) (verbose args) (negb (no_tool_display args))
                chosen (OpenAI model_name key)) st'
    /\ stored json_loads st' d'
    /\ dict_get "provider" d'
       = written (given (provider args)) (dict_get "provider" d)
    /\ dict_get "openai" d'
       = Some (VDict (put (given (model args)) "model"
                       (put (given (openai_api_key args)) "api_key" so)))
    /\ (forall k, k <> "provider" -> k <> "openai" -> dict_get k d' = dict_get k d)
    /\ (given (openai_api_key args) = None -> given (model args) = None ->
        given (provider args) = None ->
        st' = Store true (config_file st) (DEFAULT_CONFIG st)).
Proof.
  intros Hst Hdp Hdop Hda Hso chosen stored_key stored_model key model_name
         Hbranch Hkey.
  unfold query_command.
  rewrite (getters_stored st d dp dop da _ _ Hst Hdp Hdop Hda).
  fold chosen. rewrite Hbranch, Hso.
  set (st1 := Store true (config_file st) (DEFAULT_CONFIG st)).
  assert (Hst1 : stored json_loads st1 d).
  { destruct Hst as (text & ? & ?). by exists text. }
  cbn [from_option id]. rewrite !resolve_dict, !pbind_return.
  fold stored_key stored_model. fold key. fold model_name.
  rewrite Hkey. cbn [negb].
  (* the three ifs *)
  destruct (persist_stored (openai_api_key args)
              (fun v => update_openai_settings json_loads json_dumps (Some v) None)
              st1 d
              (fun v d' => dict_get "openai" d'
                           = Some (VDict (put (Some v) "api_key" so))
                           /\ forall k, k <> "openai" -> dict_get k d' = dict_get k d)
              Hst1) as (st2 & d2 & Hp2 & Hst2 & _ & H2).
  { intros v. destruct Hst1 as (text & Hfile & Htext).
    destruct (SettingsProperties.update_openai_stored json_loads json_dumps
                st1 text d so (Some v) None Hfile Htext Hso) as (d' & ? & ? & ?).
    by exists d'. }
  destruct (persist_stored (model args)
              (fun v => update_openai_settings json_loads json_dumps None (Some v))
              st2 d2
              (fun v d' => exists s2, dict_get "openai" d2 = Some (VDict s2)
                           /\ dict_get "openai" d' = Some (VDict (put (Some v) "model" s2))
                           /\ forall k, k <> "openai" -> dict_get k d' = dict_get k d2)
              Hst2) as (st3 & d3 & Hp3 & Hst3 & _ & H3).
  { intros v. destruct Hst2 as (text & Hfile & Htext).
    assert (Hs2 : exists s2, dict_get "openai" d2 = Some (VDict s2)).
    { destruct (given (openai_api_key args)); [by destruct H2 as [-> _]; eexists|].
      destruct H2 as [-> _]. by eexists. }
    destruct Hs2 as [s2 Hs2].
    destruct (SettingsProperties.update_openai_stored json_loads json_dumps
                st2 text d2 s2 None (Some v) Hfile Htext Hs2) as (d' & ? & ? & ?).
    exists d'. split; [done|]. split; [done|]. by exists s2. }
  destruct (persist_stored (provider args)
              (update_provider json_loads json_dumps) st3 d3
              (fun v d' => dict_get "provider" d' = Some (VStr v)
                           /\ forall k, k <> "provider" -> dict_get k d' = dict_get k d3)
              Hst3) as (st4 & d4 & Hp4 & Hst4 & _ & H4).
  { intros v. destruct Hst3 as (text & Hfile & Htext).
    eexists. split;
      [by apply (SettingsProperties.update_provider_stored json_loads json_dumps
                   st3 text d3 v)|].
    split; [done|]. split; [apply SettingsProperties.dict_get_set_eq|].
    intros k Hk. by apply SettingsProperties.dict_get_set_ne. }
  exists st4, d4.
  assert (Ho2 : dict_get "openai" d2
                = Some (VDict (put (given (openai_api_key args)) "api_key" so))
                /\ forall k, k <> "openai" -> dict_get k d2 = dict_get k d).
  { destruct (given (openai_api_key args)); [done|]. by destruct H2 as [-> _]. }
  destruct Ho2 as [Ho2 Hd2].
  assert (Ho3 : dict_get "openai" d3
                = Some (VDict (put (given (model args)) "model"
                         (put (given (openai_api_key args)) "api_key" so)))
                /\ forall k, k <> "openai" -> dict_get k d3 = dict_get k d2).
  { destruct (given (model args)).
    - destruct H3 as (s2 & Hs2 & Hs3 & Hf). rewrite Ho2 in Hs2.
      inversion Hs2; subst. by split.
    - destruct H3 as [-> _]. by split. }
  destruct Ho3 as [Ho3 Hd3].
  assert (Hpr : dict_get "provider" d4
                = written (given (provider args)) (dict_get "provider" d)
                /\ forall k, k <> "provider" -> dict_get k d4 = dict_get k d3).
  { destruct (given (provider args)).
    - destruct H4 as [Hp Hf]. split; [done | exact Hf].
    - destruct H4 as [-> _]. split; [|done]. simpl. by rewrite Hd3, Hd2. }
  destruct Hpr as [Hpr Hd4].
  split.
  - unfold pbind, finish. rewrite Hp2, Hp3. unfold pbind. rewrite Hp4. simpl.
    by destruct (run_agent console agent_run args _ st4) as [[s o] r].
  - split; [exact Hst4|]. split; [exact Hpr|].
    split; [by rewrite Hd4|].
    split; [intros k Hk1 Hk2; by rewrite Hd4, Hd3, Hd2|].
    intros G1 G2 G3. rewrite G1 in H2. rewrite G2 in H3. rewrite G3 in H4.
    destruct H2 as [_ ->], H3 as [_ ->], H4 as [_ ->]. done.
Qed.

(** Without an OpenAI key on the command line, in the settings and in the
    environment, [query] prints what is missing and returns 1: the agent is
    not built, and the settings file is not touched. *)
Theorem query_without_key_returns_1
    (args : query_args) (st : store) (d so : dict) (dp dop da : pyval) :
  stored json_loads st d ->
  dict_get "provider" (DEFAULT_CONFIG st) = Some dp ->
  dict_get "openai" (DEFAULT_CONFIG st) = Some dop ->
  dict_get "azure" (DEFAULT_CONFIG st) = Some da ->
  dict_get "openai" d = Some (VDict so) ->
  is_str (if truthy (of_arg (provider args)) then of_arg (provider args)
          else from_option id dp (dict_get "provider" d)) "azure" = false ->
  given (openai_api_key args) = None ->
  truthy (from_option id VNone (dict_get "api_key" so)) = false ->
  given (env "OPENAI_API_KEY") = None ->
  query_command json_loads json_dumps console env agent_run args st
  = (Store true (config_file st) (DEFAULT_CONFIG st),
     [ Console (Print "[red]Error:[/red] OpenAI API key is required. Set with --openai-api-key, config command, or OPENAI_API_KEY environment variable.") ],
     Return 1%Z).
Proof.
  intros Hst Hdp Hdop Hda Hso Hbranch Hcli Hstored Henv.
  unfold query_command.
  rewrite (getters_stored st d dp dop da _ _ Hst Hdp Hdop Hda).
  rewrite Hbranch, Hso. cbn [from_option id].
  rewrite !resolve_dict, !pbind_return.
  rewrite (truthy_of_arg (openai_api_key args)), Hcli, Hstored.
  rewrite (truthy_of_arg (env "OPENAI_API_KEY")), Henv. done.
Qed.

(** With a key, the agent is built with the first of: the key of the
    command line, the stored key, the key of the environment. The command
    returns 0 when the agent answers. When the agent raises an [Exception],
    the text of the exception is printed as markup: the command returns 1
    when the console prints it, and raises what the console raises when it
    does not. Any other exception of the agent leaves the command. *)
Theorem query_runs_the_agent_with_the_first_key
    (Hjson : forall v, json_loads (json_dumps 2 v) = Return v)
    (args : query_args) (st : store) (d so : dict) (dp dop da : pyval) :
  stored json_loads st d ->
  dict_get "provider" (DEFAULT_CONFIG st) = Some dp ->
  dict_get "openai" (DEFAULT_CONFIG st) = Some dop ->
  dict_get "azure" (DEFAULT_CONFIG st) = Some da ->
  dict_get "openai" d = Some (VDict so) ->
  let chosen :=
    if truthy (of_arg (provider args)) then of_arg (provider args)
    else from_option id dp (dict_get "provider" d) in
  let stored_key := from_option id VNone (dict_get "api_key" so) in
  let stored_model := from_option id VNone (dict_get "model" so) in
  let key :=
    if truthy (of_arg (openai_api_key args)) then of_arg (openai_api_key args)
    else if truthy stored_key then stored_key
         else of_arg (env "OPENAI_API_KEY") in
  let model_name :=
    if truthy (of_arg (model args)) then of_arg (model args)
    else if truthy stored_model then stored_model
         else env_default env "OPENAI_MODEL" "gpt-4o" in
  let kwargs := Kwargs (namespace args) (verbose args)
                       (negb (no_tool_display args)) chosen
                       (OpenAI model_name key) in
  is_str chosen "azure" = false ->
  truthy key = true ->
  (exists st',
     query_command json_loads json_dumps console env agent_run args st
     = run_agent console agent_run args kwargs st')
  /\ snd (query_command json_loads json_dumps console env agent_run args st)
     = match snd (agent_run kwargs (join " " (query args))) with
       | Return _ => Return 0%Z
       | Raise e =>
           if is_Exception e then
             match console (Print ("[red]Error:[/red] " +:+ exn_str e)) with
             | None => Return 1%Z
             | Some e' => Raise e'
             end
           else Raise e
       end
  /\ (forall k, given (openai_api_key args) = Some k -> key = VStr k)
  /\ (given (openai_api_key args) = None -> truthy stored_key = true ->
      key = stored_key)
  /\ (given (openai_api_key args) = None -> truthy stored_key = false ->
      key = of_arg (env "OPENAI_API_KEY")).
Proof.
  intros Hst Hdp Hdop Hda Hso chosen stored_key stored_model key model_name kwargs
         Hbranch Hkey.
  destruct (query_openai_stored Hjson args st d so dp dop da
              Hst Hdp Hdop Hda Hso Hbranch Hkey) as (st' & d' & Hcmd & _).
  change (query_command json_loads json_dumps console env agent_run args st
          = run_agent console agent_run args kwargs st') in Hcmd.
  split; [by exists st'|]. split.
  - rewrite Hcmd. unfold run_agent.
    destruct (agent_run kwargs _) as [out [result|e]]; [done|].
    cbn [snd]. destruct (is_Exception e); [|done]. by destruct (console _).
  - subst key. rewrite (truthy_of_arg (openai_api_key args)).
    repeat split.
    + intros k Hk. rewrite Hk. by apply of_arg_given.
    + intros -> ->. done.
    + intros -> ->. done.
Qed.

(** What [query] was given on the command line is stored before the agent
    is built, and stays stored whatever the agent does: afterwards
    [load_config] returns the given key, model and provider, and every
    other field as it was. A key taken from the settings or from the
    environment is not written: with none of the three options the file is
    left as it is. *)
Theorem query_stores_the_given_credentials
    (Hjson : forall v, json_loads (json_dumps 2 v) = Return v)
    (args : query_args) (st : store) (d so : dict) (dp dop da : pyval) :
  stored json_loads st d ->
  dict_get "provider" (DEFAULT_CONFIG st) = Some dp ->
  dict_get "openai" (DEFAULT_CONFIG st) = Some dop ->
  dict_get "azure" (DEFAULT_CONFIG st) = Some da ->
  dict_get "openai" d = Some (VDict so) ->
  is_str (if truthy (of_arg (provider args)) then of_arg (provider args)
          else from_option id dp (dict_get "provider" d)) "azure" = false ->
  truthy (if truthy (of_arg (openai_api_key args)) then of_arg (openai_api_key args)
          else if truthy (from_option id VNone (dict_get "api_key" so))
               then from_option id VNone (dict_get "api_key" so)
               else of_arg (env "OPENAI_API_KEY")) = true ->
  let st' := fst (fst (query_command json_loads json_dumps console env agent_run args st)) in
  (exists d' so',
     snd (load_config json_loads st') = Return (Ref (VDict d') false)
     /\ dict_get "provider" d'
        = written (given (provider args)) (dict_get "provider" d)
     /\ dict_get "openai" d' = Some (VDict so')
     /\ dict_get "api_key" so'
        = written (given (openai_api_key args)) (dict_get "api_key" so)
     /\ dict_get "model" so' = written (given (model args)) (dict_get "model" so)
     /\ (forall k, k <> "api_key" -> k <> "model" -> dict_get k so' = dict_get k so)
     /\ (forall k, k <> "provider" -> k <> "openai" -> dict_get k d' = dict_get k d))
  /\ (given (openai_api_key args) = None -> given (model args) = None ->
      given (provider args) = None ->
      config_file st' = config_file st).
Proof.
  intros Hst Hdp Hdop Hda Hso Hbranch Hkey st'.
  destruct (query_openai_stored Hjson args st d so dp dop da
              Hst Hdp Hdop Hda Hso Hbranch Hkey)
    as (st2 & d' & Hcmd & Hst2 & Hpr & Ho & Hd & Hsame).
  assert (Hst' : st' = st2).
  { subst st'. rewrite Hcmd. apply run_agent_store. }
  rewrite Hst'. split.
  - destruct Hst2 as (text & Hfile & Htext).
    eexists d', _. split; [by erewrite SettingsProperties.load_config_stored|].
    split; [exact Hpr|]. split; [exact Ho|].
    split; [fields|]. split; [fields|].
    split; [intros k ? ?; fields | exact Hd].
  - intros G1 G2 G3. by rewrite (Hsame G1 G2 G3).
Qed.

(** With the provider [azure], a key, an endpoint or a deployment that is
    nowhere (command line, settings, environment) ends [query] with the
    message of the first one missing and 1. Nothing is stored then: an
    option given on the same command line, such as the key, is not written
    to the settings file, and the agent is not built. *)
Theorem azure_query_with_a_missing_setting_stores_nothing
    (args : query_args) (st : store) (d sa : dict) (dp dop da : pyval) :
  stored json_loads st d ->
  dict_get "provider" (DEFAULT_CONFIG st) = Some dp ->
  dict_get "openai" (DEFAULT_CONFIG st) = Some dop ->
  dict_get "azure" (DEFAULT_CONFIG st) = Some da ->
  dict_get "azure" d = Some (VDict sa) ->
  let first_of := fun (cli : option string) (k name : string) =>
    if truthy (of_arg cli) then of_arg cli
    else if truthy (from_option id VNone (dict_get k sa))
         then from_option id VNone (dict_get k sa)
         else of_arg (env name) in
  let api_key := first_of (azure_api_key args) "api_key" "AZURE_OPENAI_API_KEY" in
  let endpoint := first_of (azure_endpoint args) "endpoint" "AZURE_OPENAI_ENDPOINT" in
  let deployment :=
    first_of (azure_deployment args) "deployment" "AZURE_OPENAI_DEPLOYMENT" in
  is_str (if truthy (of_arg (provider args)) then of_arg (provider args)
          else from_option id dp (dict_get "provider" d)) "azure" = true ->
  truthy api_key && truthy endpoint && truthy deployment = false ->
  query_command json_loads json_dumps console env agent_run args st
  = (Store true (config_file st) (DEFAULT_CONFIG st),
     [ Console (Print
         (if negb (truthy api_key) then
            "[red]Error:[/red] Azure OpenAI API key is required. Set with --azure-api-key, config command, or AZURE_OPENAI_API_KEY environment variable."
          else if negb (truthy endpoint) then
            "[red]Error:[/red] Azure OpenAI endpoint is required. Set with --azure-endpoint, config command, or AZURE_OPENAI_ENDPOINT environment variable."
          else
            "[red]Error:[/red] Azure OpenAI deployment name is required. Set with --azure-deployment, config command, or AZURE_OPENAI_DEPLOYMENT environment variable.")) ],
     Return 1%Z).
Proof.
  intros Hst Hdp Hdop Hda Hsa first_of api_key endpoint deployment Hbranch Hmissing.
  unfold query_command.
  rewrite (getters_stored st d dp dop da _ _ Hst Hdp Hdop Hda).
  rewrite Hbranch, Hsa. cbn [from_option id].
  rewrite !resolve_dict, !pbind_return.
  fold (first_of (azure_api_key args) "api_key" "AZURE_OPENAI_API_KEY").
  fold (first_of (azure_endpoint args) "endpoint" "AZURE_OPENAI_ENDPOINT").
  fold (first_of (azure_deployment args) "deployment" "AZURE_OPENAI_DEPLOYMENT").
  fold api_key endpoint deployment.
  destruct (truthy api_key); [|done].
  destruct (truthy endpoint); [|done].
  by destruct (truthy deployment).
Qed.

End Query.

(** [kubectl-assistant "list pods"] on the stored defaults, no key in the
    environment. *)
Lemma query_without_key_instance :
  let d := DEFAULT_CONFIG_literal in
  let st := Store true (Holds (Reference.json_dumps 2 (VDict d))) d in
  let args := QueryArgs [ "list pods" ] None false false None None None
                None None None None in
  snd (query_command Reference.json_loads Reference.json_dumps Rich.console
         (fun _ => None) (fun _ q => ([], Return q)) args st)
  = Return 1%Z.
Proof.
  intros d st args.
  rewrite (query_without_key_returns_1
             Reference.json_loads Reference.json_dumps Rich.console (fun _ => None)
             (fun _ q => ([], Return q)) args st d
             [ ("api_key", VStr ""); ("model", VStr "gpt-4o") ]
             (VStr "openai")
             (VDict [ ("api_key", VStr ""); ("model", VStr "gpt-4o") ])
             (VDict [ ("api_key", VStr ""); ("endpoint", VStr "");
                      ("deployment", VStr ""); ("api_version", VStr "2023-05-15") ])).
  - reflexivity.
  - eexists. split; [reflexivity|].
    apply (ReferenceProperties.json_loads_dumps 2 (VDict d)).
  - reflexivity.
  - reflexivity.
  - reflexivity.
  - reflexivity.
  - reflexivity.
  - reflexivity.
  - reflexivity.
  - reflexivity.
Defined.

(** A stored key wins over the key of the environment; the agent fails
    with a [RuntimeError] and the exit code is 1. *)
Lemma query_runs_the_agent_instance :
  let so := [ ("api_key", VStr "sk-stored-41c7"); ("model", VStr "gpt-4o") ] in
  let d := [ ("provider", VStr "openai"); ("openai", VDict so);
             ("azure", VDict []) ] in
  let st := Store true (Holds (Reference.json_dumps 2 (VDict d)))
                  DEFAULT_CONFIG_literal in
  let args := QueryArgs [ "list"; "pods" ] None false false None None None
                None None None None in
  let env := fun name : string =>
               if String.eqb name "OPENAI_API_KEY" then Some "sk-env-9d20"
               else None in
  let agent_run := fun (kwargs : agent_kwargs) (q : string) =>
        (@nil output,
         @Raise string (Exn "RuntimeError" true "no cluster")) in
  snd (query_command Reference.json_loads Reference.json_dumps Rich.console env agent_run
         args st)
  = Return 1%Z.
Proof.
  intros so d st args env agent_run.
  destruct (query_runs_the_agent_with_the_first_key
              Reference.json_loads Reference.json_dumps Rich.console env agent_run
              (ReferenceProperties.json_loads_dumps 2) args st d so
              (VStr "openai")
              (VDict [ ("api_key", VStr ""); ("model", VStr "gpt-4o") ])
              (VDict [ ("api_key", VStr ""); ("endpoint", VStr "");
                       ("deployment", VStr ""); ("api_version", VStr "2023-05-15") ]))
    as (_ & Hexit & _).
  - eexists. split; [reflexivity|].
    apply (ReferenceProperties.json_loads_dumps 2 (VDict d)).
  - reflexivity.
  - reflexivity.
  - reflexivity.
  - reflexivity.
  - reflexivity.
  - reflexivity.
  - rewrite Hexit. reflexivity.
Defined.

(** [query --openai-api-key ... --model ...] with an agent that fails: the
    key and the model are in the settings afterwards. *)
Lemma stored_credentials_instance :
  let d := DEFAULT_CONFIG_literal in
  let st := Store true (Holds (Reference.json_dumps 2 (VDict d))) d in
  let args := QueryArgs [ "list"; "pods" ] None false false None
                (Some "gpt-4.1") (Some "sk-cli-77f0a1") None None None None in
  let agent_run := fun (kwargs : agent_kwargs) (q : string) =>
        (@nil output,
         @Raise string (Exn "RuntimeError" true "no cluster")) in
  let st' := fst (fst (query_command Reference.json_loads Reference.json_dumps Rich.console
                         (fun _ => None) agent_run args st)) in
  exists d' so',
    snd (load_config Reference.json_loads st') = Return (Ref (VDict d') false)
    /\ dict_get "openai" d' = Some (VDict so')
    /\ dict_get "api_key" so' = Some (VStr "sk-cli-77f0a1")
    /\ dict_get "model" so' = Some (VStr "gpt-4.1").
Proof.
  intros d st args agent_run st'.
  destruct (query_stores_the_given_credentials
              Reference.json_loads Reference.json_dumps Rich.console (fun _ => None) agent_run
              (ReferenceProperties.json_loads_dumps 2) args st d
              [ ("api_key", VStr ""); ("model", VStr "gpt-4o") ]
              (VStr "openai")
              (VDict [ ("api_key", VStr ""); ("model", VStr "gpt-4o") ])
              (VDict [ ("api_key", VStr ""); ("endpoint", VStr "");
                       ("deployment", VStr ""); ("api_version", VStr "2023-05-15") ]))
    as ((d' & so' & Hload & _ & Ho & Hk & Hm & _) & _).
  - eexists. split; [reflexivity|].
    apply (ReferenceProperties.json_loads_dumps 2 (VDict d)).
  - reflexivity.
  - reflexivity.
  - reflexivity.
  - reflexivity.
  - reflexivity.
  - reflexivity.
  - exists d', so'. by repeat (split; [assumption|]).
Defined.

(** [query --provider azure --azure-api-key ...] without an endpoint: the
    key is not stored. *)
Lemma azure_query_instance :
  let d := DEFAULT_CONFIG_literal in
  let st := Store true (Holds (Reference.json_dumps 2 (VDict d))) d in
  let args := QueryArgs [ "list"; "pods" ] None false false (Some "azure") None
                None (Some "az-key-51b0") None None None in
  query_command Reference.json_loads Reference.json_dumps Rich.console
    (fun _ => None) (fun _ q => ([], Return q)) args st
  = (st,
     [ Console (Print "[red]Error:[/red] Azure OpenAI endpoint is required. Set with --azure-endpoint, config command, or AZURE_OPENAI_ENDPOINT environment variable.") ],
     Return 1%Z).
Proof.
  intros d st args.
  rewrite (azure_query_with_a_missing_setting_stores_nothing
             Reference.json_loads Reference.json_dumps Rich.console (fun _ => None)
             (fun _ q => ([], Return q)) args st d
             [ ("api_key", VStr ""); ("endpoint", VStr "");
               ("deployment", VStr ""); ("api_version", VStr "2023-05-15") ]
             (VStr "openai")
             (VDict [ ("api_key", VStr ""); ("model", VStr "gpt-4o") ])
             (VDict [ ("api_key", VStr ""); ("endpoint", VStr "");
                      ("deployment", VStr ""); ("api_version", VStr "2023-05-15") ])).
  - reflexivity.
  - eexists. split; [reflexivity|].
    apply (ReferenceProperties.json_loads_dumps 2 (VDict d)).
  - reflexivity.
  - reflexivity.
  - reflexivity.
  - reflexivity.
  - reflexivity.
  - reflexivity.
Defined.

End QueryProperties.
